(** * peloton.py: lazy-loading object model and serialization

    A shallow embedding of [src/peloton/peloton.py]: the Python values the
    module manipulates, the entity constructors, the attribute interception of
    [PelotonWorkout.__getattribute__], the two factory [get] methods and
    [PelotonObject.serialize], followed by the properties of the specification
    that concern them.  The last part models what is beneath the session:
    the class attributes of [PelotonAPI], [_create_api_session],
    [_api_request] and [PelotonWorkoutFactory.list]. *)

From Stdlib Require Import ZArith List String Ascii Bool Lia.
From Stdlib Require Import DecimalString.
Import ListNotations.

Open Scope string_scope.
Open Scope Z_scope.

(** ** Python values *)

(** A binary64 float: not-a-number, an infinity, or [m * 2^e] with its sign. *)
Inductive float64 : Type :=
| FNan
| FInf (neg : bool)
| FFin (neg : bool) (m : Z) (e : Z).

(** [decimal.Decimal]: sign, coefficient and exponent, or a special value. *)
Inductive decimal : Type :=
| DFinite (neg : bool) (coeff : Z) (exp : Z)
| DInf (neg : bool)
| DNaN
| DSNaN.

(** [datetime.date]. *)
Record pydate : Type := mkDate { d_year : Z; d_month : Z; d_day : Z }.

(** [datetime.datetime]; [tzoffset] is the UTC offset of the attached tzinfo in
    seconds, [None] for a naive value. *)
Record pydatetime : Type := mkDatetime {
  year : Z; month : Z; day : Z;
  hour : Z; minute : Z; second : Z; microsecond : Z;
  tzoffset : option Z
}.

(** The classes of the module that derive from [PelotonObject]. *)
Inductive pyclass : Type :=
| PelotonUser
| PelotonWorkout
| PelotonRide
| PelotonMetric
| PelotonMetricSummary
| PelotonWorkoutMetrics
| PelotonObject.

#[local] Set Warnings "-register-all".

(** Values.  [VDict] is a dictionary with string keys in insertion order (what
    a decoded JSON object and a [ret = {}] built by the module are); [VObj c d]
    is an instance of class [c] whose [__dict__] is [d]; [VNotLoaded] and
    [VDataMissing] are instances of the two marker classes. *)
Inductive pyval : Type :=
| VNone
| VBool (b : bool)
| VInt (z : Z)
| VFloat (f : float64)
| VStr (s : string)
| VList (l : list pyval)
| VTuple (l : list pyval)
| VDict (d : list (string * pyval))
| VDate (d : pydate)
| VDatetime (d : pydatetime)
| VDecimal (d : decimal)
| VNotLoaded
| VDataMissing
| VObj (c : pyclass) (d : list (string * pyval)).

Definition pydict : Type := list (string * pyval).

(** Exceptions that the modelled code can raise or let through.  [ApiError] is
    any exception coming out of the HTTP session (connection faults, the
    [PelotonException] family raised while a session is created). *)
Inductive exn : Type :=
| AttributeError (name : string)
| TypeError
| KeyError (key : string)
| IndexError
| ValueError
| OverflowError
| RuntimeError
| ApiError (tag : string).

(** Outcome of running a piece of Python code: a value, a raised exception, or
    the recursion bound of the model reached. *)
Inductive outcome (A : Type) : Type :=
| Ok (a : A)
| Raise (e : exn)
| OutOfFuel.
Arguments Ok {A} a.
Arguments Raise {A} e.
Arguments OutOfFuel {A}.

Definition bind {A B : Type} (m : outcome A) (k : A -> outcome B) : outcome B :=
  match m with
  | Ok a => k a
  | Raise e => Raise e
  | OutOfFuel => OutOfFuel
  end.

Notation "x <- m ;; k" := (bind m (fun x => k))
  (at level 61, m at next level, right associativity).

(** ** Dictionaries *)

Module Dict.

(** [d.get(k)] / [k in d]. *)
Fixpoint get (k : string) (d : pydict) : option pyval :=
  match d with
  | [] => None
  | (k', v) :: d' => if String.eqb k k' then Some v else get k d'
  end.

(** [d[k] = v]: an existing key keeps its position, a new one goes last. *)
Fixpoint set (k : string) (v : pyval) (d : pydict) : pydict :=
  match d with
  | [] => [(k, v)]
  | (k', v') :: d' =>
      if String.eqb k k' then (k', v) :: d' else (k', v') :: set k v d'
  end.

Definition keys (d : pydict) : list string := map fst d.

Definition mem (k : string) (d : pydict) : bool :=
  match get k d with Some _ => true | None => false end.

End Dict.

(** [kwargs.get(k)]: [None] when the key is missing. *)
Definition kwargs_get (k : string) (kw : pydict) : pyval :=
  match Dict.get k kw with Some v => v | None => VNone end.

(** [kwargs.get(k, default)]. *)
Definition kwargs_get_default (k : string) (dflt : pyval) (kw : pydict) : pyval :=
  match Dict.get k kw with Some v => v | None => dflt end.

(** [v[k]] for a string key [k]. *)
Definition subscript_str (v : pyval) (k : string) : outcome pyval :=
  match v with
  | VDict d => match Dict.get k d with Some x => Ok x | None => Raise (KeyError k) end
  | _ => Raise TypeError
  end.

(** [v[0]]. *)
Definition subscript_zero (v : pyval) : outcome pyval :=
  match v with
  | VList (x :: _) => Ok x
  | VList [] => Raise IndexError
  | VTuple (x :: _) => Ok x
  | VTuple [] => Raise IndexError
  | VStr (String c _) => Ok (VStr (String c ""))
  | VStr EmptyString => Raise IndexError
  | VDict _ => Raise (KeyError "0")
  | _ => Raise TypeError
  end.

(** The elements a [for] loop visits. *)
Definition iterate (v : pyval) : outcome (list pyval) :=
  match v with
  | VList l => Ok l
  | VTuple l => Ok l
  | VDict d => Ok (map (fun kv => VStr (fst kv)) d)
  | VStr s => Ok (map (fun c => VStr (String c "")) (list_ascii_of_string s))
  | _ => Raise TypeError
  end.

(** A mapping [v] unpacked into the keyword arguments of a constructor whose
    first parameter is [self]: [v] must be a mapping, and a key named [self]
    collides with the receiver. *)
Definition as_kwargs (v : pyval) : outcome pydict :=
  match v with
  | VDict d => if Dict.mem "self" d then Raise TypeError else Ok d
  | _ => Raise TypeError
  end.

(** ** Text rendering of numbers *)

(** Decimal digits of a non-negative integer ([str(n)]). *)
Definition dec (n : Z) : string :=
  NilZero.string_of_uint (N.to_uint (Z.to_N n)).

(** Left padding with zeros up to width [w], as [%0wd] does. *)
Fixpoint zeros (n : nat) : string :=
  match n with
  | O => ""
  | S n' => String "0" (zeros n')
  end.

Definition pad (w : nat) (n : Z) : string :=
  let s := dec n in
  zeros (w - String.length s) ++ s.

(** Nearest integer to [num / den] ([den > 0]), ties to even. *)
Definition round_half_even (num den : Z) : Z :=
  let q := num / den in
  let r := num mod den in
  if 2 * r <? den then q
  else if den <? 2 * r then q + 1
  else if Z.even q then q else q + 1.

(** [2^e <= p / q] for positive [p], [q]. *)
Definition ge_pow2 (p q e : Z) : bool :=
  if 0 <=? e then q * 2 ^ e <=? p else q <=? p * 2 ^ (- e).

(** The binary64 nearest to [p / q] ([p >= 0], [q > 0]), ties to even:
    53 bits of precision, least exponent -1074, overflow to infinity. *)
Definition float_of_ratio (neg : bool) (p q : Z) : float64 :=
  if p =? 0 then FFin neg 0 0
  else
    let e0 := Z.log2 p - Z.log2 q in
    let e := if ge_pow2 p q e0 then e0 else e0 - 1 in
    let ex := Z.max (e - 52) (-1074) in
    let m := if ex <? 0 then round_half_even (p * 2 ^ (- ex)) q
             else round_half_even p (q * 2 ^ ex) in
    let '(m, ex) := if m =? 2 ^ 53 then (2 ^ 52, ex + 1) else (m, ex) in
    if 971 <? ex then FInf neg else FFin neg m ex.

(** [float(d)] for a [Decimal] ([Decimal.__float__]). *)
Definition float_of_decimal (d : decimal) : outcome float64 :=
  match d with
  | DFinite neg c e =>
      Ok (if 0 <=? e then float_of_ratio neg (c * 10 ^ e) 1
          else float_of_ratio neg c (10 ^ (- e)))
  | DInf neg => Ok (FInf neg)
  | DNaN => Ok FNan
  | DSNaN => Raise ValueError
  end.

(** ["%.1f" % x] for a float [x]. *)
Definition format_1f (x : float64) : string :=
  match x with
  | FNan => "nan"
  | FInf neg => if neg then "-inf" else "inf"
  | FFin neg m e =>
      let t := if 0 <=? e then m * 10 * 2 ^ e
               else round_half_even (m * 10) (2 ^ (- e)) in
      (if neg then "-" else "") ++ dec (t / 10) ++ "." ++ dec (t mod 10)
  end.

(** ["%.1f" % val] for a [Decimal] [val]: conversion to float, then format. *)
Definition format_decimal (d : decimal) : outcome string :=
  x <- float_of_decimal d ;; Ok (format_1f x).

(** ** Dates and times *)

(** [date.isoformat()]. *)
Definition date_isoformat (d : pydate) : string :=
  pad 4 (d_year d) ++ "-" ++ pad 2 (d_month d) ++ "-" ++ pad 2 (d_day d).

(** The UTC offset suffix of [datetime.isoformat()]. *)
Definition format_offset (off : option Z) : string :=
  match off with
  | None => ""
  | Some o =>
      let a := Z.abs o in
      (if o <? 0 then "-" else "+") ++ pad 2 (a / 3600) ++ ":" ++ pad 2 (a mod 3600 / 60)
        ++ (if a mod 60 =? 0 then "" else ":" ++ pad 2 (a mod 60))
  end.

(** [datetime.isoformat()]. *)
Definition isoformat (d : pydatetime) : string :=
  pad 4 (year d) ++ "-" ++ pad 2 (month d) ++ "-" ++ pad 2 (day d) ++ "T"
    ++ pad 2 (hour d) ++ ":" ++ pad 2 (minute d) ++ ":" ++ pad 2 (second d)
    ++ (if microsecond d =? 0 then "" else "." ++ pad 6 (microsecond d))
    ++ format_offset (tzoffset d).

(** Proleptic Gregorian year, month and day of a day count since 1970-01-01. *)
Definition civil_from_days (days : Z) : Z * Z * Z :=
  let z := days + 719468 in
  let era := z / 146097 in
  let doe := z - era * 146097 in
  let yoe := (doe - doe / 1460 + doe / 36524 - doe / 146096) / 365 in
  let doy := doe - (365 * yoe + yoe / 4 - yoe / 100) in
  let mp := (5 * doy + 2) / 153 in
  let d := doy - (153 * mp + 2) / 5 + 1 in
  let m := if mp <? 10 then mp + 3 else mp - 9 in
  (yoe + era * 400 + (if m <=? 2 then 1 else 0), m, d).

(** [datetime.fromtimestamp(t, timezone.utc)] for a whole number of seconds
    with [us] microseconds on top. *)
Definition utc_of_seconds (t us : Z) : outcome pydatetime :=
  if (t <? - 2 ^ 63) || (2 ^ 63 <=? t) then Raise OverflowError
  else
    let '(y, m, d) := civil_from_days (t / 86400) in
    let r := t mod 86400 in
    if (y <? 1) || (9999 <? y) then Raise ValueError
    else Ok (mkDatetime y m d (r / 3600) (r mod 3600 / 60) (r mod 60) us (Some 0)).

(** The integer nearest to a non-negative finite float, ties to even. *)
Definition round_float_half_even (x : float64) : Z :=
  match x with
  | FFin _ m e => if 0 <=? e then m * 2 ^ e else round_half_even m (2 ^ (- e))
  | _ => 0
  end.

(** [datetime.fromtimestamp(v, timezone.utc)].  A float is split by [modf]
    into its whole and fractional parts; the fractional part is multiplied
    by [1e6] as a float (the product is rounded to binary64) and that
    product is rounded half to even to give the microseconds, which carry
    into the seconds when they reach a million or are negative. *)
Definition fromtimestamp_utc (v : pyval) : outcome pydatetime :=
  match v with
  | VInt t => utc_of_seconds t 0
  | VBool b => utc_of_seconds (if b then 1 else 0) 0
  | VFloat FNan => Raise ValueError
  | VFloat (FInf _) => Raise OverflowError
  | VFloat (FFin neg m e) =>
      let s := if neg then -1 else 1 in
      let whole := if 0 <=? e then m * 2 ^ e else m / 2 ^ (- e) in
      let us := if 0 <=? e then 0
                else round_float_half_even
                       (float_of_ratio false (m mod 2 ^ (- e) * 1000000) (2 ^ (- e))) in
      let total := s * (whole * 1000000 + us) in
      utc_of_seconds (total / 1000000) (total mod 1000000)
  | _ => Raise TypeError
  end.

(** The instant that a missing timestamp defaults to. *)
Definition epoch_utc : pydatetime := mkDatetime 1970 1 1 0 0 0 0 (Some 0).

(** ** Entity constructors

    Each [__init__] receives the decoded payload as keyword arguments and
    assigns attributes in source order; the resulting [__dict__] keeps that
    order.  Warnings sent to the logger are not part of the model. *)

Definition is_none (v : pyval) : bool :=
  match v with VNone => true | _ => false end.

(** [type(v) is NotLoaded] / [isinstance(v, NotLoaded)]. *)
Definition is_NotLoaded (v : pyval) : bool :=
  match v with VNotLoaded => true | _ => false end.

(** [v in names] for a list of string literals. *)
Definition in_names (v : pyval) (names : list string) : bool :=
  match v with
  | VStr s => existsb (String.eqb s) names
  | _ => false
  end.

Definition PelotonUser_init (kwargs : pydict) : pyval :=
  VObj PelotonUser
    [ ("username", kwargs_get "username" kwargs);
      ("id", kwargs_get "id" kwargs) ].

Definition PelotonRide_init (kwargs : pydict) : pyval :=
  VObj PelotonRide
    [ ("title", kwargs_get "title" kwargs);
      ("id", kwargs_get "id" kwargs);
      ("description", kwargs_get "description" kwargs);
      ("duration", kwargs_get "duration" kwargs);
      ("instructor_id", kwargs_get "instructor_id" kwargs) ].

Definition PelotonMetric_init (kwargs : pydict) : pyval :=
  VObj PelotonMetric
    [ ("values", kwargs_get "values" kwargs);
      ("average", kwargs_get "average_value" kwargs);
      ("name", kwargs_get "display_name" kwargs);
      ("unit", kwargs_get "display_unit" kwargs);
      ("max", kwargs_get "max_value" kwargs);
      ("slug", kwargs_get "slug" kwargs) ].

Definition PelotonMetricSummary_init (kwargs : pydict) : pyval :=
  VObj PelotonMetricSummary
    [ ("name", kwargs_get "display_name" kwargs);
      ("value", kwargs_get "value" kwargs);
      ("unit", kwargs_get "display_unit" kwargs);
      ("slug", kwargs_get "slug" kwargs) ].

Definition metric_summaries : list string := ["total_output"; "distance"; "calories"].

Definition metric_categories : list string :=
  ["output"; "cadence"; "resistance"; "speed"; "heart_rate"].

Definition slug_string (v : pyval) : string :=
  match v with VStr s => s | _ => "" end.

(** The loop over [kwargs.get('summaries')]. *)
Fixpoint build_summaries (ms : list pyval) (self : pydict) : outcome pydict :=
  match ms with
  | [] => Ok self
  | metric :: rest =>
      slug <- subscript_str metric "slug" ;;
      if negb (in_names slug metric_summaries) then build_summaries rest self
      else
        let attr_name :=
          if String.eqb (slug_string slug) "total_output" then "output_summary"
          else slug_string slug ++ "_summary" in
        kw <- as_kwargs metric ;;
        build_summaries rest (Dict.set attr_name (PelotonMetricSummary_init kw) self)
  end.

(** The loop over [kwargs.get('metrics')]. *)
Fixpoint build_metrics (ms : list pyval) (self : pydict) : outcome pydict :=
  match ms with
  | [] => Ok self
  | metric :: rest =>
      slug <- subscript_str metric "slug" ;;
      if negb (in_names slug metric_categories) then build_metrics rest self
      else
        kw <- as_kwargs metric ;;
        build_metrics rest (Dict.set (slug_string slug) (PelotonMetric_init kw) self)
  end.

Definition PelotonWorkoutMetrics_init (kwargs : pydict) : outcome pyval :=
  let self := [ ("workout_duration", kwargs_get "duration" kwargs) ] in
  seg <- subscript_zero (kwargs_get "segment_list" kwargs) ;;
  discipline <- subscript_str seg "metrics_type" ;;
  let self := Dict.set "fitness_discipline" discipline self in
  summaries <- iterate (kwargs_get "summaries" kwargs) ;;
  self <- build_summaries summaries self ;;
  metrics <- iterate (kwargs_get "metrics" kwargs) ;;
  self <- build_metrics metrics self ;;
  Ok (VObj PelotonWorkoutMetrics self).

(** The loop appending [(achievement['name'], achievement['description'])]. *)
Fixpoint build_achievements (l : list pyval) : outcome (list pyval) :=
  match l with
  | [] => Ok []
  | achievement :: rest =>
      name <- subscript_str achievement "name" ;;
      description <- subscript_str achievement "description" ;;
      tl <- build_achievements rest ;;
      Ok (VTuple [name; description] :: tl)
  end.

(** The [__dict__] that [PelotonWorkout.__init__] builds. *)
Definition PelotonWorkout_dict (kwargs : pydict) : outcome pydict :=
  ride <- (if is_none (kwargs_get "ride" kwargs) then Ok VNotLoaded
           else kw <- as_kwargs (kwargs_get "ride" kwargs) ;; Ok (PelotonRide_init kw)) ;;
  achievements <-
    (let a := kwargs_get "achievement_templates" kwargs in
     if is_none a then Ok VNotLoaded
     else l <- iterate a ;; t <- build_achievements l ;; Ok (VList t)) ;;
  created <- fromtimestamp_utc (kwargs_get_default "created" (VInt 0) kwargs) ;;
  created_at <- fromtimestamp_utc (kwargs_get_default "created_at" (VInt 0) kwargs) ;;
  start_time <- fromtimestamp_utc (kwargs_get_default "start_time" (VInt 0) kwargs) ;;
  end_time <- fromtimestamp_utc (kwargs_get_default "end_time" (VInt 0) kwargs) ;;
  Ok [ ("id", kwargs_get "id" kwargs);
       ("ride", ride);
       ("metrics", VNotLoaded);
       ("achievements", achievements);
       ("created", VDatetime created);
       ("created_at", VDatetime created_at);
       ("start_time", VDatetime start_time);
       ("end_time", VDatetime end_time);
       ("fitness_discipline", kwargs_get "fitness_discipline" kwargs);
       ("leaderboard_rank", kwargs_get_default "leaderboard_rank" VNotLoaded kwargs);
       ("leaderboard_users",
         kwargs_get_default "total_leaderboard_users" VNotLoaded kwargs);
       ("status", kwargs_get "status" kwargs) ].

Definition PelotonWorkout_init (kwargs : pydict) : outcome pyval :=
  d <- PelotonWorkout_dict kwargs ;; Ok (VObj PelotonWorkout d).

(** ** The API boundary

    Instances are modelled by value: an instance stored in an attribute is
    owned by that attribute, which is how the constructors above build them
    (a workout owns its ride and its metrics, and no entity holds a workout).
    The only state shared between calls is the network, represented by the log
    of requests made so far: one entry for each call of [_api_request], made
    when the call is made, whether or not its GET is reached (the login that
    may precede the GET is the subject of the last part). *)

(** The two endpoints that lazy loading uses, with the workout id that is
    formatted into the URI. *)
Inductive request : Type :=
| WorkoutDetail (workout_id : pyval)
| PerformanceGraph (workout_id : pyval).

(** What the code looks at in a [requests] response: the status code and the
    result of [resp.json()]. *)
Record response : Type := mkResponse {
  status_code : Z;
  json : exn + pyval
}.

Definition log : Type := list request.

(** Result of a call that may assign attributes of the receiver: the outcome,
    the receiver's [__dict__] afterwards, and the request log afterwards. *)
Definition result : Type := (outcome pyval * pydict * log)%type.

Definition of_sum {A : Type} (x : exn + A) : outcome A :=
  match x with inl e => Raise e | inr a => Ok a end.

Definition lazy_attrs : list string :=
  ["metrics"; "leaderboard_rank"; "leaderboard_users"; "achievements"].

Definition is_lazy_attr (attr : string) : bool :=
  existsb (String.eqb attr) lazy_attrs.

Section Client.

(** The HTTP session: what [peloton_session.get] answers to a request, given
    the requests made before it.  Creating the session on first use is part
    of it; [inl e] is an exception raised by either. *)
Variable session_get : log -> request -> exn + response.

(** [PelotonAPI._api_request]: any status above 200 enters the error branch,
    whose first statement reads the attribute [_contnet], which a response
    does not have. *)
Definition api_request (req : request) (l : log) : outcome response * log :=
  match session_get l req with
  | inl e => (Raise e, (l ++ [req])%list)
  | inr resp =>
      if negb ((status_code resp <=? 200) && (status_code resp <? 300))
      then (Raise (AttributeError "_contnet"), (l ++ [req])%list)
      else (Ok resp, (l ++ [req])%list)
  end.

(** [PelotonWorkoutFactory.get]; the result is the new instance's [__dict__]. *)
Definition PelotonWorkoutFactory_get (workout_id : pyval) (l : log)
  : outcome pydict * log :=
  let '(r, l) := api_request (WorkoutDetail workout_id) l in
  (resp <- r ;; workout <- of_sum (json resp) ;;
   kw <- as_kwargs workout ;; PelotonWorkout_dict kw, l).

(** [PelotonWorkoutMetricsFactory.get]. *)
Definition PelotonWorkoutMetricsFactory_get (workout_id : pyval) (l : log)
  : outcome pyval * log :=
  let '(r, l) := api_request (PerformanceGraph workout_id) l in
  (resp <- r ;; res <- of_sum (json resp) ;;
   kw <- as_kwargs res ;; PelotonWorkoutMetrics_init kw, l).

(** [PelotonWorkout.__getattribute__(self, attr)] for an instance attribute
    [attr] ([object.__getattribute__] is the lookup in [__dict__]; methods and
    class attributes are not modelled).  [fuel] bounds the depth of nested
    calls.  Reads written [self.x] and [workout.x] in the source go through
    this same method. *)
Fixpoint getattribute (fuel : nat) (self : pydict) (attr : string) (l : log)
  : result :=
  match fuel with
  | O => (OutOfFuel, self, l)
  | S fuel =>
      match Dict.get attr self with
      | None => (Raise (AttributeError attr), self, l)
      | Some value =>
          if is_lazy_attr attr && is_NotLoaded value then
            if String.eqb attr "metrics" then
              match getattribute fuel self "id" l with
              | (Ok id, self, l) =>
                  match PelotonWorkoutMetricsFactory_get id l with
                  | (Ok metrics, l) => (Ok metrics, Dict.set "metrics" metrics self, l)
                  | (Raise e, l) => (Raise e, self, l)
                  | (OutOfFuel, l) => (OutOfFuel, self, l)
                  end
              | r => r
              end
            else if String.prefix "leaderboard_" attr || String.eqb attr "achievements" then
              match getattribute fuel self "id" l with
              | (Ok id, self, l) =>
                  match PelotonWorkoutFactory_get id l with
                  | (Ok workout, l) =>
                      match getattribute fuel workout "leaderboard_rank" l with
                      | (Ok rank, workout, l) =>
                          let self := Dict.set "leaderboard_rank" rank self in
                          match getattribute fuel workout "leaderboard_users" l with
                          | (Ok users, workout, l) =>
                              let self := Dict.set "leaderboard_users" users self in
                              match getattribute fuel workout "achievements" l with
                              | (Ok achievements, _, l) =>
                                  let self := Dict.set "achievements" achievements self in
                                  getattribute fuel self attr l
                              | (Raise e, _, l) => (Raise e, self, l)
                              | (OutOfFuel, _, l) => (OutOfFuel, self, l)
                              end
                          | (Raise e, _, l) => (Raise e, self, l)
                          | (OutOfFuel, _, l) => (OutOfFuel, self, l)
                          end
                      | (Raise e, _, l) => (Raise e, self, l)
                      | (OutOfFuel, _, l) => (OutOfFuel, self, l)
                      end
                  | (Raise e, l) => (Raise e, self, l)
                  | (OutOfFuel, l) => (OutOfFuel, self, l)
                  end
              | r => r
              end
            else (Ok value, self, l)
          else (Ok value, self, l)
      end
  end.

(** [getattr(obj, k)] on an instance of class [c]: only [PelotonWorkout]
    overrides attribute access. *)
Definition getattr (fuel : nat) (c : pyclass) (self : pydict) (k : string) (l : log)
  : result :=
  match c with
  | PelotonWorkout => getattribute fuel self k l
  | _ =>
      match Dict.get k self with
      | Some v => (Ok v, self, l)
      | None => (Raise (AttributeError k), self, l)
      end
  end.

(** *** [PelotonObject.serialize] *)

(** The attribute branch for a value that is neither an instance nor a list. *)
Definition serialize_scalar (v : pyval) : outcome pyval :=
  match v with
  | VDatetime t => Ok (VStr (isoformat t))
  | VDate t => Ok (VStr (date_isoformat t))
  | VDecimal x => s <- format_decimal x ;; Ok (VStr s)
  | _ => Ok v
  end.

(** The branches of the inner loop for an element that is not an instance:
    what is appended, if anything. *)
Definition serialize_item (val : pyval) : outcome (option pyval) :=
  match val with
  | VDatetime t => Ok (Some (VStr (isoformat t)))
  | VDate t => Ok (Some (VStr (date_isoformat t)))
  | VDecimal x => s <- format_decimal x ;; Ok (Some (VStr s))
  | VStr _ | VInt _ | VBool _ | VDict _ => Ok (Some val)
  | _ => Ok None
  end.

Definition push (x : pyval) (r : outcome (list pyval) * log)
  : outcome (list pyval) * log :=
  match r with
  | (Ok xs, l) => (Ok (x :: xs), l)
  | other => other
  end.

Section Loops.

(** [ser c d l] stands for the nested call [v.serialize(depth=depth - 1)]
    on an instance [v] of class [c] with [__dict__] [d]. *)
Variable ser : pyclass -> pydict -> log -> outcome pyval * log.
Variable depth : Z.

(** The loop [for val in v] that fills [serialized_list]. *)
Fixpoint serialize_items (vs : list pyval) (l : log) : outcome (list pyval) * log :=
  match vs with
  | [] => (Ok [], l)
  | VObj c d :: rest =>
      if 1 <? depth then
        match ser c d l with
        | (Ok x, l) => push x (serialize_items rest l)
        | (Raise e, l) => (Raise e, l)
        | (OutOfFuel, l) => (OutOfFuel, l)
        end
      else serialize_items rest l
  | val :: rest =>
      match serialize_item val with
      | Ok (Some x) => push x (serialize_items rest l)
      | Ok None => serialize_items rest l
      | Raise e => (Raise e, l)
      | OutOfFuel => (OutOfFuel, l)
      end
  end.

(** The body of the loop [for k, v in obj_attrs.items()] for a key that
    is not skipped: the three branches on the type of [v]. *)
Definition serialize_entry (k : string) (v : pyval) (ret : pydict) (l : log)
  : outcome pydict * log :=
  match v with
  | VObj c d =>
      if 1 <? depth then
        match ser c d l with
        | (Ok x, l) => (Ok (Dict.set k x ret), l)
        | (Raise e, l) => (Raise e, l)
        | (OutOfFuel, l) => (OutOfFuel, l)
        end
      else (Ok ret, l)
  | VList vs =>
      match serialize_items vs l with
      | (Ok serialized_list, l) =>
          (Ok match serialized_list, vs with
              | _ :: _, _ => Dict.set k (VList serialized_list) ret
              | [], [] => Dict.set k (VList []) ret
              | [], _ :: _ => ret
              end, l)
      | (Raise e, l) => (Raise e, l)
      | (OutOfFuel, l) => (OutOfFuel, l)
      end
  | _ =>
      match serialize_scalar v with
      | Ok x => (Ok (Dict.set k x ret), l)
      | Raise e => (Raise e, l)
      | OutOfFuel => (OutOfFuel, l)
      end
  end.

(** The loop [for k, v in obj_attrs.items()] that fills [ret]; private
    keys and keys in [dont_load] are skipped. *)
Fixpoint serialize_attrs (dont_load : list string) (obj_attrs : pydict)
    (ret : pydict) (l : log) : outcome pydict * log :=
  match obj_attrs with
  | [] => (Ok ret, l)
  | (k, v) :: rest =>
      if String.prefix "_" k || existsb (String.eqb k) dont_load then
        serialize_attrs dont_load rest ret l
      else
        match serialize_entry k v ret l with
        | (Ok ret, l) => serialize_attrs dont_load rest ret l
        | (Raise e, l) => (Raise e, l)
        | (OutOfFuel, l) => (OutOfFuel, l)
        end
  end.

End Loops.

(** The loop [for k in self.__dict__] when [load_all] is true: every key is
    read with [getattr] into [obj_attrs].  [size] is the size of [__dict__]
    when the loop started: the dictionary iterator raises as soon as it
    finds that the size has changed. *)
Fixpoint load_attrs (fuel : nat) (c : pyclass) (keys : list string) (size : nat)
    (self : pydict) (obj_attrs : pydict) (l : log) : outcome pydict * pydict * log :=
  if negb (Nat.eqb (List.length self) size) then (Raise RuntimeError, self, l)
  else
    match keys with
    | [] => (Ok obj_attrs, self, l)
    | k :: keys =>
        match getattr fuel c self k l with
        | (Ok v, self, l) => load_attrs fuel c keys size self (Dict.set k v obj_attrs) l
        | (Raise e, self, l) => (Raise e, self, l)
        | (OutOfFuel, self, l) => (OutOfFuel, self, l)
        end
    end.

(** The same loop when [load_all] is false: [obj_attrs] is not touched, and
    the keys whose raw value is a [NotLoaded] instance go to [dont_load]. *)
Definition not_loaded_keys (self : pydict) : list string :=
  map fst (filter (fun kv => is_NotLoaded (snd kv)) self).

(** [serialize(self, depth, load_all)] on an instance of class [c].  The
    nested calls pass [depth - 1] and leave [load_all] to its default. *)
Fixpoint serialize (fuel : nat) (c : pyclass) (self : pydict) (depth : Z)
    (load_all : bool) (l : log) : result :=
  match fuel with
  | O => (OutOfFuel, self, l)
  | S fuel =>
      if depth =? 0 then (Ok VNone, self, l)
      else
        let ser := fun c d l =>
          let '(r, _, l) := serialize fuel c d (depth - 1) true l in (r, l) in
        let '(loaded, self, l) :=
          if load_all
          then load_attrs fuel c (Dict.keys self) (List.length self) self [] l
          else (Ok [], self, l) in
        let dont_load := if load_all then [] else not_loaded_keys self in
        match loaded with
        | Ok obj_attrs =>
            match serialize_attrs ser depth dont_load obj_attrs [] l with
            | (Ok ret, l) => (Ok (VDict ret), self, l)
            | (Raise e, l) => (Raise e, self, l)
            | (OutOfFuel, l) => (OutOfFuel, self, l)
            end
        | Raise e => (Raise e, self, l)
        | OutOfFuel => (OutOfFuel, self, l)
        end
  end.

End Client.

(** * Properties *)

(** ** Dictionary lemmas *)

Lemma get_set_same (k : string) (v : pyval) (d : pydict) :
  Dict.get k (Dict.set k v d) = Some v.
Proof.
  induction d as [|[k' v'] d IH]; simpl.
  - now rewrite String.eqb_refl.
  - destruct (String.eqb k k') eqn:E; simpl; rewrite E; auto.
Qed.

Lemma get_set_other (k k' : string) (v : pyval) (d : pydict) :
  k <> k' -> Dict.get k (Dict.set k' v d) = Dict.get k d.
Proof.
  intros Hne. induction d as [|[k2 v2] d IH]; simpl.
  - destruct (String.eqb_spec k k'); congruence.
  - destruct (String.eqb_spec k' k2) as [->|Hk]; simpl.
    + destruct (String.eqb_spec k k2); congruence.
    + destruct (String.eqb_spec k k2); auto.
Qed.

Lemma set_length_bound (k : string) (v x : pyval) (d : pydict) :
  Dict.get k d = Some x -> List.length (Dict.set k v d) = List.length d.
Proof.
  induction d as [|[k' v'] d IH]; simpl; [discriminate|].
  destruct (String.eqb k k'); simpl; auto.
Qed.

Lemma set_same_value (k : string) (v : pyval) (d : pydict) :
  Dict.get k d = Some v -> Dict.set k v d = d.
Proof.
  induction d as [|[k' v'] d IH]; simpl; [discriminate|].
  destruct (String.eqb_spec k k') as [->|Hk]; intros H.
  - now inversion H.
  - now rewrite IH.
Qed.

Lemma get_in_keys (k : string) (d : pydict) :
  In k (Dict.keys d) -> exists v, Dict.get k d = Some v.
Proof.
  induction d as [|[k' v'] d IH]; simpl; [tauto|].
  intros [->|Hin].
  - rewrite String.eqb_refl. eauto.
  - destruct (String.eqb k k'); eauto.
Qed.

(** ** Attribute reads on a workout *)

Section Reads.

Variable net : log -> request -> exn + response.

(** A read that finds no marker returns the stored value and changes nothing. *)
Lemma getattribute_plain (fuel : nat) (self : pydict) (attr : string) (v : pyval) (l : log) :
  Dict.get attr self = Some v ->
  is_lazy_attr attr && is_NotLoaded v = false ->
  getattribute net (S fuel) self attr l = (Ok v, self, l).
Proof. intros Hg Hb. simpl. now rewrite Hg, Hb. Qed.

Lemma getattribute_missing (fuel : nat) (self : pydict) (attr : string) (l : log) :
  Dict.get attr self = None ->
  getattribute net (S fuel) self attr l = (Raise (AttributeError attr), self, l).
Proof. intros Hg. simpl. now rewrite Hg. Qed.

(** The read of [self.id]. *)
Definition read_id (fuel : nat) (self : pydict) : outcome pyval :=
  match fuel with
  | O => OutOfFuel
  | S _ =>
      match Dict.get "id" self with
      | Some v => Ok v
      | None => Raise (AttributeError "id")
      end
  end.

Lemma getattribute_id (fuel : nat) (self : pydict) (l : log) :
  getattribute net fuel self "id" l = (read_id fuel self, self, l).
Proof.
  destruct fuel; simpl; [reflexivity|].
  destruct (Dict.get "id" self); reflexivity.
Qed.

(** The three attributes that the detail payload resolves together. *)
Definition is_trio (attr : string) : bool :=
  String.prefix "leaderboard_" attr || String.eqb attr "achievements".

Lemma lazy_cases (attr : string) :
  is_lazy_attr attr = true ->
  attr = "metrics" \/ attr = "leaderboard_rank" \/ attr = "leaderboard_users"
  \/ attr = "achievements".
Proof.
  unfold is_lazy_attr, lazy_attrs. simpl.
  repeat match goal with
         | |- context [String.eqb attr ?s] => destruct (String.eqb_spec attr s); auto
         end.
  discriminate.
Qed.

Lemma trio_is_lazy (attr : string) :
  attr = "leaderboard_rank" \/ attr = "leaderboard_users" \/ attr = "achievements" ->
  is_lazy_attr attr = true /\ String.eqb attr "metrics" = false /\ is_trio attr = true.
Proof. intros [-> | [-> | ->]]; repeat split; reflexivity. Qed.

(** The three assignments from the fetched [workout] to [self], as one step:
    the new [self] and log, and [Ok tt] when the three reads returned. *)
Definition extract_trio (fuel : nat) (self workout : pydict) (l : log)
  : outcome unit * pydict * log :=
  match getattribute net fuel workout "leaderboard_rank" l with
  | (Ok rank, workout, l) =>
      let self := Dict.set "leaderboard_rank" rank self in
      match getattribute net fuel workout "leaderboard_users" l with
      | (Ok users, workout, l) =>
          let self := Dict.set "leaderboard_users" users self in
          match getattribute net fuel workout "achievements" l with
          | (Ok achievements, _, l) =>
              (Ok tt, Dict.set "achievements" achievements self, l)
          | (Raise e, _, l) => (Raise e, self, l)
          | (OutOfFuel, _, l) => (OutOfFuel, self, l)
          end
      | (Raise e, _, l) => (Raise e, self, l)
      | (OutOfFuel, _, l) => (OutOfFuel, self, l)
      end
  | (Raise e, _, l) => (Raise e, self, l)
  | (OutOfFuel, _, l) => (OutOfFuel, self, l)
  end.

(** The branch taken for a deferred [metrics]. *)
Lemma getattribute_metrics (fuel : nat) (self : pydict) (l : log) :
  Dict.get "metrics" self = Some VNotLoaded ->
  getattribute net (S fuel) self "metrics" l =
  match read_id fuel self with
  | Ok id =>
      match PelotonWorkoutMetricsFactory_get net id l with
      | (Ok metrics, l) => (Ok metrics, Dict.set "metrics" metrics self, l)
      | (Raise e, l) => (Raise e, self, l)
      | (OutOfFuel, l) => (OutOfFuel, self, l)
      end
  | Raise e => (Raise e, self, l)
  | OutOfFuel => (OutOfFuel, self, l)
  end.
Proof.
  intros Hg. cbn [getattribute]. rewrite Hg. cbn [is_NotLoaded].
  change (is_lazy_attr "metrics" && true) with true. cbv iota.
  change (String.eqb "metrics" "metrics") with true. cbv iota.
  rewrite getattribute_id. destruct (read_id fuel self); reflexivity.
Qed.

(** The branch taken for a deferred member of the trio. *)
Lemma getattribute_trio (fuel : nat) (self : pydict) (attr : string) (l : log) :
  attr = "leaderboard_rank" \/ attr = "leaderboard_users" \/ attr = "achievements" ->
  Dict.get attr self = Some VNotLoaded ->
  getattribute net (S fuel) self attr l =
  match read_id fuel self with
  | Ok id =>
      match PelotonWorkoutFactory_get net id l with
      | (Ok workout, l) =>
          match extract_trio fuel self workout l with
          | (Ok _, self, l) => getattribute net fuel self attr l
          | (Raise e, self, l) => (Raise e, self, l)
          | (OutOfFuel, self, l) => (OutOfFuel, self, l)
          end
      | (Raise e, l) => (Raise e, self, l)
      | (OutOfFuel, l) => (OutOfFuel, self, l)
      end
  | Raise e => (Raise e, self, l)
  | OutOfFuel => (OutOfFuel, self, l)
  end.
Proof.
  intros Hattr Hg. destruct (trio_is_lazy attr Hattr) as (Hl & Hm & Ht).
  cbn [getattribute]. rewrite Hg, Hl. cbn [is_NotLoaded andb].
  rewrite Hm. unfold is_trio in Ht. rewrite Ht.
  rewrite getattribute_id. destruct (read_id fuel self); try reflexivity.
  destruct (PelotonWorkoutFactory_get net a l) as [[w | e | ] l1]; try reflexivity.
  unfold extract_trio.
  destruct (getattribute net fuel w "leaderboard_rank" l1) as [[[rank | e | ] w1] l2];
    try reflexivity.
  destruct (getattribute net fuel w1 "leaderboard_users" l2) as [[[users | e | ] w2] l3];
    try reflexivity.
  destruct (getattribute net fuel w2 "achievements" l3) as [[[ach | e | ] w3] l4];
    reflexivity.
Qed.

(** The four ways a read can go, with the equation that holds in each. *)
Lemma getattribute_view (fuel : nat) (self : pydict) (attr : string) (l : log) :
  (Dict.get attr self = None /\
   getattribute net (S fuel) self attr l = (Raise (AttributeError attr), self, l))
  \/ (exists v, Dict.get attr self = Some v /\
                is_lazy_attr attr && is_NotLoaded v = false /\
                getattribute net (S fuel) self attr l = (Ok v, self, l))
  \/ (attr = "metrics" /\ Dict.get attr self = Some VNotLoaded)
  \/ ((attr = "leaderboard_rank" \/ attr = "leaderboard_users" \/ attr = "achievements")
      /\ Dict.get attr self = Some VNotLoaded).
Proof.
  destruct (Dict.get attr self) as [v|] eqn:Hg.
  - right. destruct (is_lazy_attr attr && is_NotLoaded v) eqn:Hb.
    + right. apply andb_true_iff in Hb as [Hl Hv].
      destruct v; try discriminate.
      destruct (lazy_cases attr Hl) as [H|H]; auto.
    + left. exists v. repeat split; auto. now apply getattribute_plain.
  - left. split; auto. now apply getattribute_missing.
Qed.

Lemma api_request_log (req : request) (l l' : log) (r : outcome response) :
  api_request net req l = (r, l') -> l' = (l ++ [req])%list.
Proof.
  unfold api_request. destruct (net l req) as [e|resp].
  - now inversion 1.
  - destruct (negb _); now inversion 1.
Qed.

Lemma workout_factory_log (id : pyval) (l l' : log) (r : outcome pydict) :
  PelotonWorkoutFactory_get net id l = (r, l') -> l' = (l ++ [WorkoutDetail id])%list.
Proof.
  unfold PelotonWorkoutFactory_get.
  destruct (api_request net (WorkoutDetail id) l) as [r0 l0] eqn:E.
  apply api_request_log in E. intros H. inversion H. congruence.
Qed.

Lemma metrics_factory_log (id : pyval) (l l' : log) (r : outcome pyval) :
  PelotonWorkoutMetricsFactory_get net id l = (r, l') ->
  l' = (l ++ [PerformanceGraph id])%list.
Proof.
  unfold PelotonWorkoutMetricsFactory_get.
  destruct (api_request net (PerformanceGraph id) l) as [r0 l0] eqn:E.
  apply api_request_log in E. intros H. inversion H. congruence.
Qed.

(** A metrics fetch that returns, returns a [PelotonWorkoutMetrics] instance. *)
Lemma metrics_factory_obj (id : pyval) (l l' : log) (m : pyval) :
  PelotonWorkoutMetricsFactory_get net id l = (Ok m, l') ->
  exists d, m = VObj PelotonWorkoutMetrics d.
Proof.
  unfold PelotonWorkoutMetricsFactory_get.
  destruct (api_request net (PerformanceGraph id) l) as [[resp|e| ] l0];
    simpl; try discriminate.
  destruct (of_sum (json resp)) as [res|e| ]; simpl; try discriminate.
  destruct (as_kwargs res) as [kw|e| ]; simpl; try discriminate.
  unfold PelotonWorkoutMetrics_init.
  destruct (subscript_zero _) as [seg|e| ]; simpl; try discriminate.
  destruct (subscript_str seg _) as [dis|e| ]; simpl; try discriminate.
  destruct (iterate (kwargs_get "summaries" kw)) as [ss|e| ]; simpl; try discriminate.
  destruct (build_summaries ss _) as [s1|e| ]; simpl; try discriminate.
  destruct (iterate (kwargs_get "metrics" kw)) as [ms|e| ]; simpl; try discriminate.
  destruct (build_metrics ms _) as [s2|e| ]; simpl; try discriminate.
  inversion 1. eauto.
Qed.

(** An attribute is loaded when it is present and is not the marker. *)
Definition loaded (k : string) (d : pydict) : bool :=
  match Dict.get k d with
  | Some v => negb (is_NotLoaded v)
  | None => false
  end.

Definition trio_loaded (d : pydict) : bool :=
  loaded "leaderboard_rank" d && loaded "leaderboard_users" d && loaded "achievements" d.

Lemma not_lazy_neq (k : string) :
  is_lazy_attr k = false ->
  k <> "metrics" /\ k <> "leaderboard_rank" /\ k <> "leaderboard_users"
  /\ k <> "achievements".
Proof. intros H. repeat split; intros ->; discriminate. Qed.

(** The extraction assigns the three trio attributes of [self] and nothing else. *)
Lemma extract_trio_frame (fuel : nat) (self w s1 : pydict) (l l1 : log) (r : outcome unit) (k : string) :
  extract_trio fuel self w l = (r, s1, l1) ->
  k <> "leaderboard_rank" -> k <> "leaderboard_users" -> k <> "achievements" ->
  Dict.get k s1 = Dict.get k self.
Proof.
  unfold extract_trio. intros H H1 H2 H3.
  destruct (getattribute net fuel w "leaderboard_rank" l) as [[[rank|e| ] w1] l2];
    try (inversion H; subst; reflexivity).
  destruct (getattribute net fuel w1 "leaderboard_users" l2) as [[[users|e| ] w2] l3];
    try (inversion H; subst; now rewrite get_set_other).
  destruct (getattribute net fuel w2 "achievements" l3) as [[[ach|e| ] w3] l4];
    inversion H; subst; now rewrite ?get_set_other.
Qed.

(** A read assigns nothing but the four lazy attributes. *)
Lemma getattribute_frame (fuel : nat) :
  forall (self : pydict) (attr : string) (l : log) r self' l' (k : string),
    getattribute net fuel self attr l = (r, self', l') ->
    is_lazy_attr k = false ->
    Dict.get k self' = Dict.get k self.
Proof.
  induction fuel as [|fuel IH]; intros self attr l r self' l' k H Hk.
  - now inversion H.
  - destruct (not_lazy_neq k Hk) as (N1 & N2 & N3 & N4).
    destruct (getattribute_view fuel self attr l)
      as [[_ E] | [(v & _ & _ & E) | [[-> Hg] | [Ha Hg]]]].
    + rewrite E in H. now inversion H.
    + rewrite E in H. now inversion H.
    + rewrite getattribute_metrics in H by assumption.
      destruct (read_id fuel self); try (now inversion H).
      destruct (PelotonWorkoutMetricsFactory_get net a l) as [[m|e| ] l1];
        inversion H; subst; auto using get_set_other.
    + rewrite getattribute_trio in H by assumption.
      destruct (read_id fuel self); try (now inversion H).
      destruct (PelotonWorkoutFactory_get net a l) as [[w|e| ] l1];
        try (now inversion H).
      destruct (extract_trio fuel self w l1) as [[[u|e| ] s1] l2] eqn:E;
        apply extract_trio_frame with (k := k) in E; auto.
      * rewrite <- E. eapply IH; eauto.
      * inversion H; subst; auto.
      * inversion H; subst; auto.
Qed.

(** [l'] continues the log [l]. *)
Definition extends (l l' : log) : Prop := exists l2, l' = (l ++ l2)%list.

Lemma extends_refl (l : log) : extends l l.
Proof. exists []. now rewrite app_nil_r. Qed.

Lemma extends_trans (l1 l2 l3 : log) : extends l1 l2 -> extends l2 l3 -> extends l1 l3.
Proof. intros [a ->] [b ->]. exists (a ++ b)%list. now rewrite app_assoc. Qed.

Lemma extends_app (l l2 : log) : extends l (l ++ l2)%list.
Proof. now exists l2. Qed.

Hint Resolve extends_refl extends_trans extends_app : core.

(** A read only ever appends to the request log. *)
Lemma getattribute_log (fuel : nat) :
  forall (self : pydict) (attr : string) (l : log) r self' l',
    getattribute net fuel self attr l = (r, self', l') -> extends l l'.
Proof.
  induction fuel as [|fuel IH]; intros self attr l r self' l' H.
  - inversion H. auto.
  - destruct (getattribute_view fuel self attr l)
      as [[_ E] | [(v & _ & _ & E) | [[-> Hg] | [Ha Hg]]]].
    + rewrite E in H. inversion H. auto.
    + rewrite E in H. inversion H. auto.
    + rewrite getattribute_metrics in H by assumption.
      destruct (read_id fuel self); try (inversion H; auto; fail).
      destruct (PelotonWorkoutMetricsFactory_get net a l) as [[m|e| ] l1] eqn:E;
        apply metrics_factory_log in E; inversion H; subst; auto.
    + rewrite getattribute_trio in H by assumption.
      destruct (read_id fuel self); try (inversion H; auto; fail).
      destruct (PelotonWorkoutFactory_get net a l) as [[w|e| ] l1] eqn:E;
        apply workout_factory_log in E; try (inversion H; subst; auto; fail).
      assert (Hl1 : extends l l1) by (subst l1; auto). clear E.
      assert (Hx : forall r0 s1 l2, extract_trio fuel self w l1 = (r0, s1, l2) ->
                                    extends l1 l2).
      { unfold extract_trio. intros r0 s1 l2 Hx.
        repeat match type of Hx with
               | context [getattribute net fuel ?w0 ?a0 ?l0] =>
                   let E := fresh "E" in
                   destruct (getattribute net fuel w0 a0 l0) as [[[?|?| ] ?] ?] eqn:E;
                   apply IH in E
               end;
          inversion Hx; subst; eauto. }
      destruct (extract_trio fuel self w l1) as [[[u|e| ] s1] l2] eqn:E2;
        specialize (Hx _ _ _ eq_refl).
      * apply IH in H. eauto.
      * inversion H; subst. eauto.
      * inversion H; subst. eauto.
Qed.

(** A read of a lazy attribute that returns never returns the marker, and
    leaves the returned value stored in the attribute. *)
Lemma getattribute_resolved (fuel : nat) :
  forall (self : pydict) (attr : string) (l : log) v self' l',
    is_lazy_attr attr = true ->
    getattribute net fuel self attr l = (Ok v, self', l') ->
    is_NotLoaded v = false /\ Dict.get attr self' = Some v.
Proof.
  induction fuel as [|fuel IH]; intros self attr l v self' l' Hl H.
  - inversion H.
  - destruct (getattribute_view fuel self attr l)
      as [[_ E] | [(x & Hg & Hb & E) | [[-> Hg] | [Ha Hg]]]].
    + rewrite E in H. inversion H.
    + rewrite E in H. inversion H; subst. rewrite Hl in Hb. auto.
    + rewrite getattribute_metrics in H by assumption.
      destruct (read_id fuel self); try (now inversion H).
      destruct (PelotonWorkoutMetricsFactory_get net a l) as [[m|e| ] l1] eqn:E;
        inversion H; subst.
      apply metrics_factory_obj in E as [d ->]. split; auto using get_set_same.
    + rewrite getattribute_trio in H by assumption.
      destruct (read_id fuel self); try (now inversion H).
      destruct (PelotonWorkoutFactory_get net a l) as [[w|e| ] l1];
        try (now inversion H).
      destruct (extract_trio fuel self w l1) as [[[u|e| ] s1] l2];
        try (now inversion H).
      eapply IH; eauto.
Qed.

Lemma loaded_set_same (k : string) (v : pyval) (d : pydict) :
  is_NotLoaded v = false -> loaded k (Dict.set k v d) = true.
Proof. intros H. unfold loaded. now rewrite get_set_same, H. Qed.

Lemma loaded_set_other (k k' : string) (v : pyval) (d : pydict) :
  k <> k' -> loaded k (Dict.set k' v d) = loaded k d.
Proof. intros H. unfold loaded. now rewrite get_set_other. Qed.

Lemma loaded_plain (k : string) (d : pydict) :
  loaded k d = true ->
  exists v, Dict.get k d = Some v /\ is_lazy_attr k && is_NotLoaded v = false.
Proof.
  unfold loaded. destruct (Dict.get k d) as [v|]; [|discriminate].
  intros H. exists v. split; auto. apply negb_true_iff in H. rewrite H.
  apply andb_false_r.
Qed.

(** An extraction that completes leaves the three attributes loaded. *)
Lemma extract_trio_loaded (fuel : nat) (self w s1 : pydict) (l l1 : log) (u : unit) :
  extract_trio fuel self w l = (Ok u, s1, l1) -> trio_loaded s1 = true.
Proof.
  unfold extract_trio. intros H.
  destruct (getattribute net fuel w "leaderboard_rank" l) as [[[rank|e| ] w1] l2] eqn:E1;
    try discriminate.
  destruct (getattribute net fuel w1 "leaderboard_users" l2) as [[[users|e| ] w2] l3] eqn:E2;
    try discriminate.
  destruct (getattribute net fuel w2 "achievements" l3) as [[[ach|e| ] w3] l4] eqn:E3;
    try discriminate.
  apply getattribute_resolved in E1 as [N1 _]; [|reflexivity].
  apply getattribute_resolved in E2 as [N2 _]; [|reflexivity].
  apply getattribute_resolved in E3 as [N3 _]; [|reflexivity].
  inversion H; subst. unfold trio_loaded.
  rewrite !loaded_set_other by discriminate.
  rewrite loaded_set_same by assumption.
  rewrite loaded_set_other by discriminate.
  rewrite !loaded_set_same by assumption.
  reflexivity.
Qed.

Lemma trio_loaded_attr (attr : string) (d : pydict) :
  attr = "leaderboard_rank" \/ attr = "leaderboard_users" \/ attr = "achievements" ->
  trio_loaded d = true -> loaded attr d = true.
Proof.
  unfold trio_loaded. intros Ha H.
  apply andb_true_iff in H as [H H3]. apply andb_true_iff in H as [H1 H2].
  destruct Ha as [-> | [-> | ->]]; assumption.
Qed.

(** Once the trio is loaded, a read can assign [metrics] only, and only
    when [metrics] is still deferred. *)
Lemma getattribute_trio_loaded (fuel : nat) (self : pydict) (attr : string) (l : log)
    r self' l' :
  trio_loaded self = true ->
  getattribute net fuel self attr l = (r, self', l') ->
  (forall k, k <> "metrics" -> Dict.get k self' = Dict.get k self)
  /\ (loaded "metrics" self = true -> self' = self /\ l' = l)
  /\ List.length self' = List.length self.
Proof.
  intros Ht H. destruct fuel as [|fuel]; [inversion H; auto|].
  destruct (getattribute_view fuel self attr l)
    as [[_ E] | [(v & _ & _ & E) | [[-> Hg] | [Ha Hg]]]].
  - rewrite E in H. inversion H; auto.
  - rewrite E in H. inversion H; auto.
  - rewrite getattribute_metrics in H by assumption.
    assert (Hm : loaded "metrics" self = false) by (unfold loaded; now rewrite Hg).
    rewrite Hm.
    destruct (read_id fuel self); try (inversion H; subst; repeat split; auto; discriminate).
    destruct (PelotonWorkoutMetricsFactory_get net a l) as [[m|e| ] l1];
      inversion H; subst; repeat split; auto; try discriminate.
    + intros k Hk. now apply get_set_other.
    + eapply set_length_bound; eauto.
  - apply (trio_loaded_attr attr self Ha) in Ht. unfold loaded in Ht.
    rewrite Hg in Ht. discriminate.
Qed.

Lemma trio_loaded_preserved (fuel : nat) (self : pydict) (attr : string) (l : log)
    r self' l' :
  trio_loaded self = true ->
  getattribute net fuel self attr l = (r, self', l') ->
  trio_loaded self' = true.
Proof.
  intros Ht H. destruct (getattribute_trio_loaded _ _ _ _ _ _ _ Ht H) as (Hk & _ & _).
  unfold trio_loaded, loaded in *. now rewrite !Hk by discriminate.
Qed.

(** A deferred member of the trio whose read returns leaves all three loaded. *)
Lemma trio_resolution_loaded (fuel : nat) (self : pydict) (attr : string) (l : log)
    v self' l' :
  attr = "leaderboard_rank" \/ attr = "leaderboard_users" \/ attr = "achievements" ->
  Dict.get attr self = Some VNotLoaded ->
  getattribute net fuel self attr l = (Ok v, self', l') ->
  trio_loaded self' = true.
Proof.
  intros Ha Hg H. destruct fuel as [|fuel]; [inversion H|].
  rewrite getattribute_trio in H by assumption.
  destruct (read_id fuel self); try (now inversion H).
  destruct (PelotonWorkoutFactory_get net a l) as [[w|e| ] l1]; try (now inversion H).
  destruct (extract_trio fuel self w l1) as [[[u|e| ] s1] l2] eqn:E; try (now inversion H).
  apply extract_trio_loaded in E. eapply trio_loaded_preserved; eauto.
Qed.

Lemma extract_trio_log (fuel : nat) (self w s1 : pydict) (l l1 : log) r :
  extract_trio fuel self w l = (r, s1, l1) -> extends l l1.
Proof.
  unfold extract_trio. intros H.
  repeat match type of H with
         | context [getattribute net fuel ?w0 ?a0 ?l0] =>
             let E := fresh "E" in
             destruct (getattribute net fuel w0 a0 l0) as [[[?|?| ] ?] ?] eqn:E;
             apply getattribute_log in E
         end;
    inversion H; subst; eauto.
Qed.

(** The request that resolving [attr] sends for workout [id]. *)
Definition request_for (attr : string) (id : pyval) : request :=
  if String.eqb attr "metrics" then PerformanceGraph id else WorkoutDetail id.

(** Resolving a deferred attribute starts by sending its request. *)
Lemma resolution_sends_request (fuel : nat) (self : pydict) (attr : string) (l : log)
    (id : pyval) :
  is_lazy_attr attr = true ->
  Dict.get attr self = Some VNotLoaded ->
  Dict.get "id" self = Some id ->
  exists r self' l2,
    getattribute net (S (S fuel)) self attr l
    = (r, self', (l ++ request_for attr id :: l2)%list).
Proof.
  intros Hl Hg Hid.
  assert (Hx : forall l0 l1 : log, extends (l0 ++ [request_for attr id])%list l1 ->
               exists l2, l1 = (l0 ++ request_for attr id :: l2)%list).
  { intros l0 l1 [x ->]. exists x. now rewrite <- app_assoc. }
  destruct (lazy_cases attr Hl) as [-> | Ha].
  - rewrite getattribute_metrics by assumption. cbn [read_id]. rewrite Hid.
    destruct (PelotonWorkoutMetricsFactory_get net id l) as [[m|e| ] l1] eqn:E;
      apply metrics_factory_log in E; subst l1;
      change (request_for "metrics" id) with (PerformanceGraph id); eauto.
  - rewrite getattribute_trio by assumption. cbn [read_id]. rewrite Hid.
    assert (Hr : request_for attr id = WorkoutDetail id)
      by (destruct Ha as [-> | [-> | ->]]; reflexivity).
    rewrite Hr in *.
    destruct (PelotonWorkoutFactory_get net id l) as [[w|e| ] l1] eqn:E;
      apply workout_factory_log in E; subst l1; eauto.
    destruct (extract_trio (S fuel) self w _) as [[[u|e| ] s1] l2] eqn:E2;
      apply extract_trio_log in E2.
    + destruct (getattribute net (S fuel) s1 attr l2) as [[r s2] l3] eqn:E3.
      apply getattribute_log in E3.
      destruct (Hx l l3) as [x ->]; eauto.
    + destruct (Hx l l2) as [x ->]; eauto.
    + destruct (Hx l l2) as [x ->]; eauto.
Qed.

(** A caller reading the attributes [attrs] one after the other, whatever
    each read gives. *)
Fixpoint read_each (fuel : nat) (attrs : list string) (self : pydict) (l : log)
  : pydict * log :=
  match attrs with
  | [] => (self, l)
  | a :: rest =>
      let '(_, self, l) := getattribute net fuel self a l in
      read_each fuel rest self l
  end.

(** [attr] holds the resolved value [v] for good: the value is stored and,
    for a member of the trio, the whole trio is loaded. *)
Definition cached (attr : string) (v : pyval) (d : pydict) : Prop :=
  Dict.get attr d = Some v /\ is_NotLoaded v = false
  /\ (attr <> "metrics" -> trio_loaded d = true).

Lemma cached_read (attr : string) (v : pyval) (d : pydict) (fuel : nat) (l : log) :
  cached attr v d -> getattribute net (S fuel) d attr l = (Ok v, d, l).
Proof.
  intros (Hg & Hv & _). apply getattribute_plain; auto.
  rewrite Hv. apply andb_false_r.
Qed.

(** A read of anything but [metrics] assigns nothing outside the trio. *)
Lemma getattribute_keeps (fuel : nat) :
  forall (self : pydict) (attr : string) (l : log) r self' l' (k : string),
    getattribute net fuel self attr l = (r, self', l') ->
    attr <> "metrics" ->
    k <> "leaderboard_rank" -> k <> "leaderboard_users" -> k <> "achievements" ->
    Dict.get k self' = Dict.get k self.
Proof.
  induction fuel as [|fuel IH]; intros self attr l r self' l' k H Hm N1 N2 N3.
  - now inversion H.
  - destruct (getattribute_view fuel self attr l)
      as [[_ E] | [(v & _ & _ & E) | [[-> Hg] | [Ha Hg]]]].
    + rewrite E in H. now inversion H.
    + rewrite E in H. now inversion H.
    + congruence.
    + rewrite getattribute_trio in H by assumption.
      destruct (read_id fuel self); try (now inversion H).
      destruct (PelotonWorkoutFactory_get net a l) as [[w|e| ] l1];
        try (now inversion H).
      destruct (extract_trio fuel self w l1) as [[[u|e| ] s1] l2] eqn:E;
        apply extract_trio_frame with (k := k) in E; auto.
      * rewrite <- E. eapply IH; eauto.
      * inversion H; subst; auto.
      * inversion H; subst; auto.
Qed.

Lemma cached_preserved (attr : string) (v : pyval) (d : pydict) (fuel : nat)
    (a : string) (l : log) r d' l' :
  cached attr v d ->
  getattribute net fuel d a l = (r, d', l') ->
  cached attr v d'.
Proof.
  intros (Hg & Hv & Ht) H.
  destruct (String.eqb_spec attr "metrics") as [-> | Hm].
  - split; [|split; [assumption|congruence]].
    destruct (String.eqb_spec a "metrics") as [-> | Ha].
    + destruct fuel as [|fuel]; [inversion H; subst; auto|].
      assert (E : getattribute net (S fuel) d "metrics" l = (Ok v, d, l)).
      { apply getattribute_plain; auto. }
      rewrite E in H. inversion H; subst; auto.
    + rewrite <- Hg. eapply getattribute_keeps; eauto; discriminate.
  - specialize (Ht Hm).
    destruct (getattribute_trio_loaded _ _ _ _ _ _ _ Ht H) as (Hk & _ & _).
    repeat split; auto.
    + rewrite Hk; auto.
    + intros _. eapply trio_loaded_preserved; eauto.
Qed.

Lemma cached_read_each (attr : string) (v : pyval) (fuel : nat) (attrs : list string) :
  forall (d : pydict) (l : log),
    cached attr v d -> cached attr v (fst (read_each fuel attrs d l)).
Proof.
  induction attrs as [|a rest IH]; intros d l Hc; simpl; auto.
  destruct (getattribute net fuel d a l) as [[r d1] l1] eqn:E.
  apply IH. eapply cached_preserved; eauto.
Qed.

(** Resolution of a deferred attribute ends with the value cached. *)
Lemma resolution_cached (fuel : nat) (self : pydict) (attr : string) (l : log)
    v self1 l1 :
  is_lazy_attr attr = true ->
  Dict.get attr self = Some VNotLoaded ->
  getattribute net fuel self attr l = (Ok v, self1, l1) ->
  cached attr v self1.
Proof.
  intros Hl Hg H.
  destruct (getattribute_resolved _ _ _ _ _ _ _ Hl H) as [Hv Hs].
  repeat split; auto. intros Hm.
  destruct (lazy_cases attr Hl) as [-> | Ha]; [congruence|].
  eapply trio_resolution_loaded; eauto.
Qed.

(** ** Resolve-once *)

(** C4. Once a read of a deferred field ([metrics], [achievements],
    [leaderboard_rank] or [leaderboard_users]) has returned a value, that
    value is stored on the instance and is not the marker; it stays stored
    through any later reads of any attributes, and every later read of the
    field returns it with the instance and the request log unchanged.  In
    particular the first read of a deferred [metrics] sends exactly one
    request and a second read sends none. *)
Theorem resolved_field_is_cached (fuel : nat) (self : pydict) (attr : string) (l : log)
    (v : pyval) (self1 : pydict) (l1 : log) :
  is_lazy_attr attr = true ->
  Dict.get attr self = Some VNotLoaded ->
  getattribute net fuel self attr l = (Ok v, self1, l1) ->
  Dict.get attr self1 = Some v
  /\ is_NotLoaded v = false
  /\ (forall fuel2 attrs fuel3,
        let '(self2, l2) := read_each fuel2 attrs self1 l1 in
        Dict.get attr self2 = Some v
        /\ getattribute net (S fuel3) self2 attr l2 = (Ok v, self2, l2))
  /\ (attr = "metrics" ->
      exists id, Dict.get "id" self = Some id
                 /\ l1 = (l ++ [PerformanceGraph id])%list
                 /\ forall fuel3, getattribute net (S fuel3) self1 "metrics" l1
                                   = (Ok v, self1, l1)).
Proof.
  intros Hl Hg H.
  pose proof (resolution_cached _ _ _ _ _ _ _ Hl Hg H) as Hc.
  split; [apply Hc|]. split; [apply Hc|]. split.
  - intros fuel2 attrs fuel3.
    pose proof (cached_read_each attr v fuel2 attrs self1 l1 Hc) as Hc2.
    destruct (read_each fuel2 attrs self1 l1) as [self2 l2]. simpl in Hc2.
    split; [apply Hc2|]. now apply cached_read.
  - intros ->. destruct fuel as [|fuel]; [inversion H|].
    rewrite getattribute_metrics in H by assumption.
    destruct fuel as [|fuel]; [inversion H|]. cbn [read_id] in H.
    destruct (Dict.get "id" self) as [id|]; [|inversion H].
    exists id. split; auto.
    destruct (PelotonWorkoutMetricsFactory_get net id l) as [[m|e| ] l0] eqn:E;
      try (now inversion H).
    apply metrics_factory_log in E. inversion H; subst. split; auto.
    intros fuel3. now apply cached_read.
Qed.

(** ** Shared resolution of the trio *)

(** The read of a deferred [metrics] whose fetch returns. *)
Lemma metrics_resolved_by_one_fetch (fuel : nat) (self : pydict) (l l1 : log)
    (id m : pyval) :
  Dict.get "id" self = Some id ->
  Dict.get "metrics" self = Some VNotLoaded ->
  PelotonWorkoutMetricsFactory_get net id l = (Ok m, l1) ->
  getattribute net (S (S fuel)) self "metrics" l
  = (Ok m, Dict.set "metrics" m self, (l ++ [PerformanceGraph id])%list).
Proof.
  intros Hid Hg Hf. pose proof (metrics_factory_log _ _ _ _ Hf) as ->.
  rewrite getattribute_metrics by assumption. cbn [read_id]. now rewrite Hid, Hf.
Qed.

(** C3 (as amended).  Two independent halves, for a workout with an [id].
    When the detail fetch for that id returns a workout on which
    [leaderboard_rank], [leaderboard_users] and [achievements] are all
    populated, a read of any one of the three, while it is deferred, sends
    exactly one [WorkoutDetail] request, stores all three and leaves
    [metrics] as it was, later reads of any of the three send nothing, and
    a deferred [metrics] is still read as before.  Whatever the state of the
    three, a read of the deferred [metrics] sends exactly one
    [PerformanceGraph] request when its fetch returns, and assigns [metrics]
    only. *)
Theorem trio_resolved_by_one_fetch (fuel : nat) (self : pydict) (id : pyval) :
  Dict.get "id" self = Some id ->
  (forall (attr : string) (l l1 : log) (wd : pydict),
     attr = "leaderboard_rank" \/ attr = "leaderboard_users" \/ attr = "achievements" ->
     Dict.get attr self = Some VNotLoaded ->
     PelotonWorkoutFactory_get net id l = (Ok wd, l1) ->
     trio_loaded wd = true ->
     exists v self1,
       getattribute net (S (S fuel)) self attr l
       = (Ok v, self1, (l ++ [WorkoutDetail id])%list)
       /\ Dict.get attr self1 = Some v
       /\ Dict.get "leaderboard_rank" self1 = Dict.get "leaderboard_rank" wd
       /\ Dict.get "leaderboard_users" self1 = Dict.get "leaderboard_users" wd
       /\ Dict.get "achievements" self1 = Dict.get "achievements" wd
       /\ Dict.get "metrics" self1 = Dict.get "metrics" self
       /\ trio_loaded self1 = true
       /\ (forall attr2 fuel2 l4,
             attr2 = "leaderboard_rank" \/ attr2 = "leaderboard_users"
             \/ attr2 = "achievements" ->
             exists v2, getattribute net (S fuel2) self1 attr2 l4 = (Ok v2, self1, l4))
       /\ (forall (l2 l3 : log) (m : pyval),
             Dict.get "metrics" self = Some VNotLoaded ->
             PelotonWorkoutMetricsFactory_get net id l2 = (Ok m, l3) ->
             getattribute net (S (S fuel)) self1 "metrics" l2
             = (Ok m, Dict.set "metrics" m self1, (l2 ++ [PerformanceGraph id])%list)))
  /\ (forall (l2 l3 : log) (m : pyval),
        Dict.get "metrics" self = Some VNotLoaded ->
        PelotonWorkoutMetricsFactory_get net id l2 = (Ok m, l3) ->
        getattribute net (S (S fuel)) self "metrics" l2
        = (Ok m, Dict.set "metrics" m self, (l2 ++ [PerformanceGraph id])%list)
        /\ (forall k, k <> "metrics" ->
                      Dict.get k (Dict.set "metrics" m self) = Dict.get k self)).
Proof.
  intros Hid. split.
  - intros attr l l1 wd Ha Hg Hf Hw.
    pose proof (workout_factory_log _ _ _ _ Hf) as ->.
    rewrite getattribute_trio by assumption. cbn [read_id]. rewrite Hid, Hf.
    destruct (loaded_plain _ _ (trio_loaded_attr _ wd (or_introl eq_refl) Hw))
      as (rank & G1 & B1).
    destruct (loaded_plain _ _ (trio_loaded_attr _ wd (or_intror (or_introl eq_refl)) Hw))
      as (users & G2 & B2).
    destruct (loaded_plain _ _ (trio_loaded_attr _ wd (or_intror (or_intror eq_refl)) Hw))
      as (ach & G3 & B3).
    unfold extract_trio.
    rewrite (getattribute_plain fuel wd _ rank) by assumption.
    rewrite (getattribute_plain fuel wd _ users) by assumption.
    rewrite (getattribute_plain fuel wd _ ach) by assumption.
    set (self1 := Dict.set "achievements" ach
                    (Dict.set "leaderboard_users" users
                       (Dict.set "leaderboard_rank" rank self))).
    assert (N1 : is_NotLoaded rank = false) by (destruct rank; auto; discriminate).
    assert (N2 : is_NotLoaded users = false) by (destruct users; auto; discriminate).
    assert (N3 : is_NotLoaded ach = false) by (destruct ach; auto; discriminate).
    assert (S1 : Dict.get "leaderboard_rank" self1 = Some rank).
    { unfold self1. rewrite !get_set_other by discriminate. apply get_set_same. }
    assert (S2 : Dict.get "leaderboard_users" self1 = Some users).
    { unfold self1. rewrite get_set_other by discriminate. apply get_set_same. }
    assert (S3 : Dict.get "achievements" self1 = Some ach).
    { unfold self1. apply get_set_same. }
    assert (S4 : forall k, k <> "leaderboard_rank" -> k <> "leaderboard_users" ->
                           k <> "achievements" -> Dict.get k self1 = Dict.get k self).
    { intros k K1 K2 K3. unfold self1. now rewrite !get_set_other by assumption. }
    assert (Ht : trio_loaded self1 = true).
    { unfold trio_loaded, loaded. now rewrite S1, S2, S3, N1, N2, N3. }
    assert (Hr : forall a fuel2 l4,
               a = "leaderboard_rank" \/ a = "leaderboard_users" \/ a = "achievements" ->
               exists v2, Dict.get a self1 = Some v2
                          /\ getattribute net (S fuel2) self1 a l4 = (Ok v2, self1, l4)).
    { intros a fuel2 l4 Ha2.
      destruct (loaded_plain _ _ (trio_loaded_attr a self1 Ha2 Ht)) as (v2 & G & B).
      exists v2. split; auto. now apply getattribute_plain. }
    assert (Sm : Dict.get "metrics" self1 = Dict.get "metrics" self)
      by (apply S4; discriminate).
    assert (Si : Dict.get "id" self1 = Some id)
      by (rewrite S4 by discriminate; assumption).
    destruct (Hr attr fuel (l ++ [WorkoutDetail id])%list Ha) as (v & Gv & Ev).
    exists v, self1. rewrite Ev.
    split; [reflexivity|]. split; [exact Gv|].
    split; [congruence|]. split; [congruence|]. split; [congruence|].
    split; [exact Sm|]. split; [exact Ht|]. split.
    + intros a fuel2 l4 Ha2. destruct (Hr a fuel2 l4 Ha2) as (v2 & _ & E2). eauto.
    + intros l2 l3 m Hgm Hfm. rewrite <- Sm in Hgm.
      eapply metrics_resolved_by_one_fetch; eauto.
  - intros l2 l3 m Hgm Hfm. split.
    + eapply metrics_resolved_by_one_fetch; eauto.
    + intros k Hk. now apply get_set_other.
Qed.

(** ** Failure of the fetch *)

(** The fetch behind [attr] raises [e] for workout [id] at log [l]. *)
Definition fetch_raises (attr : string) (id : pyval) (l : log) (e : exn) : Prop :=
  if String.eqb attr "metrics"
  then fst (PelotonWorkoutMetricsFactory_get net id l) = Raise e
  else fst (PelotonWorkoutFactory_get net id l) = Raise e.

(** C6 (as amended). If the fetch that a read of a deferred attribute sends
    for the workout's own id raises, the read raises the same exception, the
    instance is unchanged (the attribute, and with it any other deferred
    one, still holds the marker), one request has been logged, and a later
    read of the attribute sends the request again. *)
Theorem failed_fetch_commits_nothing (fuel : nat) (self : pydict) (attr : string)
    (l : log) (id : pyval) (e : exn) :
  is_lazy_attr attr = true ->
  Dict.get attr self = Some VNotLoaded ->
  Dict.get "id" self = Some id ->
  fetch_raises attr id l e ->
  getattribute net (S (S fuel)) self attr l
  = (Raise e, self, (l ++ [request_for attr id])%list)
  /\ forall fuel2 l2, exists r self2 l3,
      getattribute net (S (S fuel2)) self attr l2
      = (r, self2, (l2 ++ request_for attr id :: l3)%list).
Proof.
  intros Hl Hg Hid Hf. split.
  - unfold fetch_raises, request_for in *.
    destruct (lazy_cases attr Hl) as [-> | Ha].
    + simpl in Hf. rewrite getattribute_metrics by assumption.
      cbn [read_id]. rewrite Hid.
      destruct (PelotonWorkoutMetricsFactory_get net id l) as [r l1] eqn:E.
      apply metrics_factory_log in E. simpl in Hf. subst. reflexivity.
    + destruct (trio_is_lazy attr Ha) as (_ & Hm & _). rewrite Hm in *.
      rewrite getattribute_trio by assumption. cbn [read_id]. rewrite Hid.
      destruct (PelotonWorkoutFactory_get net id l) as [r l1] eqn:E.
      apply workout_factory_log in E. simpl in Hf. subst. reflexivity.
  - intros fuel2 l2. now apply resolution_sends_request.
Qed.

End Reads.

(** ** Payloads that carry the trio *)

(** A detail payload that binds [leaderboard_rank] and
    [total_leaderboard_users] (to anything JSON can hold) and has a non-null
    [achievement_templates] builds a workout whose trio is loaded. *)
Lemma complete_payload_trio_loaded (kwargs wd : pydict) (rank users : pyval) :
  PelotonWorkout_dict kwargs = Ok wd ->
  Dict.get "leaderboard_rank" kwargs = Some rank -> is_NotLoaded rank = false ->
  Dict.get "total_leaderboard_users" kwargs = Some users -> is_NotLoaded users = false ->
  is_none (kwargs_get "achievement_templates" kwargs) = false ->
  trio_loaded wd = true.
Proof.
  unfold PelotonWorkout_dict. intros H Hr Nr Hu Nu Ha. rewrite Ha in H.
  destruct (if is_none (kwargs_get "ride" kwargs) then _ else _) as [ride|e| ];
    cbn [bind] in H; try discriminate.
  destruct (iterate (kwargs_get "achievement_templates" kwargs)) as [items|e| ];
    cbn [bind] in H; try discriminate.
  destruct (build_achievements items) as [t|e| ]; cbn [bind] in H; try discriminate.
  repeat match type of H with
         | bind ?m _ = _ => destruct m; cbn [bind] in H; try discriminate
         end.
  inversion H; subst wd. unfold trio_loaded, loaded, kwargs_get_default.
  cbn [Dict.get String.eqb Ascii.eqb Bool.eqb]. rewrite Hr, Hu, Nr, Nu. reflexivity.
Qed.

(** ** Concrete payloads and sessions *)

(** A detail payload that carries the three leaderboard and achievement keys. *)
Definition detail_full : pyval :=
  VDict [ ("id", VStr "w1");
          ("leaderboard_rank", VInt 3);
          ("total_leaderboard_users", VInt 10);
          ("achievement_templates",
            VList [VDict [("name", VStr "Streak"); ("description", VStr "5 days")]]) ].

(** Detail payloads that lack some of them. *)
Definition detail_bare : pyval := VDict [ ("id", VStr "w1") ].

Definition detail_without_achievements : pyval :=
  VDict [ ("id", VStr "w1");
          ("leaderboard_rank", VInt 3);
          ("total_leaderboard_users", VInt 10) ].

Definition detail_rank_only : pyval :=
  VDict [ ("id", VStr "w1"); ("leaderboard_rank", VInt 3) ].

(** A performance graph payload. *)
Definition graph_payload : pyval :=
  VDict [ ("duration", VInt 1800);
          ("segment_list", VList [VDict [("metrics_type", VStr "cycling")]]);
          ("summaries", VList [VDict [("slug", VStr "calories"); ("value", VInt 400)]]);
          ("metrics", VList [VDict [("slug", VStr "output"); ("values", VList [VInt 1; VInt 2])]]) ].

Definition answer (detail : pyval) (r : request) : exn + response :=
  match r with
  | WorkoutDetail _ => inr (mkResponse 200 (inr detail))
  | PerformanceGraph _ => inr (mkResponse 200 (inr graph_payload))
  end.

(** Sessions: one that always answers in full, one that never returns the
    trio, one whose first detail answer lacks the achievements, one that
    answers once with the rank only and then fails, and one that is down. *)
Definition net_full : log -> request -> exn + response :=
  fun _ r => answer detail_full r.

Definition net_bare : log -> request -> exn + response :=
  fun _ r => answer detail_bare r.

Definition net_late_achievements : log -> request -> exn + response :=
  fun l r =>
    match l with
    | [] => answer detail_without_achievements r
    | _ => answer detail_full r
    end.

Definition net_then_down : log -> request -> exn + response :=
  fun l r =>
    match l with
    | [] => answer detail_rank_only r
    | _ => inl (ApiError "503")
    end.

Definition net_down : log -> request -> exn + response :=
  fun _ _ => inl (ApiError "connection refused").

(** The [__dict__] of a constructor result, empty if it raised. *)
Definition dict_of (r : outcome pydict) : pydict :=
  match r with Ok d => d | _ => [] end.

(** A workout as the listing builds it: joined ride, nothing else loaded. *)
Definition listed_workout : pydict :=
  dict_of (PelotonWorkout_dict
             [ ("id", VStr "w1");
               ("ride", VDict [("title", VStr "Climb"); ("id", VStr "r1")]);
               ("created", VInt 86400) ]).

(** The workout that [PelotonWorkoutFactory.get] builds from [detail_bare]. *)
Definition bare_workout : pydict :=
  dict_of (PelotonWorkout_dict [ ("id", VStr "w1") ]).

(** ** Resolving reads on the fetched workout *)

Lemma bare_fetch (id : pyval) (l : log) :
  PelotonWorkoutFactory_get net_bare id l = (Ok bare_workout, (l ++ [WorkoutDetail id])%list).
Proof. reflexivity. Qed.

(** Against a session whose detail payload never carries the trio, a read of
    a deferred member with call depth [S n] sends [n] requests and is still
    not done. *)
Lemma bare_read_diverges (n : nat) :
  forall (self : pydict) (attr : string) (l : log),
    Dict.get "id" self = Some (VStr "w1") ->
    attr = "leaderboard_rank" \/ attr = "leaderboard_users" \/ attr = "achievements" ->
    Dict.get attr self = Some VNotLoaded ->
    getattribute net_bare (S n) self attr l
    = (OutOfFuel, self, (l ++ repeat (WorkoutDetail (VStr "w1")) n)%list).
Proof.
  induction n as [|n IH]; intros self attr l Hid Ha Hg.
  - rewrite getattribute_trio by assumption. simpl. now rewrite app_nil_r.
  - rewrite getattribute_trio by assumption. cbn [read_id]. rewrite Hid.
    rewrite bare_fetch. unfold extract_trio.
    rewrite (IH bare_workout "leaderboard_rank") by auto.
    rewrite <- app_assoc. reflexivity.
Qed.

(** C5. The extraction from the fetched workout uses resolving reads
    ([workout.leaderboard_rank] goes through [__getattribute__] again), so
    when the detail payload lacks the fields the fetched workout fetches in
    turn: the read of [achievements] on a listed workout never returns, and
    with call depth [S n] it has sent [n] detail requests, for every [n]. *)
Theorem resolution_refetches_without_bound (n : nat) :
  getattribute net_bare (S n) listed_workout "achievements" []
  = (OutOfFuel, listed_workout, repeat (WorkoutDetail (VStr "w1")) n).
Proof. apply (bare_read_diverges n listed_workout "achievements" []); auto. Qed.

(** Counterexample to C3 as stated: the three attributes are deferred, the
    first detail payload lacks [achievement_templates], and the read of
    [achievements] returns after two detail requests instead of one. *)
Lemma incomplete_payload_costs_two_fetches :
  Dict.get "achievements" listed_workout = Some VNotLoaded
  /\ Dict.get "leaderboard_rank" listed_workout = Some VNotLoaded
  /\ Dict.get "leaderboard_users" listed_workout = Some VNotLoaded
  /\ exists self1,
      getattribute net_late_achievements 3 listed_workout "achievements" []
      = (Ok (VList [VTuple [VStr "Streak"; VStr "5 days"]]), self1,
         [WorkoutDetail (VStr "w1"); WorkoutDetail (VStr "w1")]).
Proof. repeat split; try reflexivity. eexists. vm_compute. reflexivity. Qed.

(** Counterexample to C6 as stated: the first detail payload lacks
    [total_leaderboard_users], so the fetched workout fetches again, and that
    second fetch raises.  The read of [leaderboard_rank] raises, yet
    [leaderboard_rank] has been assigned: it no longer holds the marker, and
    the next read returns it without a request. *)
Lemma nested_fetch_failure_commits_rank :
  Dict.get "leaderboard_rank" listed_workout = Some VNotLoaded
  /\ exists self1,
      getattribute net_then_down 3 listed_workout "leaderboard_rank" []
      = (Raise (ApiError "503"), self1,
         [WorkoutDetail (VStr "w1"); WorkoutDetail (VStr "w1")])
      /\ Dict.get "leaderboard_rank" self1 = Some (VInt 3)
      /\ forall l, getattribute net_then_down 3 self1 "leaderboard_rank" l
                   = (Ok (VInt 3), self1, l).
Proof.
  split; [reflexivity|]. eexists. split; [vm_compute; reflexivity|].
  split; reflexivity.
Qed.

(** The workout that [PelotonWorkoutFactory.get] builds from [detail_full], and
    the metrics that [PelotonWorkoutMetricsFactory.get] builds from
    [graph_payload]. *)
Definition full_workout : pydict :=
  dict_of (PelotonWorkout_dict
             (match detail_full with VDict d => d | _ => [] end)).

Definition graph_metrics : pyval :=
  match PelotonWorkoutMetrics_init (match graph_payload with VDict d => d | _ => [] end) with
  | Ok m => m
  | _ => VNone
  end.

(** Reading [metrics] twice on a listed workout: one request in all. *)
Lemma resolved_field_is_cached_witness :
  getattribute net_full 3 listed_workout "metrics" []
  = (Ok graph_metrics, Dict.set "metrics" graph_metrics listed_workout,
     [PerformanceGraph (VStr "w1")])
  /\ getattribute net_full 3 (Dict.set "metrics" graph_metrics listed_workout) "metrics"
       [PerformanceGraph (VStr "w1")]
     = (Ok graph_metrics, Dict.set "metrics" graph_metrics listed_workout,
        [PerformanceGraph (VStr "w1")]).
Proof.
  assert (H : getattribute net_full 3 listed_workout "metrics" []
              = (Ok graph_metrics, Dict.set "metrics" graph_metrics listed_workout,
                 [PerformanceGraph (VStr "w1")])) by reflexivity.
  split; [exact H|].
  destruct (resolved_field_is_cached net_full 3 listed_workout "metrics" [] _ _ _
              eq_refl eq_refl H) as (_ & _ & _ & Hm).
  destruct (Hm eq_refl) as (id & _ & _ & Hr). apply Hr.
Defined.

(** Reading [achievements] on a listed workout against a complete payload. *)
Lemma trio_resolved_by_one_fetch_witness :
  exists v self1,
    getattribute net_full 3 listed_workout "achievements" []
    = (Ok v, self1, [WorkoutDetail (VStr "w1")])
    /\ trio_loaded self1 = true
    /\ getattribute net_full 3 self1 "leaderboard_rank" [WorkoutDetail (VStr "w1")]
       = (Ok (VInt 3), self1, [WorkoutDetail (VStr "w1")]).
Proof.
  destruct (trio_resolved_by_one_fetch net_full 1 listed_workout (VStr "w1") eq_refl)
    as [Ht _].
  destruct (Ht "achievements" [] [WorkoutDetail (VStr "w1")] full_workout
              (or_intror (or_intror eq_refl)) eq_refl eq_refl eq_refl)
    as (v & self1 & H1 & _ & H2 & _ & _ & _ & H3 & H4 & _).
  exists v, self1. repeat split; auto.
  destruct (H4 "leaderboard_rank" 2%nat [WorkoutDetail (VStr "w1")] (or_introl eq_refl))
    as (v2 & E).
  rewrite E. f_equal. f_equal. f_equal.
  pose proof (getattribute_resolved net_full 3 self1 "leaderboard_rank" _ _ _ _ eq_refl E)
    as [_ G].
  rewrite H2 in G. vm_compute in G. congruence.
Defined.

(** A session that is down: the read of [metrics] raises what the session
    raised and leaves the listed workout as it was. *)
Lemma failed_fetch_commits_nothing_witness :
  getattribute net_down 2 listed_workout "metrics" []
  = (Raise (ApiError "connection refused"), listed_workout,
     [PerformanceGraph (VStr "w1")]).
Proof.
  apply (proj1 (failed_fetch_commits_nothing net_down 0 listed_workout "metrics" []
                  (VStr "w1") (ApiError "connection refused")
                  eq_refl eq_refl eq_refl eq_refl)).
Defined.

(** ** Stability of stored values under reads *)

Section Stability.

Variable net : log -> request -> exn + response.

(** The read of [metrics] assigns [metrics] only. *)
Lemma getattribute_metrics_keeps (fuel : nat) (self : pydict) (l : log) r self' l'
    (k : string) :
  getattribute net fuel self "metrics" l = (r, self', l') ->
  k <> "metrics" ->
  Dict.get k self' = Dict.get k self.
Proof.
  intros H Hk. destruct fuel as [|fuel]; [now inversion H|].
  destruct (getattribute_view net fuel self "metrics" l)
    as [[_ E] | [(v & _ & _ & E) | [[_ Hg] | [Ha Hg]]]].
  - rewrite E in H. now inversion H.
  - rewrite E in H. now inversion H.
  - rewrite getattribute_metrics in H by assumption.
    destruct (read_id fuel self); try (now inversion H).
    destruct (PelotonWorkoutMetricsFactory_get net a l) as [[m|e| ] l1];
      inversion H; subst; auto using get_set_other.
  - destruct Ha as [Ha | [Ha | Ha]]; discriminate.
Qed.

(** A stored value that is not the marker survives a read, provided it is
    not a member of the trio or the trio is already loaded. *)
Definition stable (k : string) (v : pyval) (d : pydict) : Prop :=
  Dict.get k d = Some v /\ is_NotLoaded v = false
  /\ ((k <> "leaderboard_rank" /\ k <> "leaderboard_users" /\ k <> "achievements")
      \/ trio_loaded d = true).

Lemma stable_read (k : string) (v : pyval) (fuel : nat) (self : pydict) (a : string)
    (l : log) r self' l' :
  stable k v self ->
  getattribute net fuel self a l = (r, self', l') ->
  stable k v self'.
Proof.
  intros (Hg & Hv & [(N1 & N2 & N3) | Ht]) H.
  - split; [|split; [assumption|left; auto]].
    destruct (String.eqb_spec a "metrics") as [-> | Ha].
    + destruct (String.eqb_spec k "metrics") as [-> | Hk].
      * destruct fuel as [|fuel]; [inversion H; subst; auto|].
        rewrite (getattribute_plain net fuel self "metrics" v l) in H; auto.
        inversion H; subst; auto.
      * rewrite <- Hg. eapply getattribute_metrics_keeps; eauto.
    + rewrite <- Hg. eapply getattribute_keeps; eauto.
  - destruct (getattribute_trio_loaded net _ _ _ _ _ _ _ Ht H) as (Hk & Hm & _).
    pose proof (trio_loaded_preserved net _ _ _ _ _ _ _ Ht H) as Ht'.
    split; [|split; [assumption|right; assumption]].
    destruct (String.eqb_spec k "metrics") as [-> | Hne].
    + destruct Hm as [-> _]; auto. unfold loaded. now rewrite Hg, Hv.
    + rewrite Hk; auto.
Qed.

(** A read of a stable attribute returns it. *)
Lemma stable_value (k : string) (v : pyval) (fuel : nat) (self : pydict) (l : log)
    x self' l' :
  stable k v self ->
  getattribute net fuel self k l = (Ok x, self', l') -> x = v.
Proof.
  intros (Hg & Hv & _) H. destruct fuel as [|fuel]; [inversion H|].
  rewrite (getattribute_plain net fuel self k v l) in H; auto.
  - now inversion H.
  - rewrite Hv. apply andb_false_r.
Qed.

End Stability.

(** ** Serialization: the loading loop *)

Lemma set_keys_nodup (k : string) (v : pyval) (d : pydict) :
  NoDup (Dict.keys d) -> NoDup (Dict.keys (Dict.set k v d)).
Proof.
  assert (Hin : forall d k', In k' (Dict.keys (Dict.set k v d)) ->
                             k' = k \/ In k' (Dict.keys d)).
  { clear d. induction d as [|[k0 v0] d IH]; simpl; intros k' H.
    - destruct H as [H|[]]; auto.
    - destruct (String.eqb_spec k k0) as [-> | Hk]; simpl in H.
      + destruct H; auto.
      + destruct H as [H | H]; auto. apply IH in H. tauto. }
  induction d as [|[k0 v0] d IH]; simpl; intros Hd.
  - constructor; [intros []|constructor].
  - inversion Hd as [|? ? Hn Hd']; subst.
    destruct (String.eqb_spec k k0) as [-> | Hk]; simpl.
    + constructor; auto.
    + constructor; auto. intros H. apply Hin in H as [-> | H]; auto.
Qed.

Lemma get_some_in_keys (k : string) (v : pyval) (d : pydict) :
  Dict.get k d = Some v -> In k (Dict.keys d).
Proof.
  induction d as [|[k0 v0] d IH]; simpl; [discriminate|].
  destruct (String.eqb_spec k k0) as [-> | Hk]; auto.
Qed.

Lemma get_none_not_in_keys (k : string) (d : pydict) :
  Dict.get k d = None -> ~ In k (Dict.keys d).
Proof.
  intros H Hin. apply get_in_keys in Hin as [v Hv]. congruence.
Qed.

Section Loading.

Variable net : log -> request -> exn + response.

(** [k] holds [v] on an instance of class [c], and reads will not change
    that. *)
Definition held (c : pyclass) (k : string) (v : pyval) (d : pydict) : Prop :=
  Dict.get k d = Some v /\ (c = PelotonWorkout -> stable k v d).

Lemma held_getattr (c : pyclass) (k : string) (v : pyval) (fuel : nat) (self : pydict)
    (a : string) (l : log) r self' l' :
  held c k v self ->
  getattr net fuel c self a l = (r, self', l') ->
  held c k v self'.
Proof.
  intros [Hg Hs] H. unfold getattr in H.
  destruct c;
    try solve [destruct (Dict.get a self); inversion H; subst; split; auto].
  specialize (Hs eq_refl).
  pose proof (stable_read net _ _ _ _ _ _ _ _ _ Hs H) as Hs'.
  split; [apply Hs' | auto].
Qed.

Lemma held_value (c : pyclass) (k : string) (v : pyval) (fuel : nat) (self : pydict)
    (l : log) x self' l' :
  held c k v self ->
  getattr net fuel c self k l = (Ok x, self', l') -> x = v.
Proof.
  intros [Hg Hs] H. unfold getattr in H.
  destruct c; try solve [rewrite Hg in H; now inversion H].
  eapply stable_value; eauto.
Qed.

(** What the loading loop leaves in [obj_attrs] for a held attribute. *)
Lemma load_attrs_held (fuel : nat) (c : pyclass) (size : nat) (k : string) (v : pyval) :
  forall (keys : list string) (self acc : pydict) (l : log) obj self' l',
    load_attrs net fuel c keys size self acc l = (Ok obj, self', l') ->
    held c k v self ->
    (In k keys -> Dict.get k obj = Some v)
    /\ (~ In k keys -> Dict.get k obj = Dict.get k acc).
Proof.
  induction keys as [|k0 keys IH]; intros self acc l obj self' l' H Hh;
    simpl in H; destruct (negb (Nat.eqb (List.length self) size)); try discriminate.
  - inversion H; subst. split; [intros []|auto].
  - destruct (getattr net fuel c self k0 l) as [[[x|e| ] s1] l1] eqn:E;
      try discriminate.
    pose proof (held_getattr _ _ _ _ _ _ _ _ _ _ Hh E) as Hh1.
    destruct (IH _ _ _ _ _ _ H Hh1) as [I1 I2].
    split.
    + intros [-> | Hin].
      * destruct (in_dec string_dec k keys) as [Hi | Hi]; auto.
        rewrite I2 by assumption. rewrite get_set_same.
        f_equal. exact (held_value _ _ _ _ _ _ _ _ _ Hh E).
      * auto.
    + intros Hn. rewrite I2 by (intros Hi; apply Hn; now right).
      apply get_set_other. intros ->. apply Hn. now left.
Qed.

Lemma load_attrs_nodup (fuel : nat) (c : pyclass) (size : nat) :
  forall (keys : list string) (self acc : pydict) (l : log) obj self' l',
    load_attrs net fuel c keys size self acc l = (Ok obj, self', l') ->
    NoDup (Dict.keys acc) -> NoDup (Dict.keys obj).
Proof.
  induction keys as [|k0 keys IH]; intros self acc l obj self' l' H Hn;
    simpl in H; destruct (negb (Nat.eqb (List.length self) size)); try discriminate.
  - now inversion H; subst.
  - destruct (getattr net fuel c self k0 l) as [[[x|e| ] s1] l1] eqn:E;
      try discriminate.
    eapply IH; eauto using set_keys_nodup.
Qed.

End Loading.

(** ** Serialization: the rendering loop *)

Section Rendering.

Variable ser : pyclass -> pydict -> log -> outcome pyval * log.
Variable depth : Z.

(** [visible dont_load k]: the rendering loop does not skip [k]. *)
Definition visible (dont_load : list string) (k : string) : bool :=
  negb (String.prefix "_" k || existsb (String.eqb k) dont_load).

(** What an entry with value [v] does to its key of [ret]: [before] and
    [after] are the bindings of the key before and after the entry. *)
Definition entry_result (v : pyval) (before after : option pyval) : Prop :=
  match v with
  | VObj c d =>
      if 1 <? depth then exists l1 l2 x, ser c d l1 = (Ok x, l2) /\ after = Some x
      else after = before
  | VList vs =>
      exists l1 l2 out,
        serialize_items ser depth vs l1 = (Ok out, l2)
        /\ after = match out, vs with
                   | _ :: _, _ => Some (VList out)
                   | [], [] => Some (VList [])
                   | [], _ :: _ => before
                   end
  | _ => exists x, serialize_scalar v = Ok x /\ after = Some x
  end.

Lemma serialize_entry_result (k : string) (v : pyval) (ret : pydict) (l : log)
    (ret1 : pydict) (l1 : log) :
  serialize_entry ser depth k v ret l = (Ok ret1, l1) ->
  (forall k', k' <> k -> Dict.get k' ret1 = Dict.get k' ret)
  /\ entry_result v (Dict.get k ret) (Dict.get k ret1).
Proof.
  intros H.
  assert (Hs : forall x, (forall k', k' <> k ->
                            Dict.get k' (Dict.set k x ret) = Dict.get k' ret)).
  { intros x k' Hk. now apply get_set_other. }
  destruct v; simpl in H |- *;
    try (inversion H; subst; split; [apply Hs|eexists; split; eauto using get_set_same];
         fail).
  - (* list *)
    destruct (serialize_items ser depth l0 l) as [[out|e| ] l2] eqn:E; try discriminate.
    inversion H; subst. split.
    + destruct out, l0; auto.
    + exists l, l1, out. split; auto.
      destruct out, l0; auto using get_set_same.
  - (* decimal *)
    destruct (format_decimal d) as [x|e| ] eqn:E; simpl in H; try discriminate.
    inversion H; subst. split; [apply Hs|].
    exists (VStr x). split; [reflexivity|apply get_set_same].
  - (* instance *)
    destruct (1 <? depth).
    + destruct (ser c d l) as [[x|e| ] l2] eqn:E; try discriminate.
      inversion H; subst. split; [apply Hs|].
      exists l, l1, x. split; auto using get_set_same.
    + inversion H; subst. auto.
Qed.

(** The rendering loop, key by key. *)
Lemma serialize_attrs_entry (dont_load : list string) (k : string) :
  forall (obj : pydict) (ret : pydict) (l : log) (ret' : pydict) (l' : log),
    serialize_attrs ser depth dont_load obj ret l = (Ok ret', l') ->
    (~ In k (Dict.keys obj) -> Dict.get k ret' = Dict.get k ret)
    /\ (forall v, NoDup (Dict.keys obj) -> Dict.get k obj = Some v ->
                  visible dont_load k = true ->
                  entry_result v (Dict.get k ret) (Dict.get k ret')).
Proof.
  induction obj as [|[k0 v0] rest IH]; intros ret l ret' l' H.
  - simpl in H. inversion H; subst. split; [auto|discriminate].
  - cbn [serialize_attrs] in H.
    destruct (String.prefix "_" k0 || existsb (String.eqb k0) dont_load) eqn:Hskip.
    + destruct (IH _ _ _ _ H) as [I1 I2]. split.
      * intros Hn. apply I1. intros Hi. apply Hn. now right.
      * intros v Hnd Hg Hv. simpl in Hg.
        destruct (String.eqb_spec k k0) as [-> | Hk].
        -- unfold visible in Hv. rewrite Hskip in Hv. discriminate.
        -- inversion Hnd; subst. auto.
    + destruct (serialize_entry ser depth k0 v0 ret l) as [[ret1|e| ] l1] eqn:E;
        try discriminate.
      destruct (serialize_entry_result _ _ _ _ _ _ E) as [E1 E2].
      destruct (IH _ _ _ _ H) as [I1 I2]. split.
      * intros Hn. rewrite I1 by (intros Hi; apply Hn; now right).
        apply E1. intros ->. apply Hn. now left.
      * intros v Hnd Hg Hv. simpl in Hg. inversion Hnd as [|? ? Hn0 Hnd']; subst.
        destruct (String.eqb_spec k k0) as [-> | Hk].
        -- inversion Hg; subst. now rewrite I1.
        -- rewrite <- (E1 k Hk). auto.
Qed.

End Rendering.

(** ** Serialization of an entity *)

Section Serialize.

Variable net : log -> request -> exn + response.

(** The nested call [v.serialize(depth=depth - 1)] as [serialize] passes it
    to the rendering loop. *)
Definition nested_call (fuel : nat) (depth : Z) (c : pyclass) (d : pydict) (l : log)
  : outcome pyval * log :=
  let '(r, _, l) := serialize net fuel c d (depth - 1) true l in (r, l).

Lemma serialize_depth_zero (fuel : nat) (c : pyclass) (self : pydict) (b : bool) (l : log) :
  serialize net (S fuel) c self 0 b l = (Ok VNone, self, l).
Proof. reflexivity. Qed.

(** With [load_all] false, [obj_attrs] stays empty and so does the result. *)
Lemma serialize_no_load (fuel : nat) (c : pyclass) (self : pydict) (depth : Z) (l : log) :
  serialize net (S fuel) c self depth false l
  = (if depth =? 0 then Ok VNone else Ok (VDict []), self, l).
Proof. simpl. destruct (depth =? 0); reflexivity. Qed.

(** The two loops behind a call with [load_all] true that returns. *)
Lemma serialize_load_inv (fuel : nat) (c : pyclass) (self : pydict) (depth : Z) (l : log)
    out self' l' :
  depth <> 0 ->
  serialize net fuel c self depth true l = (Ok out, self', l') ->
  exists fuel' obj ret l1,
    fuel = S fuel' /\ out = VDict ret
    /\ load_attrs net fuel' c (Dict.keys self) (List.length self) self [] l
       = (Ok obj, self', l1)
    /\ serialize_attrs (nested_call fuel' depth) depth [] obj [] l1 = (Ok ret, l').
Proof.
  intros Hd H. destruct fuel as [|fuel]; [discriminate|].
  cbn [serialize] in H. apply Z.eqb_neq in Hd. rewrite Hd in H.
  destruct (load_attrs net fuel c (Dict.keys self) (List.length self) self [] l)
    as [[[obj|e| ] s1] l1] eqn:E; try discriminate.
  fold (nested_call fuel depth) in H.
  destruct (serialize_attrs (nested_call fuel depth) depth [] obj [] l1)
    as [[ret|e| ] l2] eqn:E2; try discriminate.
  inversion H; subst. exists fuel, obj, ret, l1. auto.
Qed.

(** No read of the loading loop assigns [k]: the instance is not a workout,
    or [k] is outside the trio, or the trio is loaded already. *)
Definition undisturbed (c : pyclass) (k : string) (self : pydict) : Prop :=
  c <> PelotonWorkout
  \/ (k <> "leaderboard_rank" /\ k <> "leaderboard_users" /\ k <> "achievements")
  \/ trio_loaded self = true.

Lemma undisturbed_held (c : pyclass) (k : string) (v : pyval) (self : pydict) :
  Dict.get k self = Some v -> is_NotLoaded v = false -> undisturbed c k self ->
  held c k v self.
Proof.
  intros Hg Hv Hu. split; auto. intros ->. split; [auto|split; [auto|]].
  destruct Hu as [Hu | [Hu | Hu]]; auto; congruence.
Qed.

(** The binding of a visible, undisturbed attribute in the output. *)
Lemma serialize_attr (fuel : nat) (c : pyclass) (self : pydict) (depth : Z) (l : log)
    ret self' l' (k : string) (v : pyval) :
  depth <> 0 ->
  serialize net fuel c self depth true l = (Ok (VDict ret), self', l') ->
  Dict.get k self = Some v -> is_NotLoaded v = false -> undisturbed c k self ->
  String.prefix "_" k = false ->
  exists fuel', fuel = S fuel'
    /\ entry_result (nested_call fuel' depth) depth v None (Dict.get k ret).
Proof.
  intros Hd H Hg Hv Hu Hp.
  destruct (serialize_load_inv _ _ _ _ _ _ _ _ Hd H)
    as (fuel' & obj & ret0 & l1 & -> & Hr & Hload & Hattrs).
  inversion Hr; subst ret0. exists fuel'. split; auto.
  pose proof (undisturbed_held _ _ _ _ Hg Hv Hu) as Hh.
  destruct (load_attrs_held net _ _ _ _ _ _ _ _ _ _ _ _ Hload Hh) as [Hin _].
  pose proof (load_attrs_nodup net _ _ _ _ _ _ _ _ _ _ Hload (NoDup_nil _)) as Hnd.
  destruct (serialize_attrs_entry _ _ [] k _ _ _ _ _ Hattrs) as [_ He].
  apply (He v); auto.
  - apply Hin. eapply get_some_in_keys; eauto.
  - unfold visible. simpl. now rewrite Hp.
Qed.

(** *** Entities other than workouts, at the last level

    At depth 1 (or below 0) no nested call is made, and on an instance that
    is not a workout the loading loop is a plain copy: the call is a pure
    function of the instance. *)

Fixpoint plain_attrs (size : nat) (self : pydict) (keys : list string) (acc : pydict)
  : outcome pydict :=
  if negb (Nat.eqb (List.length self) size) then Raise RuntimeError
  else
    match keys with
    | [] => Ok acc
    | k :: keys =>
        match Dict.get k self with
        | Some v => plain_attrs size self keys (Dict.set k v acc)
        | None => Raise (AttributeError k)
        end
    end.

(** The rendering loops when no nested call can be made. *)
Fixpoint flat_items (vs : list pyval) : outcome (list pyval) :=
  match vs with
  | [] => Ok []
  | VObj _ _ :: rest => flat_items rest
  | val :: rest =>
      o <- serialize_item val ;;
      tl <- flat_items rest ;;
      Ok (match o with Some x => x :: tl | None => tl end)
  end.

Definition flat_entry (k : string) (v : pyval) (ret : pydict) : outcome pydict :=
  match v with
  | VObj _ _ => Ok ret
  | VList vs =>
      out <- flat_items vs ;;
      Ok match out, vs with
         | _ :: _, _ => Dict.set k (VList out) ret
         | [], [] => Dict.set k (VList []) ret
         | [], _ :: _ => ret
         end
  | _ => x <- serialize_scalar v ;; Ok (Dict.set k x ret)
  end.

Fixpoint flat_attrs (obj : pydict) (ret : pydict) : outcome pydict :=
  match obj with
  | [] => Ok ret
  | (k, v) :: rest =>
      if String.prefix "_" k then flat_attrs rest ret
      else ret <- flat_entry k v ret ;; flat_attrs rest ret
  end.



Section Flat.

Variable ser : pyclass -> pydict -> log -> outcome pyval * log.
Variable depth : Z.
Hypothesis last_level : (1 <? depth) = false.

Lemma serialize_items_flat (vs : list pyval) (l : log) :
  serialize_items ser depth vs l = (flat_items vs, l).
Proof.
  induction vs as [|v vs IH]; [reflexivity|].
  destruct v; cbn [serialize_items flat_items serialize_item bind];
    rewrite ?last_level;
    try (destruct (format_decimal d) as [x|e| ]; cbn [bind]);
    rewrite ?IH; unfold push; try reflexivity;
    destruct (flat_items vs); reflexivity.
Qed.

Lemma serialize_entry_flat (k : string) (v : pyval) (ret : pydict) (l : log) :
  serialize_entry ser depth k v ret l = (flat_entry k v ret, l).
Proof.
  destruct v; cbn [serialize_entry flat_entry serialize_scalar bind];
    rewrite ?last_level, ?serialize_items_flat; try reflexivity.
  - destruct (flat_items l0); reflexivity.
  - destruct (format_decimal d); reflexivity.
Qed.

Lemma serialize_attrs_flat (obj : pydict) :
  forall (ret : pydict) (l : log),
    serialize_attrs ser depth [] obj ret l = (flat_attrs obj ret, l).
Proof.
  induction obj as [|[k v] rest IH]; intros ret l; [reflexivity|].
  cbn [serialize_attrs flat_attrs existsb]. rewrite orb_false_r.
  destruct (String.prefix "_" k); auto.
  rewrite serialize_entry_flat.
  destruct (flat_entry k v ret); cbn [bind]; auto.
Qed.

End Flat.


(** ** The [load_all] flag *)

(** C2. With [load_all] false the first loop never fills [obj_attrs], so the
    output of a call at any depth other than 0 is the empty mapping,
    whatever the entity holds. *)
Theorem serialize_without_load_all_is_empty (fuel : nat) (c : pyclass) (self : pydict)
    (depth : Z) (l : log) :
  serialize net (S fuel) c self depth false l
  = (if depth =? 0 then Ok VNone else Ok (VDict []), self, l).
Proof. apply serialize_no_load. Qed.

End Serialize.

(** A user with both attributes set serializes to the empty mapping when
    [load_all] is false, against any session. *)
Lemma user_without_load_all (net : log -> request -> exn + response) :
  serialize net 1 PelotonUser [("username", VStr "a"); ("id", VStr "1")] 1 false []
  = (Ok (VDict []), [("username", VStr "a"); ("id", VStr "1")], []).
Proof. reflexivity. Qed.

(** A workout with everything resolved, and what its ride serializes to. *)
Definition resolved_workout : pydict :=
  Dict.set "metrics" graph_metrics
    (dict_of (PelotonWorkout_dict
                [ ("id", VStr "w1");
                  ("ride", VDict [("title", VStr "Climb"); ("id", VStr "r1")]);
                  ("achievement_templates", VList []);
                  ("leaderboard_rank", VInt 3);
                  ("total_leaderboard_users", VInt 10) ])).

Definition climb_ride : pydict :=
  [ ("title", VStr "Climb"); ("id", VStr "r1"); ("description", VNone);
    ("duration", VNone); ("instructor_id", VNone) ].

(** The mapping that a call returned, empty if it did not return one. *)
Definition mapping_of (r : result) : pydict :=
  match r with
  | (Ok (VDict ret), _, _) => ret
  | _ => []
  end.

(** ** The timestamps that the constructor sets *)

(** The four timestamp attributes of a constructed workout are the
    conversions of the four keys, each defaulting to 0. *)
Lemma PelotonWorkout_dict_timestamps (kwargs d : pydict) :
  PelotonWorkout_dict kwargs = Ok d ->
  forall k, k = "created" \/ k = "created_at" \/ k = "start_time" \/ k = "end_time" ->
  exists t, fromtimestamp_utc (kwargs_get_default k (VInt 0) kwargs) = Ok t
            /\ Dict.get k d = Some (VDatetime t).
Proof.
  unfold PelotonWorkout_dict. intros H k Hk.
  repeat match type of H with
         | bind ?m _ = _ =>
             let E := fresh "E" in
             destruct m eqn:E; cbn [bind] in H; try discriminate
         end.
  inversion H; subst d.
  destruct Hk as [-> | [-> | [-> | ->]]]; eexists; split; eauto.
Qed.

Lemma epoch_isoformat : isoformat epoch_utc = "1970-01-01T00:00:00+00:00".
Proof. reflexivity. Qed.

(** ** Lists of nested entities *)

(** [isinstance(v, PelotonObject)]. *)
Definition is_instance (v : pyval) : bool :=
  match v with VObj _ _ => true | _ => false end.

Lemma flat_items_instances (vs : list pyval) :
  forallb is_instance vs = true -> flat_items vs = Ok [].
Proof.
  induction vs as [|v vs IH]; [reflexivity|].
  simpl. intros H. apply andb_true_iff in H as [Hv Hvs].
  destruct v; try discriminate. simpl. auto.
Qed.

(** ** Encoding by type *)

Definition is_digit (c : ascii) : bool :=
  (Nat.leb 48 (nat_of_ascii c) && Nat.leb (nat_of_ascii c) 57)%bool.

Fixpoint all_digits (s : string) : bool :=
  match s with
  | EmptyString => true
  | String c s' => is_digit c && all_digits s'
  end.

(** A fixed-point rendering with exactly one fractional digit: an optional
    minus sign, one or more digits, a point, one digit. *)
Definition one_fractional_digit (s : string) : Prop :=
  exists sign whole c,
    s = sign ++ whole ++ "." ++ String c ""
    /\ (sign = "" \/ sign = "-")
    /\ all_digits whole = true /\ whole <> "" /\ is_digit c = true.

Lemma string_of_uint_digits (u : Decimal.uint) :
  all_digits (NilEmpty.string_of_uint u) = true.
Proof. induction u; simpl; auto. Qed.

Lemma dec_digits (n : Z) : all_digits (dec n) = true /\ dec n <> "".
Proof.
  unfold dec, NilZero.string_of_uint.
  destruct (N.to_uint (Z.to_N n)) eqn:E; simpl;
    (split; [try reflexivity; apply string_of_uint_digits | discriminate]).
Qed.

Lemma dec_single_digit (t : Z) :
  0 <= t < 10 -> exists c, dec t = String c "" /\ is_digit c = true.
Proof.
  intros H.
  assert (Ht : t = 0 \/ t = 1 \/ t = 2 \/ t = 3 \/ t = 4 \/ t = 5 \/ t = 6 \/ t = 7
               \/ t = 8 \/ t = 9) by lia.
  repeat (destruct Ht as [-> | Ht]); try subst t; eexists; split; reflexivity.
Qed.

(** ["%.1f"] of a finite float has exactly one fractional digit. *)
Lemma format_1f_finite (neg : bool) (m e : Z) :
  one_fractional_digit (format_1f (FFin neg m e)).
Proof.
  unfold format_1f.
  set (t := if 0 <=? e then m * 10 * 2 ^ e else round_half_even (m * 10) (2 ^ (- e))).
  destruct (dec_digits (t / 10)) as [Hd Hn].
  destruct (dec_single_digit (t mod 10)) as (c & Hc & Hdc).
  { apply Z.mod_pos_bound. lia. }
  exists (if neg then "-" else ""), (dec (t / 10)), c.
  rewrite Hc. repeat split; auto. destruct neg; auto.
Qed.

(** The elements that the inner loop appends unchanged, and those that match
    none of its branches. *)
Definition passes_through (v : pyval) : bool :=
  match v with
  | VStr _ | VInt _ | VBool _ | VDict _ => true
  | _ => false
  end.

Definition unrecognized (v : pyval) : bool :=
  match v with
  | VNone | VFloat _ | VList _ | VTuple _ | VNotLoaded | VDataMissing => true
  | _ => false
  end.

(** The encoding of a list, element by element. *)
Inductive items_encoded (depth : Z) : list pyval -> list pyval -> Prop :=
| enc_nil : items_encoded depth [] []
| enc_datetime t vs out :
    items_encoded depth vs out ->
    items_encoded depth (VDatetime t :: vs) (VStr (isoformat t) :: out)
| enc_date t vs out :
    items_encoded depth vs out ->
    items_encoded depth (VDate t :: vs) (VStr (date_isoformat t) :: out)
| enc_decimal x f vs out :
    float_of_decimal x = Ok f ->
    items_encoded depth vs out ->
    items_encoded depth (VDecimal x :: vs) (VStr (format_1f f) :: out)
| enc_pass v vs out :
    passes_through v = true ->
    items_encoded depth vs out ->
    items_encoded depth (v :: vs) (v :: out)
| enc_drop v vs out :
    unrecognized v = true ->
    items_encoded depth vs out ->
    items_encoded depth (v :: vs) out
| enc_instance c d x vs out :
    1 < depth ->
    items_encoded depth vs out ->
    items_encoded depth (VObj c d :: vs) (x :: out)
| enc_instance_dropped c d vs out :
    depth <= 1 ->
    items_encoded depth vs out ->
    items_encoded depth (VObj c d :: vs) out.

Lemma push_ok (x : pyval) (r : outcome (list pyval) * log) (out : list pyval) (l : log) :
  push x r = (Ok out, l) -> exists tl, r = (Ok tl, l) /\ out = x :: tl.
Proof.
  destruct r as [[tl|e| ] l0]; simpl; intros H; inversion H; subst; eauto.
Qed.

Lemma serialize_items_encoded (ser : pyclass -> pydict -> log -> outcome pyval * log)
    (depth : Z) :
  forall (vs : list pyval) (l : log) (out : list pyval) (l' : log),
    serialize_items ser depth vs l = (Ok out, l') -> items_encoded depth vs out.
Proof.
  induction vs as [|v vs IH]; intros l out l' H.
  - inversion H. constructor.
  - destruct v; cbn [serialize_items serialize_item] in H;
      try (apply push_ok in H as (tl & H & ->); apply IH in H;
           (apply enc_pass; [reflexivity|assumption])
           || (now constructor));
      try (apply IH in H; apply enc_drop; [reflexivity|assumption]).
    + (* decimal *)
      unfold format_decimal in H.
      destruct (float_of_decimal d) as [f|e| ] eqn:E; cbn [bind] in H; try discriminate.
      apply push_ok in H as (tl & H & ->). apply IH in H. now constructor.
    + (* instance *)
      destruct (1 <? depth) eqn:Hd.
      * destruct (ser c d l) as [[x|e| ] l1]; try discriminate.
        apply push_ok in H as (tl & H & ->). apply IH in H.
        apply enc_instance; auto. now apply Z.ltb_lt.
      * apply IH in H. apply enc_instance_dropped; auto. now apply Z.ltb_ge.
Qed.

(** ** Side effects of serialization *)

Definition is_workout (c : pyclass) : bool :=
  match c with PelotonWorkout => true | _ => false end.

(** A lazy attribute holding the marker. *)
Definition deferred (kv : string * pyval) : bool :=
  is_lazy_attr (fst kv) && is_NotLoaded (snd kv).

(** No workout reachable through attributes and lists has a deferred
    attribute. *)
Fixpoint settled (v : pyval) : bool :=
  match v with
  | VObj c d =>
      negb (is_workout c && existsb deferred d)
      && forallb (fun kv => settled (snd kv)) d
  | VList vs => forallb settled vs
  | _ => true
  end.

Lemma get_in (k : string) (v : pyval) (d : pydict) :
  Dict.get k d = Some v -> In (k, v) d.
Proof.
  induction d as [|[k0 v0] d IH]; simpl; [discriminate|].
  destruct (String.eqb_spec k k0) as [-> | Hk]; intros H.
  - inversion H. now left.
  - right. auto.
Qed.

Lemma settled_attr (c : pyclass) (d : pydict) (k : string) (v : pyval) :
  settled (VObj c d) = true -> Dict.get k d = Some v -> settled v = true.
Proof.
  simpl. intros H Hg. apply andb_true_iff in H as [_ H].
  rewrite forallb_forall in H. apply (H (k, v)). now apply get_in.
Qed.

Lemma settled_not_deferred (d : pydict) (k : string) :
  settled (VObj PelotonWorkout d) = true ->
  is_lazy_attr k = true -> Dict.get k d = Some VNotLoaded -> False.
Proof.
  simpl. intros H Hl Hg. apply andb_true_iff in H as [H _].
  apply negb_true_iff in H.
  assert (E : existsb deferred d = true).
  { apply existsb_exists. exists (k, VNotLoaded). split; [now apply get_in|].
    unfold deferred. simpl. now rewrite Hl. }
  congruence.
Qed.

Section Frame.

Variable net : log -> request -> exn + response.

Lemma getattr_settled (fuel : nat) (c : pyclass) (self : pydict) (k : string) (l : log)
    r self' l' :
  settled (VObj c self) = true ->
  getattr net fuel c self k l = (r, self', l') ->
  self' = self /\ l' = l /\ forall v, r = Ok v -> settled v = true.
Proof.
  intros Hs H.
  assert (Hplain : forall r0,
             (match Dict.get k self with
              | Some v => (Ok v, self, l)
              | None => (Raise (AttributeError k), self, l)
              end) = (r0, self', l') ->
             self' = self /\ l' = l /\ forall v, r0 = Ok v -> settled v = true).
  { intros r0 E. destruct (Dict.get k self) as [x|] eqn:Hg; inversion E; subst.
    - repeat split; auto. intros v Hv. inversion Hv; subst.
      eapply settled_attr; eauto.
    - repeat split; auto. discriminate. }
  destruct c; try (apply Hplain; exact H).
  cbn [getattr] in H. destruct fuel as [|fuel].
  - inversion H; subst. repeat split; auto. discriminate.
  - destruct (getattribute_view net fuel self k l)
      as [[Hg E] | [(v & Hg & _ & E) | [[-> Hg] | [Ha Hg]]]].
    + rewrite E in H. apply Hplain. rewrite Hg. exact H.
    + rewrite E in H. apply Hplain. rewrite Hg. exact H.
    + exfalso. apply (settled_not_deferred self "metrics" Hs eq_refl Hg).
    + exfalso. destruct (trio_is_lazy k Ha) as (Hl & _).
      apply (settled_not_deferred self k Hs Hl Hg).
Qed.

Definition all_settled (d : pydict) : bool := forallb (fun kv => settled (snd kv)) d.

Lemma all_settled_set (k : string) (v : pyval) (d : pydict) :
  settled v = true -> all_settled d = true -> all_settled (Dict.set k v d) = true.
Proof.
  intros Hv. induction d as [|[k0 v0] d IH]; simpl; intros H.
  - now rewrite Hv.
  - apply andb_true_iff in H as [H0 H1].
    destruct (String.eqb k k0); simpl.
    + now rewrite Hv, H1.
    + now rewrite H0, IH.
Qed.

Lemma load_attrs_settled (fuel : nat) (c : pyclass) (size : nat) (self : pydict) :
  settled (VObj c self) = true ->
  forall (keys : list string) (acc : pydict) (l : log) r self' l',
    load_attrs net fuel c keys size self acc l = (r, self', l') ->
    all_settled acc = true ->
    self' = self /\ l' = l /\ forall obj, r = Ok obj -> all_settled obj = true.
Proof.
  intros Hs. induction keys as [|k keys IH]; intros acc l r self' l' H Hacc;
    simpl in H; destruct (negb (Nat.eqb (List.length self) size)).
  - inversion H; subst. repeat split; auto. discriminate.
  - inversion H; subst. repeat split; auto. intros obj Ho. now inversion Ho; subst.
  - inversion H; subst. repeat split; auto. discriminate.
  - destruct (getattr net fuel c self k l) as [[[v|e| ] s1] l1] eqn:E;
      destruct (getattr_settled _ _ _ _ _ _ _ _ Hs E) as (-> & -> & Hv).
    + eapply IH; eauto. apply all_settled_set; auto.
    + inversion H; subst. repeat split; auto. discriminate.
    + inversion H; subst. repeat split; auto. discriminate.
Qed.

Section Quiet.

Variable ser : pyclass -> pydict -> log -> outcome pyval * log.
Variable depth : Z.
Hypothesis ser_quiet :
  forall c d l r l', settled (VObj c d) = true -> ser c d l = (r, l') -> l' = l.

Lemma push_log (x : pyval) (p : outcome (list pyval) * log) :
  snd (push x p) = snd p.
Proof. destruct p as [[tl|e| ] l]; reflexivity. Qed.

Lemma serialize_items_quiet :
  forall (vs : list pyval) (l : log),
    forallb settled vs = true -> snd (serialize_items ser depth vs l) = l.
Proof.
  induction vs as [|v vs IH]; intros l H; [reflexivity|].
  simpl in H. apply andb_true_iff in H as [Hv Hvs].
  destruct v; cbn [serialize_items serialize_item];
    rewrite ?push_log; auto.
  - destruct (format_decimal d) as [x|e| ]; cbn [bind]; rewrite ?push_log; auto.
  - destruct (1 <? depth); auto.
    destruct (ser c d l) as [[x|e| ] l1] eqn:E;
      apply ser_quiet in E; auto; subst; rewrite ?push_log; auto.
Qed.

Lemma serialize_entry_quiet (k : string) (v : pyval) (ret : pydict) (l : log) :
  settled v = true -> snd (serialize_entry ser depth k v ret l) = l.
Proof.
  intros Hv. destruct v; cbn [serialize_entry serialize_scalar]; auto.
  - pose proof (serialize_items_quiet l0 l Hv) as Hq.
    destruct (serialize_items ser depth l0 l) as [[out|e| ] l1]; auto.
  - destruct (format_decimal d) as [x|e| ]; auto.
  - destruct (1 <? depth); auto.
    destruct (ser c d l) as [[x|e| ] l1] eqn:E; apply ser_quiet in E; auto.
Qed.

Lemma serialize_attrs_quiet (dont_load : list string) :
  forall (obj ret : pydict) (l : log),
    all_settled obj = true -> snd (serialize_attrs ser depth dont_load obj ret l) = l.
Proof.
  induction obj as [|[k v] rest IH]; intros ret l H; [reflexivity|].
  simpl in H. apply andb_true_iff in H as [Hv Hrest].
  cbn [serialize_attrs].
  destruct (String.prefix "_" k || existsb (String.eqb k) dont_load); auto.
  pose proof (serialize_entry_quiet k v ret l Hv) as Hq.
  destruct (serialize_entry ser depth k v ret l) as [[ret1|e| ] l1];
    simpl in Hq; subst; auto.
Qed.

End Quiet.

(** On a settled entity a call changes neither the entity nor the log. *)
Lemma serialize_settled (fuel : nat) :
  forall (c : pyclass) (self : pydict) (depth : Z) (b : bool) (l : log) r self' l',
    settled (VObj c self) = true ->
    serialize net fuel c self depth b l = (r, self', l') ->
    self' = self /\ l' = l.
Proof.
  induction fuel as [|fuel IH]; intros c self depth b l r self' l' Hs H.
  - inversion H; auto.
  - destruct b; [|rewrite serialize_no_load in H; inversion H; auto].
    cbn [serialize] in H. destruct (depth =? 0); [inversion H; auto|].
    destruct (load_attrs net fuel c (Dict.keys self) (List.length self) self [] l)
      as [[ro s1] l1] eqn:E.
    destruct (load_attrs_settled _ _ _ _ Hs _ _ _ _ _ _ E eq_refl) as (-> & -> & Ho).
    fold (nested_call net fuel depth) in H.
    destruct ro as [obj|e| ]; try (inversion H; auto; fail).
    assert (Hq : snd (serialize_attrs (nested_call net fuel depth) depth [] obj [] l) = l).
    { apply serialize_attrs_quiet; auto.
      intros c0 d0 l0 r0 l0' Hs0 Hn. unfold nested_call in Hn.
      destruct (serialize net fuel c0 d0 (depth - 1) true l0) as [[r1 s1] l2] eqn:E1.
      apply IH in E1 as [_ ->]; auto. now inversion Hn. }
    destruct (serialize_attrs (nested_call net fuel depth) depth [] obj [] l)
      as [[ret|e| ] l2]; simpl in Hq; subst; inversion H; auto.
Qed.

(** C1 (as amended). [serialize] has no side effects when [depth] is 0,
    when [load_all] is false, or when no workout reachable from the entity
    has a deferred attribute: the entity afterwards is the entity before,
    and no request has been sent. *)
Theorem serialize_frame (fuel : nat) (c : pyclass) (self : pydict) (depth : Z)
    (load_all : bool) (l : log) r self' l' :
  depth = 0 \/ load_all = false \/ settled (VObj c self) = true ->
  serialize net fuel c self depth load_all l = (r, self', l') ->
  self' = self /\ l' = l.
Proof.
  intros [-> | [-> | Hs]] H.
  - destruct fuel; inversion H; auto.
  - destruct fuel; [inversion H; auto|].
    rewrite serialize_no_load in H. inversion H; auto.
  - eapply serialize_settled; eauto.
Qed.

End Frame.

(** Counterexample to C1 as stated: with [load_all] true (the default) the
    loading loop reads every attribute with [getattr], which on a workout
    resolves the deferred ones.  The call sends two requests, and afterwards
    [metrics] no longer holds the marker. *)
Lemma serialize_resolves_deferred_fields :
  Dict.get "metrics" listed_workout = Some VNotLoaded
  /\ exists ret self',
      serialize net_full 3 PelotonWorkout listed_workout 1 true [] = (Ok ret, self',
        [PerformanceGraph (VStr "w1"); WorkoutDetail (VStr "w1")])
      /\ Dict.get "metrics" self' = Some graph_metrics
      /\ self' <> listed_workout.
Proof.
  split; [reflexivity|]. eexists. eexists.
  split; [vm_compute; reflexivity|]. split; [reflexivity|].
  intros H. apply (f_equal (Dict.get "metrics")) in H. vm_compute in H. discriminate.
Qed.

Lemma serialize_frame_witness :
  snd (fst (serialize net_full 3 PelotonWorkout resolved_workout 2 true []))
  = resolved_workout
  /\ snd (serialize net_full 3 PelotonWorkout resolved_workout 2 true []) = []
  /\ snd (serialize net_full 3 PelotonWorkout listed_workout 2 false []) = [].
Proof.
  destruct (serialize_frame net_full 3 PelotonWorkout resolved_workout 2 true []
              (fst (fst (serialize net_full 3 PelotonWorkout resolved_workout 2 true [])))
              (snd (fst (serialize net_full 3 PelotonWorkout resolved_workout 2 true [])))
              (snd (serialize net_full 3 PelotonWorkout resolved_workout 2 true []))
              (or_intror (or_intror eq_refl)))
    as [H1 H2].
  { now rewrite <- !surjective_pairing. }
  destruct (serialize_frame net_full 3 PelotonWorkout listed_workout 2 false []
              (fst (fst (serialize net_full 3 PelotonWorkout listed_workout 2 false [])))
              (snd (fst (serialize net_full 3 PelotonWorkout listed_workout 2 false [])))
              (snd (serialize net_full 3 PelotonWorkout listed_workout 2 false []))
              (or_intror (or_introl eq_refl)))
    as [_ H3].
  { now rewrite <- !surjective_pairing. }
  repeat split; assumption.
Defined.

(** ** Serialization returns on settled entities *)

(** No signalling NaN among the decimals reachable through attributes and
    lists: the one value whose rendering raises. *)
Fixpoint renderable (v : pyval) : bool :=
  match v with
  | VDecimal DSNaN => false
  | VObj _ d => forallb (fun kv => renderable (snd kv)) d
  | VList vs => forallb renderable vs
  | _ => true
  end.

(** Settled and renderable, for a value and for every value of a dictionary. *)
Definition sound (v : pyval) : bool := settled v && renderable v.

Definition all_sound (d : pydict) : bool := forallb (fun kv => sound (snd kv)) d.

Lemma sound_obj (c : pyclass) (d : pydict) :
  sound (VObj c d) = true -> all_sound d = true.
Proof.
  unfold sound, all_sound. simpl. intros H.
  apply andb_true_iff in H as [H1 H2]. apply andb_true_iff in H1 as [_ H1].
  rewrite forallb_forall in *. intros kv Hin. unfold sound.
  now rewrite (H1 kv Hin), (H2 kv Hin).
Qed.

Lemma sound_list (vs : list pyval) :
  sound (VList vs) = true -> forallb sound vs = true.
Proof.
  unfold sound. simpl. intros H. apply andb_true_iff in H as [H1 H2].
  rewrite forallb_forall in *. intros v Hin. unfold sound.
  now rewrite (H1 v Hin), (H2 v Hin).
Qed.

Lemma all_sound_set (k : string) (v : pyval) (d : pydict) :
  sound v = true -> all_sound d = true -> all_sound (Dict.set k v d) = true.
Proof.
  intros Hv. induction d as [|[k0 v0] d IH]; simpl; intros H.
  - now rewrite Hv.
  - apply andb_true_iff in H as [H0 H1].
    destruct (String.eqb k k0); simpl.
    + now rewrite Hv, H1.
    + now rewrite H0, IH.
Qed.

Lemma all_sound_get (k : string) (v : pyval) (d : pydict) :
  all_sound d = true -> Dict.get k d = Some v -> sound v = true.
Proof.
  unfold all_sound. rewrite forallb_forall. intros H Hg.
  apply (H (k, v)). now apply get_in.
Qed.

(** The loading loop on a sound entity copies the attributes. *)
Lemma plain_attrs_sound (self : pydict) :
  all_sound self = true ->
  forall (keys : list string) (acc : pydict),
    incl keys (Dict.keys self) -> all_sound acc = true ->
    exists obj, plain_attrs (List.length self) self keys acc = Ok obj
                /\ all_sound obj = true.
Proof.
  intros Hs. induction keys as [|k keys IH]; intros acc Hi Hacc; simpl;
    rewrite Nat.eqb_refl; simpl.
  - exists acc. split; auto.
  - destruct (get_in_keys k self) as [v Hv]; [apply Hi; now left|].
    rewrite Hv. apply IH.
    + intros x Hx. apply Hi. now right.
    + apply all_sound_set; auto. exact (all_sound_get k v self Hs Hv).
Qed.

Section Totality.

Variable net : log -> request -> exn + response.

Lemma load_attrs_settled_plain (fuel : nat) (c : pyclass) (size : nat) (self : pydict) :
  settled (VObj c self) = true ->
  forall (keys : list string) (acc : pydict) (l : log),
    load_attrs net (S fuel) c keys size self acc l
    = (plain_attrs size self keys acc, self, l).
Proof.
  intros Hs. induction keys as [|k keys IH]; intros acc l; simpl;
    destruct (negb (Nat.eqb (List.length self) size)); try reflexivity.
  assert (E : getattr net (S fuel) c self k l
              = (match Dict.get k self with
                 | Some v => Ok v
                 | None => Raise (AttributeError k)
                 end, self, l)).
  { destruct c; try (simpl; destruct (Dict.get k self); reflexivity).
    cbn [getattr].
    destruct (getattribute_view net fuel self k l)
      as [[Hg E] | [(v & Hg & _ & E) | [[-> Hg] | [Ha Hg]]]].
    - now rewrite E, Hg.
    - now rewrite E, Hg.
    - exfalso. apply (settled_not_deferred self "metrics" Hs eq_refl Hg).
    - exfalso. destruct (trio_is_lazy k Ha) as (Hl & _).
      apply (settled_not_deferred self k Hs Hl Hg). }
  rewrite E. destruct (Dict.get k self); auto.
Qed.

Section Loops.

Variable ser : pyclass -> pydict -> log -> outcome pyval * log.
Variable depth : Z.
Hypothesis ser_total :
  (1 <? depth) = true ->
  forall c d l, sound (VObj c d) = true -> exists x, ser c d l = (Ok x, l).

Lemma serialize_items_total :
  forall (vs : list pyval) (l : log),
    forallb sound vs = true ->
    exists out, serialize_items ser depth vs l = (Ok out, l).
Proof.
  induction vs as [|v vs IH]; intros l H; [simpl; eauto|].
  simpl in H. apply andb_true_iff in H as [Hv Hvs].
  destruct (IH l Hvs) as [out Hout].
  destruct v; cbn [serialize_items serialize_item]; rewrite ?Hout; simpl; eauto.
  - destruct d; simpl; rewrite ?Hout; simpl; eauto.
    unfold sound in Hv. simpl in Hv. discriminate.
  - destruct (1 <? depth) eqn:Hd; eauto.
    destruct (ser_total eq_refl c d l Hv) as [x Hx]. rewrite Hx, Hout. simpl. eauto.
Qed.

Lemma serialize_entry_total (k : string) (v : pyval) (ret : pydict) (l : log) :
  sound v = true ->
  exists ret', serialize_entry ser depth k v ret l = (Ok ret', l).
Proof.
  intros Hv. destruct v; cbn [serialize_entry serialize_scalar]; eauto.
  - destruct (serialize_items_total l0 l (sound_list _ Hv)) as [out Hout].
    rewrite Hout. eauto.
  - destruct d; simpl; eauto.
    unfold sound in Hv. simpl in Hv. discriminate.
  - destruct (1 <? depth) eqn:Hd; eauto.
    destruct (ser_total eq_refl c d l Hv) as [x Hx]. rewrite Hx. eauto.
Qed.

Lemma serialize_attrs_total (dont_load : list string) :
  forall (obj ret : pydict) (l : log),
    all_sound obj = true ->
    exists ret', serialize_attrs ser depth dont_load obj ret l = (Ok ret', l).
Proof.
  induction obj as [|[k v] rest IH]; intros ret l H; [simpl; eauto|].
  simpl in H. apply andb_true_iff in H as [Hv Hrest].
  cbn [serialize_attrs].
  destruct (String.prefix "_" k || existsb (String.eqb k) dont_load); auto.
  destruct (serialize_entry_total k v ret l Hv) as [ret1 H1]. rewrite H1. auto.
Qed.

End Loops.

(** One step of [serialize] with [load_all] true. *)
Lemma serialize_unfold (fuel : nat) (c : pyclass) (self : pydict) (depth : Z) (l : log) :
  serialize net (S fuel) c self depth true l
  = if depth =? 0 then (Ok VNone, self, l)
    else
      match load_attrs net fuel c (Dict.keys self) (List.length self) self [] l with
      | (Ok obj_attrs, self, l) =>
          match serialize_attrs (nested_call net fuel depth) depth [] obj_attrs [] l with
          | (Ok ret, l) => (Ok (VDict ret), self, l)
          | (Raise e, l) => (Raise e, self, l)
          | (OutOfFuel, l) => (OutOfFuel, self, l)
          end
      | (Raise e, self, l) => (Raise e, self, l)
      | (OutOfFuel, self, l) => (OutOfFuel, self, l)
      end.
Proof.
  cbn [serialize]. destruct (depth =? 0); [reflexivity|].
  destruct (load_attrs net fuel c (Dict.keys self) (List.length self) self [] l)
    as [[[obj|e| ] s1] l1]; reflexivity.
Qed.

(** On an entity from which no deferred workout attribute and no signalling
    NaN can be reached, [serialize] returns once the call depth allowed
    exceeds [depth] (and is at least 2): [None] at depth 0, a mapping
    otherwise, with the entity and the log unchanged. *)
Lemma serialize_total (fuel : nat) :
  forall (c : pyclass) (self : pydict) (depth : Z) (l : log),
    sound (VObj c self) = true ->
    (2 <= fuel)%nat -> depth < Z.of_nat fuel ->
    exists out,
      serialize net fuel c self depth true l = (Ok out, self, l)
      /\ (depth <> 0 -> exists ret, out = VDict ret).
Proof.
  induction fuel as [|fuel IH]; intros c self depth l Hs Hf Hd; [lia|].
  rewrite serialize_unfold. destruct (depth =? 0) eqn:H0.
  - exists VNone. split; auto. apply Z.eqb_eq in H0. congruence.
  - assert (Hsettled : settled (VObj c self) = true).
    { unfold sound in Hs. now apply andb_true_iff in Hs as [Hs _]. }
    destruct fuel as [|fuel]; [lia|].
    rewrite load_attrs_settled_plain by assumption.
    destruct (plain_attrs_sound self (sound_obj _ _ Hs) (Dict.keys self) [])
      as (obj & Hobj & Hso); [apply incl_refl|reflexivity|].
    rewrite Hobj.
    destruct (serialize_attrs_total (nested_call net (S fuel) depth) depth)
      with (dont_load := @nil string) (obj := obj) (ret := @nil (string * pyval)) (l := l)
      as [ret Hret]; auto.
    + intros Hlt c0 d0 l0 Hs0. apply Z.ltb_lt in Hlt. unfold nested_call.
      destruct fuel as [|fuel]; [lia|].
      destruct (IH c0 d0 (depth - 1) l0 Hs0) as (x & Hx & _); try lia.
      rewrite Hx. eauto.
    + rewrite Hret. eexists. split; eauto.
Qed.

End Totality.

(** A returned mapping, on a sound entity. *)
Lemma serialize_total_mapping (net : log -> request -> exn + response) (fuel : nat)
    (c : pyclass) (self : pydict) (depth : Z) (l : log) :
  depth <> 0 ->
  sound (VObj c self) = true ->
  (2 <= fuel)%nat -> depth < Z.of_nat fuel ->
  exists ret, serialize net fuel c self depth true l = (Ok (VDict ret), self, l).
Proof.
  intros Hd Hs Hf Hlt.
  destruct (serialize_total net fuel c self depth l Hs Hf Hlt) as (out & H & Hm).
  destruct (Hm Hd) as [ret ->]. eauto.
Qed.

(** ** Depth *)




(** ** Missing timestamps *)

(** C10. When the payload has no [created], [created_at], [start_time] or
    [end_time] key, the conversion of the default 0 does not raise, the
    attribute of the constructed workout is the instant 1970-01-01T00:00:00
    UTC, and every [serialize] that returns a mapping renders it under the
    attribute's name as the ISO-8601 string of that instant. *)
Theorem missing_timestamp_is_epoch (kwargs d : pydict) (k : string) :
  PelotonWorkout_dict kwargs = Ok d ->
  k = "created" \/ k = "created_at" \/ k = "start_time" \/ k = "end_time" ->
  Dict.get k kwargs = None ->
  fromtimestamp_utc (kwargs_get_default k (VInt 0) kwargs) = Ok epoch_utc
  /\ Dict.get k d = Some (VDatetime epoch_utc)
  /\ serialize_scalar (VDatetime epoch_utc) = Ok (VStr "1970-01-01T00:00:00+00:00")
  /\ forall net fuel depth l ret self' l',
      depth <> 0 ->
      serialize net fuel PelotonWorkout d depth true l = (Ok (VDict ret), self', l') ->
      Dict.get k ret = Some (VStr "1970-01-01T00:00:00+00:00").
Proof.
  intros H Hk Hn.
  destruct (PelotonWorkout_dict_timestamps _ _ H k Hk) as (t & Ht & Hg).
  unfold kwargs_get_default in Ht. rewrite Hn in Ht.
  assert (t = epoch_utc) by (vm_compute in Ht; now inversion Ht). subst t.
  split; [unfold kwargs_get_default; now rewrite Hn|].
  split; [assumption|]. split; [reflexivity|].
  intros net fuel depth l ret self' l' Hd Hs.
  assert (Hu : undisturbed PelotonWorkout k d).
  { right; left. destruct Hk as [-> | [-> | [-> | ->]]]; repeat split; discriminate. }
  assert (Hp : String.prefix "_" k = false)
    by (destruct Hk as [-> | [-> | [-> | ->]]]; reflexivity).
  destruct (serialize_attr net fuel PelotonWorkout d depth l ret self' l' k
              (VDatetime epoch_utc) Hd Hs Hg eq_refl Hu Hp) as (fuel' & _ & He).
  destruct He as (x & Hx & ->). now inversion Hx.
Qed.

(** A workout built from a payload without any of the four keys. *)
Lemma missing_timestamp_is_epoch_witness :
  Dict.get "start_time" bare_workout = Some (VDatetime epoch_utc)
  /\ Dict.get "start_time"
       (mapping_of (serialize net_full 3 PelotonWorkout bare_workout 1 true []))
     = Some (VStr "1970-01-01T00:00:00+00:00").
Proof.
  destruct (missing_timestamp_is_epoch [("id", VStr "w1")] bare_workout "start_time"
              eq_refl (or_intror (or_intror (or_introl eq_refl))) eq_refl)
    as (_ & Hg & _ & Hs).
  split; [exact Hg|].
  apply (Hs net_full 3%nat 1 []
            (mapping_of (serialize net_full 3 PelotonWorkout bare_workout 1 true []))
            (snd (fst (serialize net_full 3 PelotonWorkout bare_workout 1 true [])))
            (snd (serialize net_full 3 PelotonWorkout bare_workout 1 true []))).
  - discriminate.
  - vm_compute. reflexivity.
Defined.


(** ** List attributes *)

(** What a list attribute with stored elements [vs] ends up as in the output:
    [[]] for an empty list; for a non-empty one a non-empty list or no key at
    all, and no key when every element is a nested entity and the depth is
    exhausted. *)
Definition list_key_rule (depth : Z) (vs : list pyval) (binding : option pyval) : Prop :=
  (vs = [] -> binding = Some (VList []))
  /\ (vs <> [] ->
      binding = None \/ exists out, out <> [] /\ binding = Some (VList out))
  /\ (vs <> [] -> depth <= 1 -> forallb is_instance vs = true -> binding = None).

(** C8 (as amended). For a visible attribute holding a list, a
    [serialize(depth)] with [depth] other than 0 that returns a mapping has
    the key bound to [[]] when the stored list is empty; when the stored list
    is not empty the key is either absent or bound to a non-empty list, and
    it is absent when every element is a nested entity and the depth is
    exhausted ([depth <= 1]).  On an entity with nothing left to resolve the
    call does return such a mapping. *)
Theorem list_attribute_key (net : log -> request -> exn + response) (fuel : nat)
    (c : pyclass) (self : pydict) (k : string) (vs : list pyval) (depth : Z) (l : log) :
  depth <> 0 ->
  Dict.get k self = Some (VList vs) ->
  undisturbed c k self ->
  String.prefix "_" k = false ->
  (forall ret self' l',
      serialize net fuel c self depth true l = (Ok (VDict ret), self', l') ->
      list_key_rule depth vs (Dict.get k ret))
  /\ (sound (VObj c self) = true -> (2 <= fuel)%nat -> depth < Z.of_nat fuel ->
      exists ret,
        serialize net fuel c self depth true l = (Ok (VDict ret), self, l)
        /\ list_key_rule depth vs (Dict.get k ret)).
Proof.
  intros Hd Hg Hu Hp.
  assert (Hrule : forall ret self' l',
             serialize net fuel c self depth true l = (Ok (VDict ret), self', l') ->
             list_key_rule depth vs (Dict.get k ret)).
  { intros ret self' l' H.
    destruct (serialize_attr net fuel c self depth l ret self' l' k (VList vs)
                Hd H Hg eq_refl Hu Hp) as (fuel' & _ & He).
    destruct He as (l1 & l2 & out & Hi & Hr).
    split; [|split].
    - intros ->. simpl in Hi. inversion Hi; subst. assumption.
    - intros Hne. destruct out as [|x out].
      + destruct vs; [congruence|auto].
      + right. exists (x :: out). split; [discriminate|assumption].
    - intros Hne Hle Hall.
      rewrite serialize_items_flat in Hi by (apply Z.ltb_ge; assumption).
      rewrite flat_items_instances in Hi by assumption.
      inversion Hi; subst. destruct vs; [congruence|assumption]. }
  split; [exact Hrule|].
  intros Hs Hf Hlt.
  destruct (serialize_total_mapping net fuel c self depth l Hd Hs Hf Hlt) as [ret H].
  exists ret. split; [assumption|]. eapply Hrule; eauto.
Qed.

(** An entity holding a list of rides, and one holding an empty list. *)
Definition playlist : pydict :=
  [ ("name", VStr "favourites"); ("rides", VList [VObj PelotonRide climb_ride]) ].

Definition empty_playlist : pydict :=
  [ ("name", VStr "favourites"); ("rides", VList []) ].

(** Counterexample to C8 as stated: the list is not empty, its only element
    is a nested entity, the depth is exhausted, and the output has no
    [rides] key instead of an empty list. *)
Lemma exhausted_list_key_is_absent :
  serialize net_down 2 PelotonObject playlist 1 true []
  = (Ok (VDict [("name", VStr "favourites")]), playlist, [])
  /\ Dict.get "rides" [("name", VStr "favourites")] = None.
Proof. split; reflexivity. Qed.

Lemma list_attribute_key_witness :
  Dict.get "rides"
    (mapping_of (serialize net_down 2 PelotonObject empty_playlist 1 true []))
  = Some (VList [])
  /\ Dict.get "rides" (mapping_of (serialize net_down 2 PelotonObject playlist 1 true []))
     = None.
Proof.
  assert (Hd : 1 <> 0) by discriminate.
  assert (Hc : PelotonObject <> PelotonWorkout) by discriminate.
  assert (Hp : String.prefix "_" "rides" = false) by reflexivity.
  assert (Hf : (2 <= 2)%nat) by apply le_n.
  assert (Hlt : 1 < Z.of_nat 2) by reflexivity.
  split.
  - assert (Hg : Dict.get "rides" empty_playlist = Some (VList [])) by reflexivity.
    assert (Hs : sound (VObj PelotonObject empty_playlist) = true) by reflexivity.
    pose proof (list_attribute_key net_down 2 PelotonObject empty_playlist "rides" [] 1 []
                  Hd Hg (or_introl Hc) Hp) as [_ H].
    destruct (H Hs Hf Hlt) as (ret & E & R & _).
    rewrite E. cbn [mapping_of]. apply R. reflexivity.
  - assert (Hg : Dict.get "rides" playlist = Some (VList [VObj PelotonRide climb_ride]))
      by reflexivity.
    assert (Hs : sound (VObj PelotonObject playlist) = true) by reflexivity.
    pose proof (list_attribute_key net_down 2 PelotonObject playlist "rides"
                  [VObj PelotonRide climb_ride] 1 [] Hd Hg (or_introl Hc) Hp) as [_ H].
    destruct (H Hs Hf Hlt) as (ret & E & _ & _ & R).
    rewrite E. cbn [mapping_of]. apply R; [discriminate|discriminate|reflexivity].
Defined.

(** ** Encoding of attributes *)

(** How a value [v] that the loading loop read for a visible key is bound in
    the output. *)
Definition encoded (depth : Z) (v : pyval) (binding : option pyval) : Prop :=
  match v with
  | VDatetime t => binding = Some (VStr (isoformat t))
  | VDate t => binding = Some (VStr (date_isoformat t))
  | VDecimal x =>
      exists f, float_of_decimal x = Ok f
                /\ binding = Some (VStr (format_1f f))
                /\ match f with
                   | FFin _ _ _ => one_fractional_digit (format_1f f)
                   | FNan => format_1f f = "nan"
                   | FInf neg => format_1f f = if neg then "-inf" else "inf"
                   end
  | VList vs =>
      exists out, items_encoded depth vs out
                  /\ binding = match out, vs with
                               | _ :: _, _ => Some (VList out)
                               | [], [] => Some (VList [])
                               | [], _ :: _ => None
                               end
  | VObj _ _ => True
  | _ => binding = Some v
  end.

(** C9 (as amended). In a [serialize(depth)] with [depth] other than 0 that
    returns a mapping, a visible attribute is encoded by the type of its
    value: a date or a datetime as its [isoformat()], a decimal as ["%.1f"] of
    its float conversion (exactly one fractional digit when that float is
    finite, [nan], [inf] or [-inf] otherwise), any other value that is neither
    an entity nor a list unchanged.  A list is encoded element by element:
    dates, datetimes and decimals as above, strings, integers, booleans and
    mappings unchanged, and every other element that is not an entity
    (floats and [None] included) dropped; the key is bound to the encoded
    list unless that list is empty while the stored one is not.  On an entity
    with nothing left to resolve the call does return such a mapping. *)
Theorem values_encoded_by_type (net : log -> request -> exn + response) (fuel : nat)
    (c : pyclass) (self : pydict) (k : string) (v : pyval) (depth : Z) (l : log) :
  depth <> 0 ->
  Dict.get k self = Some v ->
  is_NotLoaded v = false ->
  undisturbed c k self ->
  String.prefix "_" k = false ->
  (forall ret self' l',
      serialize net fuel c self depth true l = (Ok (VDict ret), self', l') ->
      encoded depth v (Dict.get k ret))
  /\ (sound (VObj c self) = true -> (2 <= fuel)%nat -> depth < Z.of_nat fuel ->
      exists ret,
        serialize net fuel c self depth true l = (Ok (VDict ret), self, l)
        /\ encoded depth v (Dict.get k ret)).
Proof.
  intros Hd Hg Hv Hu Hp.
  assert (Hrule : forall ret self' l',
             serialize net fuel c self depth true l = (Ok (VDict ret), self', l') ->
             encoded depth v (Dict.get k ret)).
  { intros ret self' l' H.
    destruct (serialize_attr net fuel c self depth l ret self' l' k v
                Hd H Hg Hv Hu Hp) as (fuel' & _ & He).
    destruct v; cbn [entry_result encoded] in *; auto;
      try (destruct He as (x & Hx & ->); now inversion Hx).
    - destruct He as (l1 & l2 & out & Hi & Hr).
      exists out. split; auto. eapply serialize_items_encoded; eauto.
    - destruct He as (x & Hx & ->). cbn [serialize_scalar] in Hx.
      unfold format_decimal in Hx.
      destruct (float_of_decimal d) as [f|e| ]; cbn [bind] in Hx; try discriminate.
      inversion Hx; subst. exists f. repeat split.
      destruct f; try reflexivity. apply format_1f_finite. }
  split; [exact Hrule|].
  intros Hs Hf Hlt.
  destruct (serialize_total_mapping net fuel c self depth l Hd Hs Hf Hlt) as [ret H].
  exists ret. split; [assumption|]. eapply Hrule; eauto.
Qed.

(** A metric whose values came from JSON with a float among them, and whose
    average and maximum are decimals. *)
Definition sample_metric : pydict :=
  [ ("values", VList [VFloat (FFin false 3 (-1)); VInt 2]);
    ("average", VDecimal (DInf false));
    ("name", VStr "Output");
    ("unit", VStr "kJ");
    ("max", VDecimal (DFinite false 12345 (-2)));
    ("slug", VStr "output") ].

(** Counterexample to C9 as stated: in the list the float 1.5, a plain
    scalar, does not pass through but is dropped, and the decimal
    [Infinity] renders as [inf], not as a fixed-point string. *)
Lemma float_dropped_and_infinity_rendered :
  serialize net_down 2 PelotonMetric sample_metric 1 true []
  = (Ok (VDict [ ("values", VList [VInt 2]);
                 ("average", VStr "inf");
                 ("name", VStr "Output");
                 ("unit", VStr "kJ");
                 ("max", VStr "123.5");
                 ("slug", VStr "output") ]),
     sample_metric, []).
Proof. vm_compute. reflexivity. Qed.

Lemma values_encoded_by_type_witness :
  exists f, float_of_decimal (DFinite false 12345 (-2)) = Ok f
            /\ Dict.get "max"
                 (mapping_of (serialize net_down 2 PelotonMetric sample_metric 1 true []))
               = Some (VStr (format_1f f))
            /\ one_fractional_digit (format_1f f).
Proof.
  assert (Hd : 1 <> 0) by discriminate.
  assert (Hc : PelotonMetric <> PelotonWorkout) by discriminate.
  assert (Hp : String.prefix "_" "max" = false) by reflexivity.
  assert (Hf : (2 <= 2)%nat) by apply le_n.
  assert (Hlt : 1 < Z.of_nat 2) by reflexivity.
  assert (Hg : Dict.get "max" sample_metric = Some (VDecimal (DFinite false 12345 (-2))))
    by reflexivity.
  assert (Hn : is_NotLoaded (VDecimal (DFinite false 12345 (-2))) = false) by reflexivity.
  assert (Hs : sound (VObj PelotonMetric sample_metric) = true) by reflexivity.
  pose proof (values_encoded_by_type net_down 2 PelotonMetric sample_metric "max"
                (VDecimal (DFinite false 12345 (-2))) 1 [] Hd Hg Hn (or_introl Hc) Hp)
    as [_ H].
  destruct (H Hs Hf Hlt) as (ret & E & f & Hfl & Hr & Hdig).
  rewrite E. cbn [mapping_of]. exists f. split; [exact Hfl|]. split; [exact Hr|].
  assert (Hfin : exists neg m e, f = FFin neg m e).
  { vm_compute in Hfl. inversion Hfl. eauto. }
  destruct Hfin as (neg & m & e & ->). exact Hdig.
Defined.

(** * Further properties of the module *)

(** ** The attributes of a [PelotonWorkoutMetrics] *)

Lemma set_keys_in (k k' : string) (v : pyval) (d : pydict) :
  In k' (Dict.keys (Dict.set k v d)) -> k' = k \/ In k' (Dict.keys d).
Proof.
  induction d as [|[k0 v0] d IH]; simpl; intros H.
  - destruct H as [H|[]]; auto.
  - destruct (String.eqb_spec k k0) as [-> | Hk]; simpl in H.
    + destruct H; auto.
    + destruct H as [H | H]; auto. apply IH in H. tauto.
Qed.

(** The names under which summaries are stored, and every name a
    [PelotonWorkoutMetrics] can have in its [__dict__]. *)
Definition summary_attribute_names : list string :=
  ["output_summary"; "distance_summary"; "calories_summary"].

Definition metrics_attribute_names : list string :=
  ["workout_duration"; "fitness_discipline"] ++ summary_attribute_names ++ metric_categories.

(** The loop over the summaries assigns summary attributes only, each a
    [PelotonMetricSummary]; [Q] is any property such assignments keep. *)
Lemma build_summaries_inv (Q : pydict -> Prop) :
  (forall d k kw, Q d -> In k summary_attribute_names ->
                  Q (Dict.set k (PelotonMetricSummary_init kw) d)) ->
  forall (ms : list pyval) (self r : pydict),
    Q self -> build_summaries ms self = Ok r -> Q r.
Proof.
  intros Hstep. induction ms as [|metric rest IH]; intros self r HQ H; simpl in H.
  - inversion H; subst; assumption.
  - destruct (subscript_str metric "slug") as [slug|e| ]; cbn [bind] in H; try discriminate.
    destruct (in_names slug metric_summaries) eqn:Hin; cbn [negb] in H.
    + destruct (as_kwargs metric) as [kw|e| ]; cbn [bind] in H; try discriminate.
      assert (Hk : In (if String.eqb (slug_string slug) "total_output"
                       then "output_summary" else slug_string slug ++ "_summary")
                      summary_attribute_names).
      { destruct slug; try discriminate. cbn [in_names] in Hin. unfold slug_string.
        apply existsb_exists in Hin as (x & Hx & He).
        apply String.eqb_eq in He. subst x.
        destruct Hx as [<- | [<- | [<- | []]]]; simpl; auto. }
      apply (IH _ _ (Hstep _ _ kw HQ Hk) H).
    + eapply IH; eauto.
Qed.

(** The same for the loop over the metric categories. *)
Lemma build_metrics_inv (Q : pydict -> Prop) :
  (forall d k kw, Q d -> In k metric_categories ->
                  Q (Dict.set k (PelotonMetric_init kw) d)) ->
  forall (ms : list pyval) (self r : pydict),
    Q self -> build_metrics ms self = Ok r -> Q r.
Proof.
  intros Hstep. induction ms as [|metric rest IH]; intros self r HQ H; simpl in H.
  - inversion H; subst; assumption.
  - destruct (subscript_str metric "slug") as [slug|e| ]; cbn [bind] in H; try discriminate.
    destruct (in_names slug metric_categories) eqn:Hin; cbn [negb] in H.
    + destruct (as_kwargs metric) as [kw|e| ]; cbn [bind] in H; try discriminate.
      assert (Hk : In (slug_string slug) metric_categories).
      { destruct slug; try discriminate. cbn [in_names] in Hin. unfold slug_string.
        apply existsb_exists in Hin as (x & Hx & He).
        apply String.eqb_eq in He. subst x. exact Hx. }
      apply (IH _ _ (Hstep _ _ kw HQ Hk) H).
    + eapply IH; eauto.
Qed.

(** What every constructed [PelotonWorkoutMetrics] looks like: attribute
    names among the ten known ones, none twice, the duration and the
    discipline in place, summaries under the summary names and metrics under
    the category names. *)
Definition metrics_shape (duration discipline : pyval) (d : pydict) : Prop :=
  incl (Dict.keys d) metrics_attribute_names
  /\ NoDup (Dict.keys d)
  /\ Dict.get "workout_duration" d = Some duration
  /\ Dict.get "fitness_discipline" d = Some discipline
  /\ (forall k v, In k summary_attribute_names -> Dict.get k d = Some v ->
                  exists kw, v = PelotonMetricSummary_init kw)
  /\ (forall k v, In k metric_categories -> Dict.get k d = Some v ->
                  exists kw, v = PelotonMetric_init kw).

Lemma metrics_shape_set (duration discipline : pyval) (d : pydict) (k : string) (v : pyval) :
  metrics_shape duration discipline d ->
  (In k summary_attribute_names /\ exists kw, v = PelotonMetricSummary_init kw)
  \/ (In k metric_categories /\ exists kw, v = PelotonMetric_init kw) ->
  metrics_shape duration discipline (Dict.set k v d).
Proof.
  intros (Hi & Hn & Hd & Hf & Hs & Hm) Hk.
  assert (Hnames : In k metrics_attribute_names).
  { unfold metrics_attribute_names.
    destruct Hk as [[Hk _] | [Hk _]]; apply in_or_app; right; apply in_or_app; auto. }
  assert (Hk1 : k <> "workout_duration").
  { intros ->. destruct Hk as [[Hk _] | [Hk _]]; simpl in Hk;
      repeat (destruct Hk as [Hk | Hk]; [discriminate|]); exact Hk. }
  assert (Hk2 : k <> "fitness_discipline").
  { intros ->. destruct Hk as [[Hk _] | [Hk _]]; simpl in Hk;
      repeat (destruct Hk as [Hk | Hk]; [discriminate|]); exact Hk. }
  assert (Hdisj : forall k', In k' summary_attribute_names -> In k' metric_categories ->
                             False).
  { intros k' H1 H2. simpl in H1, H2.
    repeat (destruct H1 as [<- | H1];
            [repeat (destruct H2 as [H2 | H2]; [discriminate|]); exact H2|]).
    exact H1. }
  repeat split.
  - intros k' Hk'. apply set_keys_in in Hk' as [-> | Hk']; auto.
  - now apply set_keys_nodup.
  - rewrite get_set_other; auto.
  - rewrite get_set_other; auto.
  - intros k' v' Hk' Hg. destruct (String.eqb_spec k' k) as [-> | Hne].
    + rewrite get_set_same in Hg. inversion Hg; subst v'.
      destruct Hk as [[_ Hv] | [Hk _]]; auto. exfalso. eauto.
    + rewrite get_set_other in Hg by assumption. eauto.
  - intros k' v' Hk' Hg. destruct (String.eqb_spec k' k) as [-> | Hne].
    + rewrite get_set_same in Hg. inversion Hg; subst v'.
      destruct Hk as [[Hk _] | [_ Hv]]; auto. exfalso. eauto.
    + rewrite get_set_other in Hg by assumption. eauto.
Qed.

(** X1. A [PelotonWorkoutMetrics] that the constructor returns has the shape
    above whatever slugs the payload carried: unknown slugs leave no
    attribute behind, [workout_duration] is the payload's [duration] and
    [fitness_discipline] is [segment_list[0]['metrics_type']]. *)
Theorem workout_metrics_shape (kwargs : pydict) (m : pyval) :
  PelotonWorkoutMetrics_init kwargs = Ok m ->
  exists d seg discipline,
    m = VObj PelotonWorkoutMetrics d
    /\ subscript_zero (kwargs_get "segment_list" kwargs) = Ok seg
    /\ subscript_str seg "metrics_type" = Ok discipline
    /\ metrics_shape (kwargs_get "duration" kwargs) discipline d.
Proof.
  unfold PelotonWorkoutMetrics_init. intros H.
  destruct (subscript_zero _) as [seg|e| ] eqn:Hz; cbn [bind] in H; try discriminate.
  destruct (subscript_str seg _) as [dis|e| ] eqn:Hs; cbn [bind] in H; try discriminate.
  destruct (iterate (kwargs_get "summaries" kwargs)) as [ss|e| ];
    cbn [bind] in H; try discriminate.
  destruct (build_summaries ss _) as [s1|e| ] eqn:E1; cbn [bind] in H; try discriminate.
  destruct (iterate (kwargs_get "metrics" kwargs)) as [ms|e| ];
    cbn [bind] in H; try discriminate.
  destruct (build_metrics ms s1) as [s2|e| ] eqn:E2; cbn [bind] in H; try discriminate.
  inversion H; subst m. exists s2, seg, dis.
  split; [reflexivity|]. split; [reflexivity|]. split; [exact Hs|].
  apply (build_metrics_inv (metrics_shape (kwargs_get "duration" kwargs) dis))
    with (ms := ms) (self := s1); auto.
  { intros d k kw Hd Hk. apply metrics_shape_set; eauto. }
  apply (build_summaries_inv (metrics_shape (kwargs_get "duration" kwargs) dis))
    with (ms := ss)
         (self := Dict.set "fitness_discipline" dis
                    [("workout_duration", kwargs_get "duration" kwargs)]); auto.
  { intros d k kw Hd Hk. apply metrics_shape_set; eauto. }
  cbn [Dict.set String.eqb Ascii.eqb Bool.eqb]. repeat split.
  - intros k [<- | [<- | []]]; unfold metrics_attribute_names; simpl; auto.
  - repeat constructor; simpl; intuition discriminate.
  - intros k v Hk Hg. simpl in Hk.
    repeat (destruct Hk as [<- | Hk]; [discriminate|]). destruct Hk.
  - intros k v Hk Hg. simpl in Hk.
    repeat (destruct Hk as [<- | Hk]; [discriminate|]). destruct Hk.
Qed.

Lemma workout_metrics_shape_witness :
  exists d, graph_metrics = VObj PelotonWorkoutMetrics d
            /\ metrics_shape (VInt 1800) (VStr "cycling") d.
Proof.
  destruct (workout_metrics_shape
              (match graph_payload with VDict d => d | _ => [] end) graph_metrics eq_refl)
    as (d & seg & dis & Hm & Hz & Hs & Hshape).
  exists d. split; [exact Hm|].
  vm_compute in Hz. inversion Hz; subst seg.
  vm_compute in Hs. inversion Hs; subst dis. exact Hshape.
Defined.

(** An entry of [summaries] or [metrics] that the loops can handle: a mapping
    with a [slug] key (and no key that collides with [self]). *)
Definition has_slug (v : pyval) : bool :=
  match v with
  | VDict d => Dict.mem "slug" d && negb (Dict.mem "self" d)
  | _ => false
  end.

Lemma has_slug_inv (v : pyval) :
  has_slug v = true ->
  exists d slug, v = VDict d /\ subscript_str v "slug" = Ok slug /\ as_kwargs v = Ok d.
Proof.
  destruct v; try discriminate. simpl. unfold Dict.mem. intros H.
  apply andb_true_iff in H as [H1 H2]. apply negb_true_iff in H2.
  destruct (Dict.get "slug" d) as [slug|]; [|discriminate].
  exists d, slug. repeat split. unfold Dict.mem in H2.
  destruct (Dict.get "self" d); [discriminate|reflexivity].
Qed.

Lemma build_summaries_total (ms : list pyval) :
  forallb has_slug ms = true ->
  forall self, exists r, build_summaries ms self = Ok r.
Proof.
  induction ms as [|v ms IH]; intros H self; simpl; eauto.
  simpl in H. apply andb_true_iff in H as [Hv Hms].
  destruct (has_slug_inv v Hv) as (d & slug & -> & Hs & Hk).
  rewrite Hs. cbn [bind]. destruct (negb _); auto.
  rewrite Hk. cbn [bind]. auto.
Qed.

Lemma build_metrics_total (ms : list pyval) :
  forallb has_slug ms = true ->
  forall self, exists r, build_metrics ms self = Ok r.
Proof.
  induction ms as [|v ms IH]; intros H self; simpl; eauto.
  simpl in H. apply andb_true_iff in H as [Hv Hms].
  destruct (has_slug_inv v Hv) as (d & slug & -> & Hs & Hk).
  rewrite Hs. cbn [bind]. destruct (negb _); auto.
  rewrite Hk. cbn [bind]. auto.
Qed.

(** X2. A performance graph whose first segment has a [metrics_type] and
    whose [summaries] and [metrics] are lists of mappings with a [slug] is
    always accepted: no slug, known or unknown, makes the constructor
    raise. *)
Theorem unknown_slugs_tolerated (kwargs : pydict) (seg discipline : pyval)
    (ss ms : list pyval) :
  subscript_zero (kwargs_get "segment_list" kwargs) = Ok seg ->
  subscript_str seg "metrics_type" = Ok discipline ->
  kwargs_get "summaries" kwargs = VList ss -> forallb has_slug ss = true ->
  kwargs_get "metrics" kwargs = VList ms -> forallb has_slug ms = true ->
  exists d, PelotonWorkoutMetrics_init kwargs = Ok (VObj PelotonWorkoutMetrics d).
Proof.
  intros Hz Hs Hss Hfs Hms Hfm. unfold PelotonWorkoutMetrics_init.
  rewrite Hz. cbn [bind]. rewrite Hs. cbn [bind]. rewrite Hss. cbn [iterate bind].
  destruct (build_summaries_total ss Hfs
              (Dict.set "fitness_discipline" discipline
                 [("workout_duration", kwargs_get "duration" kwargs)])) as [s1 E1].
  rewrite E1. cbn [bind]. rewrite Hms. cbn [iterate bind].
  destruct (build_metrics_total ms Hfm s1) as [s2 E2].
  rewrite E2. cbn [bind]. eauto.
Qed.

(** A graph with an unknown summary and an unknown metric category. *)
Definition graph_with_unknown_slugs : pydict :=
  [ ("duration", VInt 600);
    ("segment_list", VList [VDict [("metrics_type", VStr "running")]]);
    ("summaries", VList [VDict [("slug", VStr "elevation"); ("value", VInt 12)];
                         VDict [("slug", VStr "distance"); ("value", VInt 3)]]);
    ("metrics", VList [VDict [("slug", VStr "unknown_metric")];
                       VDict [("slug", VStr "speed"); ("values", VList [VInt 9])]]) ].

Lemma unknown_slugs_tolerated_witness :
  exists d, PelotonWorkoutMetrics_init graph_with_unknown_slugs
            = Ok (VObj PelotonWorkoutMetrics d).
Proof.
  apply (unknown_slugs_tolerated graph_with_unknown_slugs
           (VDict [("metrics_type", VStr "running")]) (VStr "running")
           [VDict [("slug", VStr "elevation"); ("value", VInt 12)];
            VDict [("slug", VStr "distance"); ("value", VInt 3)]]
           [VDict [("slug", VStr "unknown_metric")];
            VDict [("slug", VStr "speed"); ("values", VList [VInt 9])]]);
    reflexivity.
Defined.

Lemma build_summaries_slugs (ms : list pyval) :
  forall self r, build_summaries ms self = Ok r ->
                 Forall (fun v => exists s, subscript_str v "slug" = Ok s) ms.
Proof.
  induction ms as [|v ms IH]; intros self r H; [constructor|]. simpl in H.
  destruct (subscript_str v "slug") as [slug|e| ] eqn:E; cbn [bind] in H; try discriminate.
  constructor; [eauto|].
  destruct (negb _); [eauto|].
  destruct (as_kwargs v); cbn [bind] in H; try discriminate. eauto.
Qed.

Lemma build_metrics_slugs (ms : list pyval) :
  forall self r, build_metrics ms self = Ok r ->
                 Forall (fun v => exists s, subscript_str v "slug" = Ok s) ms.
Proof.
  induction ms as [|v ms IH]; intros self r H; [constructor|]. simpl in H.
  destruct (subscript_str v "slug") as [slug|e| ] eqn:E; cbn [bind] in H; try discriminate.
  constructor; [eauto|].
  destruct (negb _); [eauto|].
  destruct (as_kwargs v); cbn [bind] in H; try discriminate. eauto.
Qed.

(** X3. What a payload must have for the constructor to return: a
    [segment_list] with a first element (a missing or null one raises
    [TypeError], an empty one [IndexError]), iterable [summaries] and
    [metrics], and a [slug] in every one of their entries: an entry without
    it is fatal even though an unknown slug is not. *)
Theorem workout_metrics_requirements (kwargs : pydict) :
  (kwargs_get "segment_list" kwargs = VNone ->
   PelotonWorkoutMetrics_init kwargs = Raise TypeError)
  /\ (kwargs_get "segment_list" kwargs = VList [] ->
      PelotonWorkoutMetrics_init kwargs = Raise IndexError)
  /\ (forall m, PelotonWorkoutMetrics_init kwargs = Ok m ->
        exists ss ms,
          iterate (kwargs_get "summaries" kwargs) = Ok ss
          /\ iterate (kwargs_get "metrics" kwargs) = Ok ms
          /\ Forall (fun v => exists s, subscript_str v "slug" = Ok s) (ss ++ ms)).
Proof.
  unfold PelotonWorkoutMetrics_init. split; [|split].
  - intros ->. reflexivity.
  - intros ->. reflexivity.
  - intros m H.
    destruct (subscript_zero _) as [seg|e| ]; cbn [bind] in H; try discriminate.
    destruct (subscript_str seg _) as [dis|e| ]; cbn [bind] in H; try discriminate.
    destruct (iterate (kwargs_get "summaries" kwargs)) as [ss|e| ];
      cbn [bind] in H; try discriminate.
    destruct (build_summaries ss _) as [s1|e| ] eqn:E1; cbn [bind] in H; try discriminate.
    destruct (iterate (kwargs_get "metrics" kwargs)) as [ms|e| ];
      cbn [bind] in H; try discriminate.
    destruct (build_metrics ms s1) as [s2|e| ] eqn:E2; cbn [bind] in H; try discriminate.
    exists ss, ms. repeat split. apply Forall_app. split.
    + eapply build_summaries_slugs; eauto.
    + eapply build_metrics_slugs; eauto.
Qed.

(** ** What the workout constructor builds *)

(** The ride and the achievements as [PelotonWorkout.__init__] computes them. *)
Definition init_ride (kwargs : pydict) : outcome pyval :=
  if is_none (kwargs_get "ride" kwargs) then Ok VNotLoaded
  else kw <- as_kwargs (kwargs_get "ride" kwargs) ;; Ok (PelotonRide_init kw).

Definition init_achievements (kwargs : pydict) : outcome pyval :=
  let a := kwargs_get "achievement_templates" kwargs in
  if is_none a then Ok VNotLoaded
  else l <- iterate a ;; t <- build_achievements l ;; Ok (VList t).

Definition workout_attribute_names : list string :=
  [ "id"; "ride"; "metrics"; "achievements"; "created"; "created_at"; "start_time";
    "end_time"; "fitness_discipline"; "leaderboard_rank"; "leaderboard_users"; "status" ].

(** The constructor, taken apart. *)
Lemma PelotonWorkout_dict_inv (kwargs d : pydict) :
  PelotonWorkout_dict kwargs = Ok d ->
  exists ride achievements t1 t2 t3 t4,
    init_ride kwargs = Ok ride
    /\ init_achievements kwargs = Ok achievements
    /\ fromtimestamp_utc (kwargs_get_default "created" (VInt 0) kwargs) = Ok t1
    /\ fromtimestamp_utc (kwargs_get_default "created_at" (VInt 0) kwargs) = Ok t2
    /\ fromtimestamp_utc (kwargs_get_default "start_time" (VInt 0) kwargs) = Ok t3
    /\ fromtimestamp_utc (kwargs_get_default "end_time" (VInt 0) kwargs) = Ok t4
    /\ d = [ ("id", kwargs_get "id" kwargs);
             ("ride", ride);
             ("metrics", VNotLoaded);
             ("achievements", achievements);
             ("created", VDatetime t1);
             ("created_at", VDatetime t2);
             ("start_time", VDatetime t3);
             ("end_time", VDatetime t4);
             ("fitness_discipline", kwargs_get "fitness_discipline" kwargs);
             ("leaderboard_rank", kwargs_get_default "leaderboard_rank" VNotLoaded kwargs);
             ("leaderboard_users",
               kwargs_get_default "total_leaderboard_users" VNotLoaded kwargs);
             ("status", kwargs_get "status" kwargs) ].
Proof.
  unfold PelotonWorkout_dict. fold (init_ride kwargs). fold (init_achievements kwargs).
  intros H.
  destruct (init_ride kwargs) as [ride|e| ]; cbn [bind] in H; try discriminate.
  destruct (init_achievements kwargs) as [ach|e| ]; cbn [bind] in H; try discriminate.
  destruct (fromtimestamp_utc (kwargs_get_default "created" _ _)) as [t1|e| ];
    cbn [bind] in H; try discriminate.
  destruct (fromtimestamp_utc (kwargs_get_default "created_at" _ _)) as [t2|e| ];
    cbn [bind] in H; try discriminate.
  destruct (fromtimestamp_utc (kwargs_get_default "start_time" _ _)) as [t3|e| ];
    cbn [bind] in H; try discriminate.
  destruct (fromtimestamp_utc (kwargs_get_default "end_time" _ _)) as [t4|e| ];
    cbn [bind] in H; try discriminate.
  inversion H. exists ride, ach, t1, t2, t3, t4. repeat split; reflexivity.
Qed.

(** X4. Every workout that the constructor returns has the same twelve
    attributes in the same order; [metrics] is deferred whatever the payload
    holds (a [metrics] key in it is ignored), and [ride] is deferred exactly
    when the payload has no ride or a null one, and is otherwise the
    [PelotonRide] built from the payload's ride mapping. *)
Theorem constructed_workout_shape (kwargs d : pydict) :
  PelotonWorkout_dict kwargs = Ok d ->
  Dict.keys d = workout_attribute_names
  /\ Dict.get "metrics" d = Some VNotLoaded
  /\ Dict.get "id" d = Some (kwargs_get "id" kwargs)
  /\ (is_none (kwargs_get "ride" kwargs) = true -> Dict.get "ride" d = Some VNotLoaded)
  /\ (is_none (kwargs_get "ride" kwargs) = false ->
      exists kw, kwargs_get "ride" kwargs = VDict kw
                 /\ Dict.get "ride" d = Some (PelotonRide_init kw)).
Proof.
  intros H.
  destruct (PelotonWorkout_dict_inv _ _ H)
    as (ride & ach & t1 & t2 & t3 & t4 & Hr & _ & _ & _ & _ & _ & ->).
  repeat split; try reflexivity.
  - intros Hn. unfold init_ride in Hr. rewrite Hn in Hr. now inversion Hr.
  - intros Hn. unfold init_ride in Hr. rewrite Hn in Hr.
    destruct (kwargs_get "ride" kwargs) as [ | | | | | | |kw| | | | | | ];
      cbn [as_kwargs bind] in Hr; try discriminate.
    destruct (Dict.mem "self" kw); cbn [bind] in Hr; try discriminate.
    inversion Hr. exists kw. split; reflexivity.
Qed.

Lemma constructed_workout_shape_witness :
  Dict.keys listed_workout = workout_attribute_names
  /\ Dict.get "metrics" listed_workout = Some VNotLoaded.
Proof.
  destruct (constructed_workout_shape
              [ ("id", VStr "w1");
                ("ride", VDict [("title", VStr "Climb"); ("id", VStr "r1")]);
                ("created", VInt 86400) ] listed_workout eq_refl)
    as (H1 & H2 & _).
  split; assumption.
Defined.

(** The pair that the constructor appends for an achievement template. *)
Definition achievement_pair (template pair : pyval) : Prop :=
  exists name description,
    subscript_str template "name" = Ok name
    /\ subscript_str template "description" = Ok description
    /\ pair = VTuple [name; description].

Lemma build_achievements_pairs (l : list pyval) :
  forall t, build_achievements l = Ok t -> Forall2 achievement_pair l t.
Proof.
  induction l as [|a l IH]; intros t H; simpl in H.
  - inversion H. constructor.
  - destruct (subscript_str a "name") as [n|e| ] eqn:En; cbn [bind] in H; try discriminate.
    destruct (subscript_str a "description") as [ds|e| ] eqn:Ed;
      cbn [bind] in H; try discriminate.
    destruct (build_achievements l) as [tl|e| ]; cbn [bind] in H; try discriminate.
    inversion H. constructor; [|auto]. exists n, ds. auto.
Qed.

(** The achievements that the constructor stores for a list of templates. *)
Lemma constructed_achievements (kwargs d : pydict) (templates : list pyval) :
  PelotonWorkout_dict kwargs = Ok d ->
  kwargs_get "achievement_templates" kwargs = VList templates ->
  exists pairs,
    Dict.get "achievements" d = Some (VList pairs)
    /\ Forall2 achievement_pair templates pairs
    /\ List.length pairs = List.length templates.
Proof.
  intros H Ht.
  destruct (PelotonWorkout_dict_inv _ _ H)
    as (ride & ach & t1 & t2 & t3 & t4 & _ & Ha & _ & _ & _ & _ & ->).
  unfold init_achievements in Ha. rewrite Ht in Ha. cbn [is_none iterate bind] in Ha.
  destruct (build_achievements templates) as [t|e| ] eqn:E; cbn [bind] in Ha;
    try discriminate.
  inversion Ha. exists t. apply build_achievements_pairs in E.
  repeat split; auto. symmetry. eapply Forall2_length; eauto.
Qed.

(** X5. When the payload lists achievement templates, the workout's
    [achievements] is a list with one [(name, description)] tuple per
    template, in the payload's order. *)
Theorem achievements_are_pairs (kwargs d : pydict) (templates : list pyval) :
  PelotonWorkout_dict kwargs = Ok d ->
  kwargs_get "achievement_templates" kwargs = VList templates ->
  exists pairs,
    Dict.get "achievements" d = Some (VList pairs)
    /\ Forall2 achievement_pair templates pairs
    /\ List.length pairs = List.length templates.
Proof. apply constructed_achievements. Qed.

Lemma achievements_are_pairs_witness :
  exists pairs,
    Dict.get "achievements" full_workout = Some (VList pairs)
    /\ List.length pairs = 1%nat.
Proof.
  destruct (achievements_are_pairs
              (match detail_full with VDict d => d | _ => [] end) full_workout
              [VDict [("name", VStr "Streak"); ("description", VStr "5 days")]]
              eq_refl eq_refl)
    as (pairs & Hg & _ & Hl).
  exists pairs. split; assumption.
Defined.

(** X6. A timestamp key that is present with a value [fromtimestamp] rejects
    (JSON null, a string) makes the constructor raise: only a missing key
    falls back to 0. *)
Theorem bad_timestamp_is_fatal (kwargs : pydict) (k : string) (v : pyval) (e : exn) :
  k = "created" \/ k = "created_at" \/ k = "start_time" \/ k = "end_time" ->
  Dict.get k kwargs = Some v ->
  fromtimestamp_utc v = Raise e ->
  forall d, PelotonWorkout_dict kwargs <> Ok d.
Proof.
  intros Hk Hg He d H.
  destruct (PelotonWorkout_dict_inv _ _ H)
    as (ride & ach & t1 & t2 & t3 & t4 & _ & _ & H1 & H2 & H3 & H4 & _).
  unfold kwargs_get_default in H1, H2, H3, H4.
  destruct Hk as [-> | [-> | [-> | ->]]]; rewrite Hg in *; congruence.
Qed.

Lemma bad_timestamp_is_fatal_witness :
  PelotonWorkout_dict [("id", VStr "w1"); ("start_time", VNone)] = Raise TypeError
  /\ forall d, PelotonWorkout_dict [("id", VStr "w1"); ("start_time", VNone)] <> Ok d.
Proof.
  split; [reflexivity|].
  apply (bad_timestamp_is_fatal [("id", VStr "w1"); ("start_time", VNone)]
           "start_time" VNone TypeError
           (or_intror (or_intror (or_introl eq_refl))) eq_refl eq_refl).
Defined.

(** X7. A leaderboard field that the payload carries, null included, is
    loaded, each field on its own: reading it returns the payload's value,
    sends no request and leaves the workout as it is, whether or not the
    payload carries the other one. *)
Theorem payload_leaderboard_is_loaded (net : log -> request -> exn + response)
    (kwargs d : pydict) (fuel : nat) (l : log) :
  PelotonWorkout_dict kwargs = Ok d ->
  (forall rank,
     Dict.get "leaderboard_rank" kwargs = Some rank -> is_NotLoaded rank = false ->
     getattribute net (S fuel) d "leaderboard_rank" l = (Ok rank, d, l))
  /\ (forall users,
        Dict.get "total_leaderboard_users" kwargs = Some users ->
        is_NotLoaded users = false ->
        getattribute net (S fuel) d "leaderboard_users" l = (Ok users, d, l)).
Proof.
  intros H.
  destruct (PelotonWorkout_dict_inv _ _ H)
    as (ride & ach & t1 & t2 & t3 & t4 & _ & _ & _ & _ & _ & _ & ->).
  unfold kwargs_get_default. split.
  - intros rank Hr Nr. rewrite Hr.
    apply getattribute_plain; [reflexivity|]. rewrite Nr. reflexivity.
  - intros users Hu Nu. rewrite Hu.
    apply getattribute_plain; [reflexivity|]. rewrite Nu. reflexivity.
Qed.

(** A payload with the rank only, here null. *)
Lemma payload_leaderboard_is_loaded_witness :
  getattribute net_down 1
    (dict_of (PelotonWorkout_dict [("id", VStr "w1"); ("leaderboard_rank", VNone)]))
    "leaderboard_rank" []
  = (Ok VNone,
     dict_of (PelotonWorkout_dict [("id", VStr "w1"); ("leaderboard_rank", VNone)]),
     []).
Proof.
  apply (proj1 (payload_leaderboard_is_loaded net_down
                  [("id", VStr "w1"); ("leaderboard_rank", VNone)]
                  _ 0 [] eq_refl) VNone eq_refl eq_refl).
Defined.

(** ** More on [serialize] *)

(** X9. Only depth 0 is a floor: a negative depth serializes like depth 1
    (a mapping of the entity's own attributes, nested entities left out),
    with the same effects. *)
Theorem negative_depth_is_depth_one (net : log -> request -> exn + response) (fuel : nat)
    (c : pyclass) (self : pydict) (depth : Z) (l : log) :
  depth < 0 ->
  serialize net fuel c self depth true l = serialize net fuel c self 1 true l.
Proof.
  intros Hd. destruct fuel as [|fuel]; [reflexivity|].
  rewrite !serialize_unfold.
  assert (E0 : (depth =? 0) = false) by (apply Z.eqb_neq; lia).
  rewrite E0. change (1 =? 0) with false. cbv iota.
  destruct (load_attrs net fuel c (Dict.keys self) (List.length self) self [] l)
    as [[[obj|e| ] s1] l1]; try reflexivity.
  rewrite (serialize_attrs_flat (nested_call net fuel depth) depth)
    by (apply Z.ltb_ge; lia).
  rewrite (serialize_attrs_flat (nested_call net fuel 1) 1) by reflexivity.
  reflexivity.
Qed.

Lemma negative_depth_is_depth_one_witness :
  serialize net_down 2 PelotonObject playlist (-3) true []
  = (Ok (VDict [("name", VStr "favourites")]), playlist, []).
Proof.
  rewrite (negative_depth_is_depth_one net_down 2 PelotonObject playlist (-3) [] eq_refl).
  reflexivity.
Defined.

Lemma set_keys_subset (k : string) (v : pyval) (d : pydict) (k' : string) :
  In k' (Dict.keys d) -> In k' (Dict.keys (Dict.set k v d)).
Proof.
  induction d as [|[k0 v0] d IH]; simpl; [tauto|].
  destruct (String.eqb k k0); simpl; intros [H | H]; auto.
Qed.

Section OutputKeys.

Variable net : log -> request -> exn + response.
Variable ser : pyclass -> pydict -> log -> outcome pyval * log.
Variable depth : Z.

Lemma serialize_entry_keys (k : string) (v : pyval) (ret : pydict) (l : log)
    (ret1 : pydict) (l1 : log) :
  serialize_entry ser depth k v ret l = (Ok ret1, l1) ->
  (NoDup (Dict.keys ret) -> NoDup (Dict.keys ret1))
  /\ forall k', In k' (Dict.keys ret1) -> k' = k \/ In k' (Dict.keys ret).
Proof.
  intros H.
  assert (Hset : forall x, (NoDup (Dict.keys ret) -> NoDup (Dict.keys (Dict.set k x ret)))
                           /\ forall k', In k' (Dict.keys (Dict.set k x ret)) ->
                                         k' = k \/ In k' (Dict.keys ret)).
  { intros x. split; [apply set_keys_nodup|intros k'; apply set_keys_in]. }
  destruct v; cbn [serialize_entry serialize_scalar] in H;
    try (inversion H; subst; apply Hset).
  - destruct (serialize_items ser depth l0 l) as [[out|e| ] l2]; try discriminate.
    inversion H; subst. destruct out, l0; try apply Hset. auto.
  - destruct (format_decimal d) as [x|e| ]; cbn [bind] in H; try discriminate.
    inversion H; subst. apply Hset.
  - destruct (1 <? depth).
    + destruct (ser c d l) as [[x|e| ] l2]; try discriminate.
      inversion H; subst. apply Hset.
    + inversion H; subst. auto.
Qed.

Lemma serialize_attrs_keys (dont_load : list string) :
  forall (obj ret : pydict) (l : log) (ret' : pydict) (l' : log),
    serialize_attrs ser depth dont_load obj ret l = (Ok ret', l') ->
    (NoDup (Dict.keys ret) -> NoDup (Dict.keys ret'))
    /\ forall k, In k (Dict.keys ret') ->
                 In k (Dict.keys ret)
                 \/ (In k (Dict.keys obj) /\ String.prefix "_" k = false
                     /\ ~ In k dont_load).
Proof.
  induction obj as [|[k0 v0] rest IH]; intros ret l ret' l' H.
  - simpl in H. inversion H; subst. auto.
  - cbn [serialize_attrs] in H.
    destruct (String.prefix "_" k0 || existsb (String.eqb k0) dont_load) eqn:Hskip.
    + destruct (IH _ _ _ _ H) as [I1 I2]. split; auto.
      intros k Hk. destruct (I2 k Hk) as [Hr | (Ho & Hp)]; auto.
      right. split; [now right|auto].
    + destruct (serialize_entry ser depth k0 v0 ret l) as [[ret1|e| ] l1] eqn:E;
        try discriminate.
      destruct (serialize_entry_keys _ _ _ _ _ _ E) as [E1 E2].
      destruct (IH _ _ _ _ H) as [I1 I2]. split; auto.
      intros k Hk. destruct (I2 k Hk) as [Hr | (Ho & Hp)].
      * destruct (E2 k Hr) as [-> | Hr']; auto.
        right. apply orb_false_iff in Hskip as [Hp Hd].
        split; [now left|]. split; auto.
        intros Hin. assert (existsb (String.eqb k0) dont_load = true).
        { apply existsb_exists. exists k0. split; auto. apply String.eqb_refl. }
        congruence.
      * right. split; [now right|auto].
Qed.

Lemma load_attrs_keys (fuel : nat) (c : pyclass) (size : nat) :
  forall (keys : list string) (self acc : pydict) (l : log) obj self' l',
    load_attrs net fuel c keys size self acc l = (Ok obj, self', l') ->
    forall k, In k (Dict.keys obj) -> In k keys \/ In k (Dict.keys acc).
Proof.
  induction keys as [|k0 keys IH]; intros self acc l obj self' l' H k Hk;
    simpl in H; destruct (negb (Nat.eqb (List.length self) size)); try discriminate.
  - inversion H; subst. auto.
  - destruct (getattr net fuel c self k0 l) as [[[x|e| ] s1] l1]; try discriminate.
    destruct (IH _ _ _ _ _ _ H k Hk) as [Hi | Hi].
    + left. now right.
    + apply set_keys_in in Hi as [-> | Hi]; auto. left. now left.
Qed.

End OutputKeys.

(** X8. The keys of a returned mapping are attribute names of the entity,
    none of them private (starting with an underscore) and none twice. *)
Theorem output_keys_are_public_attributes (net : log -> request -> exn + response)
    (fuel : nat) (c : pyclass) (self : pydict) (depth : Z) (load_all : bool) (l : log)
    (ret self' : pydict) (l' : log) :
  serialize net fuel c self depth load_all l = (Ok (VDict ret), self', l') ->
  NoDup (Dict.keys ret)
  /\ forall k, In k (Dict.keys ret) ->
               In k (Dict.keys self) /\ String.prefix "_" k = false.
Proof.
  intros H. destruct load_all.
  - destruct (Z.eq_dec depth 0) as [-> | Hd].
    { destruct fuel; simpl in H; inversion H. }
    destruct (serialize_load_inv net _ _ _ _ _ _ _ _ Hd H)
      as (fuel' & obj & ret0 & l1 & -> & Hr & Hload & Hattrs).
    inversion Hr; subst ret0.
    destruct (serialize_attrs_keys _ _ [] _ _ _ _ _ Hattrs) as [Hn Hk].
    split; [apply Hn; constructor|].
    intros k Hin. destruct (Hk k Hin) as [[] | (Ho & Hp & _)].
    split; auto.
    destruct (load_attrs_keys net _ _ _ _ _ _ _ _ _ _ Hload k Ho) as [Hi | []]; auto.
  - destruct fuel as [|fuel]; [inversion H|].
    rewrite serialize_no_load in H. destruct (depth =? 0); inversion H; subst.
    split; [constructor|intros k []].
Qed.

(** An entity with a private attribute. *)
Definition with_private : pydict :=
  [ ("name", VStr "n"); ("_token", VStr "secret") ].

Lemma output_keys_are_public_attributes_witness :
  serialize net_down 1 PelotonObject with_private 1 true []
  = (Ok (VDict [("name", VStr "n")]), with_private, [])
  /\ ~ In "_token" (Dict.keys [("name", VStr "n")]).
Proof.
  assert (H : serialize net_down 1 PelotonObject with_private 1 true []
              = (Ok (VDict [("name", VStr "n")]), with_private, [])) by reflexivity.
  split; [exact H|].
  intros Hin.
  destruct (output_keys_are_public_attributes net_down 1 PelotonObject with_private 1
              true [] _ _ _ H) as [_ Hk].
  destruct (Hk "_token" Hin) as [_ Hp]. discriminate.
Defined.

(** ** What a read leaves loaded *)

Section Forcing.

Variable net : log -> request -> exn + response.

Lemma loaded_set (k k' : string) (v : pyval) (d : pydict) :
  is_NotLoaded v = false -> loaded k d = true -> loaded k (Dict.set k' v d) = true.
Proof.
  intros Hv Hl. destruct (String.eqb_spec k k') as [-> | Hne].
  - now apply loaded_set_same.
  - now rewrite loaded_set_other.
Qed.

Lemma extract_trio_keeps_loaded (fuel : nat) (self w s1 : pydict) (l l1 : log) r
    (k : string) :
  extract_trio net fuel self w l = (r, s1, l1) ->
  loaded k self = true -> loaded k s1 = true.
Proof.
  unfold extract_trio. intros H Hl.
  destruct (getattribute net fuel w "leaderboard_rank" l) as [[[rank|e| ] w1] l2] eqn:E1;
    try (inversion H; subst; assumption).
  apply getattribute_resolved in E1 as [N1 _]; [|reflexivity].
  destruct (getattribute net fuel w1 "leaderboard_users" l2) as [[[users|e| ] w2] l3] eqn:E2;
    try (inversion H; subst; apply loaded_set; assumption).
  apply getattribute_resolved in E2 as [N2 _]; [|reflexivity].
  destruct (getattribute net fuel w2 "achievements" l3) as [[[ach|e| ] w3] l4] eqn:E3;
    try (inversion H; subst; repeat apply loaded_set; assumption).
  apply getattribute_resolved in E3 as [N3 _]; [|reflexivity].
  inversion H; subst. repeat apply loaded_set; assumption.
Qed.

(** An attribute that is loaded stays loaded through any read, whether the
    read returns or raises. *)
Lemma loaded_preserved (fuel : nat) :
  forall (self : pydict) (attr : string) (l : log) r self' l' (k : string),
    getattribute net fuel self attr l = (r, self', l') ->
    loaded k self = true -> loaded k self' = true.
Proof.
  induction fuel as [|fuel IH]; intros self attr l r self' l' k H Hl.
  - inversion H; subst; assumption.
  - destruct (getattribute_view net fuel self attr l)
      as [[_ E] | [(v & _ & _ & E) | [[-> Hg] | [Ha Hg]]]].
    + rewrite E in H. inversion H; subst; assumption.
    + rewrite E in H. inversion H; subst; assumption.
    + rewrite getattribute_metrics in H by assumption.
      destruct (read_id fuel self); try (inversion H; subst; assumption).
      destruct (PelotonWorkoutMetricsFactory_get net a l) as [[m|e| ] l1] eqn:E;
        try (inversion H; subst; assumption).
      apply metrics_factory_obj in E as [d ->].
      inversion H; subst. apply loaded_set; auto.
    + rewrite getattribute_trio in H by assumption.
      destruct (read_id fuel self); try (inversion H; subst; assumption).
      destruct (PelotonWorkoutFactory_get net a l) as [[w|e| ] l1];
        try (inversion H; subst; assumption).
      destruct (extract_trio net fuel self w l1) as [[[u|e| ] s1] l2] eqn:E;
        apply extract_trio_keeps_loaded with (k := k) in E; auto.
      * eapply IH; eauto.
      * inversion H; subst; assumption.
      * inversion H; subst; assumption.
Qed.

(** A read of a lazy attribute that returns leaves it loaded. *)
Lemma read_loads (fuel : nat) (self : pydict) (attr : string) (l : log) v self' l' :
  is_lazy_attr attr = true ->
  getattribute net fuel self attr l = (Ok v, self', l') ->
  loaded attr self' = true.
Proof.
  intros Hl H. destruct (getattribute_resolved net _ _ _ _ _ _ _ Hl H) as [Hv Hg].
  unfold loaded. now rewrite Hg, Hv.
Qed.

(** The loading loop on a workout: the lazy attributes among the keys it has
    read are loaded afterwards. *)
Lemma load_attrs_forces (fuel : nat) (size : nat) :
  forall (keys : list string) (self acc : pydict) (l : log) obj self' l',
    load_attrs net fuel PelotonWorkout keys size self acc l = (Ok obj, self', l') ->
    forall k, is_lazy_attr k = true ->
              (In k keys \/ loaded k self = true) -> loaded k self' = true.
Proof.
  induction keys as [|k0 keys IH]; intros self acc l obj self' l' H k Hk Hin;
    simpl in H; destruct (negb (Nat.eqb (List.length self) size)); try discriminate.
  - inversion H; subst. destruct Hin as [[] | Hl]; assumption.
  - destruct (getattribute net fuel self k0 l) as [[[x|e| ] s1] l1] eqn:E;
      try discriminate.
    apply (IH _ _ _ _ _ _ H k Hk).
    destruct Hin as [[-> | Hin] | Hl]; auto.
    + right. eapply read_loads; eauto.
    + right. eapply loaded_preserved; eauto.
Qed.

(** X12. A [serialize] with [load_all] true that returns a mapping has
    resolved the workout: every lazy attribute the workout has is loaded
    afterwards. *)
Theorem serialize_forces_workout (fuel : nat) (self : pydict) (depth : Z) (l : log)
    (ret self' : pydict) (l' : log) (k : string) :
  serialize net fuel PelotonWorkout self depth true l = (Ok (VDict ret), self', l') ->
  is_lazy_attr k = true ->
  In k (Dict.keys self) ->
  loaded k self' = true.
Proof.
  intros H Hk Hin.
  destruct (Z.eq_dec depth 0) as [-> | Hd].
  { destruct fuel; simpl in H; inversion H. }
  destruct (serialize_load_inv net _ _ _ _ _ _ _ _ Hd H)
    as (fuel' & obj & ret0 & l1 & -> & Hr & Hload & Hattrs).
  eapply load_attrs_forces; eauto.
Qed.

End Forcing.

Lemma serialize_forces_workout_witness :
  loaded "metrics"
    (snd (fst (serialize net_full 3 PelotonWorkout listed_workout 1 true []))) = true
  /\ loaded "achievements"
       (snd (fst (serialize net_full 3 PelotonWorkout listed_workout 1 true []))) = true.
Proof.
  assert (H : serialize net_full 3 PelotonWorkout listed_workout 1 true []
              = (Ok (VDict (mapping_of
                              (serialize net_full 3 PelotonWorkout listed_workout 1 true []))),
                 snd (fst (serialize net_full 3 PelotonWorkout listed_workout 1 true [])),
                 snd (serialize net_full 3 PelotonWorkout listed_workout 1 true [])))
    by (vm_compute; reflexivity).
  split.
  - apply (serialize_forces_workout net_full 3 listed_workout 1 [] _ _ _ "metrics" H
             eq_refl).
    vm_compute. tauto.
  - apply (serialize_forces_workout net_full 3 listed_workout 1 [] _ _ _ "achievements" H
             eq_refl).
    vm_compute. tauto.
Defined.

(** ** Markers and tuples in the output *)

Section Tracking.

Variable net : log -> request -> exn + response.

(** The loading loop, followed through an invariant [I] of the instance that
    reads keep and under which a read of [k] returns [v]. *)
Lemma load_attrs_tracks (fuel : nat) (c : pyclass) (size : nat) (I : pydict -> Prop)
    (k : string) (v : pyval) :
  (forall self a l r self' l',
      I self -> getattr net fuel c self a l = (r, self', l') -> I self') ->
  (forall self l x self' l',
      I self -> getattr net fuel c self k l = (Ok x, self', l') -> x = v) ->
  forall (keys : list string) (self acc : pydict) (l : log) obj self' l',
    load_attrs net fuel c keys size self acc l = (Ok obj, self', l') ->
    I self ->
    (In k keys -> Dict.get k obj = Some v)
    /\ (~ In k keys -> Dict.get k obj = Dict.get k acc).
Proof.
  intros Hkeep Hval.
  induction keys as [|k0 keys IH]; intros self acc l obj self' l' H HI;
    simpl in H; destruct (negb (Nat.eqb (List.length self) size)); try discriminate.
  - inversion H; subst. split; [intros []|auto].
  - destruct (getattr net fuel c self k0 l) as [[[x|e| ] s1] l1] eqn:E;
      try discriminate.
    destruct (IH _ _ _ _ _ _ H (Hkeep _ _ _ _ _ _ HI E)) as [I1 I2].
    split.
    + intros [-> | Hin]; auto.
      destruct (in_dec string_dec k keys) as [Hi | Hi]; auto.
      rewrite I2 by assumption. rewrite get_set_same.
      f_equal. exact (Hval _ _ _ _ _ HI E).
    + intros Hn. rewrite I2 by (intros Hi; apply Hn; now right).
      apply get_set_other. intros ->. apply Hn. now left.
Qed.

(** A read never assigns an attribute that is not lazy, and returns what is
    stored under it. *)
Lemma getattr_keeps_plain (fuel : nat) (c : pyclass) (k : string) (v : pyval) :
  is_lazy_attr k = false ->
  (forall self a l r self' l',
      Dict.get k self = Some v -> getattr net fuel c self a l = (r, self', l') ->
      Dict.get k self' = Some v)
  /\ (forall self l x self' l',
         Dict.get k self = Some v -> getattr net fuel c self k l = (Ok x, self', l') ->
         x = v).
Proof.
  intros Hk. split.
  - intros self a l r self' l' Hg H. unfold getattr in H.
    destruct c; try solve [destruct (Dict.get a self); inversion H; subst; assumption].
    rewrite <- Hg. eapply getattribute_frame; eauto.
  - intros self l x self' l' Hg H. unfold getattr in H.
    destruct c; try solve [rewrite Hg in H; now inversion H].
    destruct fuel as [|fuel]; [inversion H|].
    rewrite (getattribute_plain net fuel self k v l) in H; auto.
    + now inversion H.
    + rewrite Hk. reflexivity.
Qed.

(** The entry of an attribute that is not lazy, whatever it holds. *)
Lemma serialize_plain_attr (fuel : nat) (c : pyclass) (self : pydict) (depth : Z) (l : log)
    ret self' l' (k : string) (v : pyval) :
  depth <> 0 ->
  serialize net fuel c self depth true l = (Ok (VDict ret), self', l') ->
  Dict.get k self = Some v -> is_lazy_attr k = false ->
  String.prefix "_" k = false ->
  exists fuel', fuel = S fuel'
    /\ entry_result (nested_call net fuel' depth) depth v None (Dict.get k ret).
Proof.
  intros Hd H Hg Hk Hp.
  destruct (serialize_load_inv net _ _ _ _ _ _ _ _ Hd H)
    as (fuel' & obj & ret0 & l1 & -> & Hr & Hload & Hattrs).
  inversion Hr; subst ret0. exists fuel'. split; auto.
  destruct (getattr_keeps_plain fuel' c k v Hk) as [Hkeep Hval].
  destruct (load_attrs_tracks fuel' c _ (fun d => Dict.get k d = Some v) k v
              Hkeep Hval _ _ _ _ _ _ _ Hload Hg) as [Hin _].
  pose proof (load_attrs_nodup net _ _ _ _ _ _ _ _ _ _ Hload (NoDup_nil _)) as Hnd.
  destruct (serialize_attrs_entry _ _ [] k _ _ _ _ _ Hattrs) as [_ He].
  apply (He v); auto.
  - apply Hin. eapply get_some_in_keys; eauto.
  - unfold visible. simpl. now rewrite Hp.
Qed.

(** The loading loop assigns no attribute that is not lazy. *)
Lemma load_attrs_frame (fuel : nat) (c : pyclass) (size : nat) (k : string) :
  is_lazy_attr k = false ->
  forall (keys : list string) (self acc : pydict) (l : log) r self' l',
    load_attrs net fuel c keys size self acc l = (r, self', l') ->
    Dict.get k self' = Dict.get k self.
Proof.
  intros Hk. induction keys as [|k0 keys IH]; intros self acc l r self' l' H;
    simpl in H; destruct (negb (Nat.eqb (List.length self) size));
    try (inversion H; subst; reflexivity).
  destruct (getattr net fuel c self k0 l) as [[[x|e| ] s1] l1] eqn:E;
    try (inversion H; subst).
  - rewrite (IH _ _ _ _ _ _ H). unfold getattr in E.
    destruct c; try solve [destruct (Dict.get k0 self); inversion E; subst; reflexivity].
    eapply getattribute_frame; eauto.
  - unfold getattr in E.
    destruct c; try solve [destruct (Dict.get k0 self); inversion E; subst; reflexivity].
    eapply getattribute_frame; eauto.
  - unfold getattr in E.
    destruct c; try solve [destruct (Dict.get k0 self); inversion E; subst; reflexivity].
    eapply getattribute_frame; eauto.
Qed.

(** X10. With [load_all] true, a deferred [ride] is neither resolved nor
    left out: a [serialize] that returns a mapping binds [ride] to the
    [NotLoaded] instance itself, and the workout still holds the marker
    afterwards. *)
Theorem deferred_ride_is_emitted (fuel : nat) (self : pydict) (depth : Z) (l : log)
    (ret self' : pydict) (l' : log) :
  depth <> 0 ->
  Dict.get "ride" self = Some VNotLoaded ->
  serialize net fuel PelotonWorkout self depth true l = (Ok (VDict ret), self', l') ->
  Dict.get "ride" ret = Some VNotLoaded
  /\ Dict.get "ride" self' = Some VNotLoaded.
Proof.
  intros Hd Hg H. split.
  - destruct (serialize_plain_attr fuel PelotonWorkout self depth l ret self' l'
                "ride" VNotLoaded Hd H Hg eq_refl eq_refl) as (fuel' & _ & He).
    destruct He as (x & Hx & ->). now inversion Hx.
  - destruct (serialize_load_inv net _ _ _ _ _ _ _ _ Hd H)
      as (fuel' & obj & ret0 & l1 & -> & Hr & Hload & Hattrs).
    rewrite <- Hg. eapply load_attrs_frame; eauto.
Qed.

End Tracking.

(** A workout as the detail endpoint builds it: no joined ride. *)
Lemma deferred_ride_is_emitted_witness :
  Dict.get "ride"
    (mapping_of (serialize net_full 3 PelotonWorkout full_workout 1 true []))
  = Some VNotLoaded.
Proof.
  assert (Hd : 1 <> 0) by discriminate.
  assert (Hg : Dict.get "ride" full_workout = Some VNotLoaded) by reflexivity.
  assert (H : serialize net_full 3 PelotonWorkout full_workout 1 true []
              = (Ok (VDict (mapping_of
                              (serialize net_full 3 PelotonWorkout full_workout 1 true []))),
                 snd (fst (serialize net_full 3 PelotonWorkout full_workout 1 true [])),
                 snd (serialize net_full 3 PelotonWorkout full_workout 1 true [])))
    by (vm_compute; reflexivity).
  exact (proj1 (deferred_ride_is_emitted net_full 3 full_workout 1 [] _ _ _ Hd Hg H)).
Defined.

Lemma serialize_items_unrecognized
    (ser : pyclass -> pydict -> log -> outcome pyval * log) (depth : Z) (vs : list pyval)
    (l : log) :
  forallb unrecognized vs = true -> serialize_items ser depth vs l = (Ok [], l).
Proof.
  induction vs as [|v vs IH]; intros H; [reflexivity|].
  simpl in H. apply andb_true_iff in H as [Hv Hvs].
  destruct v; try discriminate; cbn [serialize_items serialize_item]; auto.
Qed.

(** A non-empty list none of whose elements the inner loop recognizes
    (tuples, floats, [None], nested lists) leaves no key in the output. *)
Lemma unrecognized_list_is_left_out (net : log -> request -> exn + response) (fuel : nat)
    (c : pyclass) (self : pydict) (k : string) (vs : list pyval) (depth : Z) (l : log)
    (ret self' : pydict) (l' : log) :
  depth <> 0 ->
  Dict.get k self = Some (VList vs) ->
  undisturbed c k self ->
  String.prefix "_" k = false ->
  vs <> [] -> forallb unrecognized vs = true ->
  serialize net fuel c self depth true l = (Ok (VDict ret), self', l') ->
  Dict.get k ret = None.
Proof.
  intros Hd Hg Hu Hp Hne Hall H.
  destruct (serialize_attr net fuel c self depth l ret self' l' k (VList vs)
              Hd H Hg eq_refl Hu Hp) as (fuel' & _ & He).
  destruct He as (l1 & l2 & out & Hi & Hr).
  rewrite serialize_items_unrecognized in Hi by assumption.
  inversion Hi; subst. destruct vs; [congruence|assumption].
Qed.

Lemma achievement_pairs_unrecognized (templates pairs : list pyval) :
  Forall2 achievement_pair templates pairs -> forallb unrecognized pairs = true.
Proof.
  induction 1 as [|t p ts ps (n & ds & _ & _ & ->) _ IH]; simpl; auto.
Qed.

(** X11. The achievements of a workout built from a detail payload (one that
    carries the two leaderboard fields and at least one achievement template)
    never reach the output: their elements are tuples, which the inner loop
    drops, and a non-empty list that ends up empty leaves no key.  Whatever
    the depth, a returned mapping has no [achievements] key. *)
Theorem achievements_are_never_serialized (net : log -> request -> exn + response)
    (kwargs d : pydict) (rank users template : pyval) (templates : list pyval)
    (fuel : nat) (depth : Z) (l : log) (ret self' : pydict) (l' : log) :
  PelotonWorkout_dict kwargs = Ok d ->
  Dict.get "leaderboard_rank" kwargs = Some rank -> is_NotLoaded rank = false ->
  Dict.get "total_leaderboard_users" kwargs = Some users -> is_NotLoaded users = false ->
  kwargs_get "achievement_templates" kwargs = VList (template :: templates) ->
  depth <> 0 ->
  serialize net fuel PelotonWorkout d depth true l = (Ok (VDict ret), self', l') ->
  Dict.get "achievements" ret = None.
Proof.
  intros Hc Hr Nr Hu Nu Ht Hd H.
  destruct (constructed_achievements _ _ _ Hc Ht) as (pairs & Hg & Hp & Hl).
  assert (Hloaded : trio_loaded d = true).
  { eapply complete_payload_trio_loaded; eauto. now rewrite Ht. }
  apply (unrecognized_list_is_left_out net fuel PelotonWorkout d "achievements" pairs
           depth l ret self' l'); auto.
  - right. right. assumption.
  - intros ->. discriminate.
  - eapply achievement_pairs_unrecognized; eauto.
Qed.

Lemma achievements_are_never_serialized_witness :
  Dict.get "achievements"
    (mapping_of (serialize net_full 3 PelotonWorkout full_workout 2 true []))
  = None.
Proof.
  assert (Hd : 2 <> 0) by discriminate.
  assert (H : serialize net_full 3 PelotonWorkout full_workout 2 true []
              = (Ok (VDict (mapping_of
                              (serialize net_full 3 PelotonWorkout full_workout 2 true []))),
                 snd (fst (serialize net_full 3 PelotonWorkout full_workout 2 true [])),
                 snd (serialize net_full 3 PelotonWorkout full_workout 2 true [])))
    by (vm_compute; reflexivity).
  exact (achievements_are_never_serialized net_full
           (match detail_full with VDict d => d | _ => [] end) full_workout
           (VInt 3) (VInt 10)
           (VDict [("name", VStr "Streak"); ("description", VStr "5 days")]) []
           3 2 [] _ _ _ eq_refl eq_refl eq_refl eq_refl eq_refl eq_refl Hd H).
Defined.

(** ** Requests sent by a read *)

Definition is_detail (r : request) : Prop := exists id, r = WorkoutDetail id.

Section Endpoints.

Variable net : log -> request -> exn + response.

(** [l'] continues [l] with workout-detail requests only. *)
Definition details_only (l l' : log) : Prop :=
  exists l2, l' = (l ++ l2)%list /\ Forall is_detail l2.

Lemma details_only_refl (l : log) : details_only l l.
Proof. exists []. split; [now rewrite app_nil_r|constructor]. Qed.

Lemma details_only_trans (l1 l2 l3 : log) :
  details_only l1 l2 -> details_only l2 l3 -> details_only l1 l3.
Proof.
  intros (a & -> & Fa) (b & -> & Fb). exists (a ++ b)%list.
  split; [now rewrite app_assoc|]. apply Forall_app. split; assumption.
Qed.

Lemma details_only_one (l : log) (id : pyval) :
  details_only l (l ++ [WorkoutDetail id])%list.
Proof.
  exists [WorkoutDetail id]. split; [reflexivity|].
  constructor; [now exists id|constructor].
Qed.

(** The requests a read adds to the log: only workout-detail requests for
    anything but [metrics]. *)
Lemma trio_reads_send_details (fuel : nat) :
  forall (self : pydict) (attr : string) (l : log) r self' l',
    getattribute net fuel self attr l = (r, self', l') ->
    attr <> "metrics" ->
    details_only l l'.
Proof.
  induction fuel as [|fuel IH]; intros self attr l r self' l' H Hm.
  - inversion H; subst. apply details_only_refl.
  - destruct (getattribute_view net fuel self attr l)
      as [[_ E] | [(v & _ & _ & E) | [[-> Hg] | [Ha Hg]]]].
    + rewrite E in H. inversion H; subst. apply details_only_refl.
    + rewrite E in H. inversion H; subst. apply details_only_refl.
    + congruence.
    + rewrite getattribute_trio in H by assumption.
      destruct (read_id fuel self);
        try (inversion H; subst; apply details_only_refl).
      destruct (PelotonWorkoutFactory_get net a l) as [[w|e| ] l1] eqn:E;
        apply workout_factory_log in E; subst l1;
        try (inversion H; subst; apply details_only_one).
      pose proof (details_only_one l a) as H0.
      assert (Hx : forall r0 s1 l2,
                 extract_trio net fuel self w (l ++ [WorkoutDetail a])%list = (r0, s1, l2) ->
                 details_only l l2).
      { unfold extract_trio. intros r0 s1 l2 Hx.
        destruct (getattribute net fuel w "leaderboard_rank" (l ++ [WorkoutDetail a])%list)
          as [[[rank|e| ] w1] l3] eqn:E1.
        2, 3: apply IH in E1; [|discriminate]; inversion Hx; subst;
              eapply details_only_trans; eassumption.
        apply IH in E1; [|discriminate].
        pose proof (details_only_trans _ _ _ H0 E1) as H1.
        destruct (getattribute net fuel w1 "leaderboard_users" l3)
          as [[[users|e| ] w2] l4] eqn:E2.
        2, 3: apply IH in E2; [|discriminate]; inversion Hx; subst;
              eapply details_only_trans; eassumption.
        apply IH in E2; [|discriminate].
        pose proof (details_only_trans _ _ _ H1 E2) as H2.
        destruct (getattribute net fuel w2 "achievements" l4)
          as [[[ach|e| ] w3] l5] eqn:E3;
          (apply IH in E3; [|discriminate]); inversion Hx; subst;
          eapply details_only_trans; eassumption. }
      destruct (extract_trio net fuel self w (l ++ [WorkoutDetail a])%list)
        as [[[u|e| ] s1] l2] eqn:E2; specialize (Hx _ _ _ eq_refl).
      * apply IH in H; [|assumption]. eapply details_only_trans; eassumption.
      * inversion H; subst. assumption.
      * inversion H; subst. assumption.
Qed.

(** X13. The two endpoints are kept apart: a read of [metrics] sends at most
    one request, a performance-graph one, and a read of any other attribute
    sends workout-detail requests only. *)
Theorem requests_by_endpoint (fuel : nat) (self : pydict) (attr : string) (l : log)
    r self' l' :
  getattribute net fuel self attr l = (r, self', l') ->
  exists l2,
    l' = (l ++ l2)%list
    /\ (attr = "metrics" -> l2 = [] \/ exists id, l2 = [PerformanceGraph id])
    /\ (attr <> "metrics" -> Forall is_detail l2).
Proof.
  intros H. destruct (String.eqb_spec attr "metrics") as [-> | Hm].
  - assert (Hx : exists l2, l' = (l ++ l2)%list
                            /\ (l2 = [] \/ exists id, l2 = [PerformanceGraph id])).
    { destruct fuel as [|fuel].
      - inversion H; subst. exists []. rewrite app_nil_r. auto.
      - destruct (getattribute_view net fuel self "metrics" l)
          as [[_ E] | [(v & _ & _ & E) | [[_ Hg] | [Ha Hg]]]].
        + rewrite E in H. inversion H; subst. exists []. rewrite app_nil_r. auto.
        + rewrite E in H. inversion H; subst. exists []. rewrite app_nil_r. auto.
        + rewrite getattribute_metrics in H by assumption.
          destruct (read_id fuel self);
            try (inversion H; subst; exists []; rewrite app_nil_r; auto; fail).
          destruct (PelotonWorkoutMetricsFactory_get net a l) as [[m|e| ] l1] eqn:E;
            apply metrics_factory_log in E; subst l1; inversion H; subst; eauto.
        + destruct Ha as [Ha | [Ha | Ha]]; discriminate. }
    destruct Hx as (l2 & -> & Hl2). exists l2.
    split; [reflexivity|]. split; [intros _; exact Hl2|congruence].
  - destruct (trio_reads_send_details fuel _ _ _ _ _ _ H Hm) as (l2 & -> & F).
    exists l2. split; [reflexivity|]. split; [congruence|intros _; exact F].
Qed.

(** X14. An HTTP error status never surfaces as one of the module's
    exception classes: when the answer to the request of a deferred attribute
    has any status above 200 (201 and 204 included), the read raises
    [AttributeError] for the misspelt [_contnet], having changed nothing. *)
Theorem http_status_raises_attribute_error (fuel : nat) (self : pydict) (attr : string)
    (l : log) (id : pyval) (resp : response) :
  is_lazy_attr attr = true ->
  Dict.get attr self = Some VNotLoaded ->
  Dict.get "id" self = Some id ->
  net l (request_for attr id) = inr resp ->
  200 < status_code resp ->
  getattribute net (S (S fuel)) self attr l
  = (Raise (AttributeError "_contnet"), self, (l ++ [request_for attr id])%list).
Proof.
  intros Hl Hg Hid Hn Hs.
  assert (Hreq : api_request net (request_for attr id) l
                 = (Raise (AttributeError "_contnet"), (l ++ [request_for attr id])%list)).
  { unfold api_request. rewrite Hn.
    assert (E : (status_code resp <=? 200) = false) by (apply Z.leb_gt; lia).
    rewrite E. reflexivity. }
  destruct (lazy_cases attr Hl) as [-> | Ha].
  - rewrite getattribute_metrics by assumption. cbn [read_id]. rewrite Hid.
    unfold PelotonWorkoutMetricsFactory_get.
    change (PerformanceGraph id) with (request_for "metrics" id).
    rewrite Hreq. reflexivity.
  - assert (Hr : request_for attr id = WorkoutDetail id)
      by (destruct Ha as [-> | [-> | ->]]; reflexivity).
    rewrite getattribute_trio by assumption. cbn [read_id]. rewrite Hid.
    unfold PelotonWorkoutFactory_get. rewrite <- Hr. rewrite Hreq. reflexivity.
Qed.

End Endpoints.

(** A session that answers every request with 404. *)
Definition net_not_found : log -> request -> exn + response :=
  fun _ _ => inr (mkResponse 404 (inr (VDict [("message", VStr "not found")]))).

Lemma http_status_raises_attribute_error_witness :
  getattribute net_not_found 2 listed_workout "achievements" []
  = (Raise (AttributeError "_contnet"), listed_workout, [WorkoutDetail (VStr "w1")]).
Proof.
  apply (http_status_raises_attribute_error net_not_found 0 listed_workout "achievements"
           [] (VStr "w1") (mkResponse 404 (inr (VDict [("message", VStr "not found")])))
           eq_refl eq_refl eq_refl eq_refl eq_refl).
Defined.

Lemma requests_by_endpoint_witness :
  exists l2,
    snd (getattribute net_late_achievements 3 listed_workout "achievements" [])
    = ([] ++ l2)%list
    /\ Forall is_detail l2.
Proof.
  destruct (requests_by_endpoint net_late_achievements 3 listed_workout "achievements" []
              (fst (fst (getattribute net_late_achievements 3 listed_workout
                           "achievements" [])))
              (snd (fst (getattribute net_late_achievements 3 listed_workout
                           "achievements" [])))
              (snd (getattribute net_late_achievements 3 listed_workout "achievements" [])))
    as (l2 & Hl & _ & Hd).
  { rewrite <- !surjective_pairing. reflexivity. }
  exists l2. split; [exact Hl|]. apply Hd. discriminate.
Defined.

(** X15. On an entity from which no deferred workout attribute and no
    signalling NaN can be reached, [serialize] with [load_all] true returns
    once the call depth allowed exceeds [depth] (and is at least 2): [None]
    at depth 0 and a mapping otherwise, with the entity and the log
    unchanged. *)
Theorem serialize_returns_when_sound (net : log -> request -> exn + response) (fuel : nat)
    (c : pyclass) (self : pydict) (depth : Z) (l : log) :
  sound (VObj c self) = true ->
  (2 <= fuel)%nat -> depth < Z.of_nat fuel ->
  exists out,
    serialize net fuel c self depth true l = (Ok out, self, l)
    /\ (depth <> 0 -> exists ret, out = VDict ret)
    /\ (depth = 0 -> out = VNone).
Proof.
  intros Hs Hf Hd.
  destruct (serialize_total net fuel c self depth l Hs Hf Hd) as (out & H & Hm).
  exists out. split; [exact H|]. split; [exact Hm|].
  intros ->. destruct fuel as [|fuel]; [lia|].
  rewrite serialize_depth_zero in H. now inversion H.
Qed.

(** A resolved workout is sound, so every [serialize] of it returns. *)
Lemma serialize_returns_when_sound_witness :
  exists out,
    serialize net_down 4 PelotonWorkout resolved_workout 3 true []
    = (Ok out, resolved_workout, []).
Proof.
  assert (Hs : sound (VObj PelotonWorkout resolved_workout) = true) by reflexivity.
  assert (Hf : (2 <= 4)%nat) by (repeat constructor).
  assert (Hd : 3 < Z.of_nat 4) by reflexivity.
  destruct (serialize_returns_when_sound net_down 4 PelotonWorkout resolved_workout 3 []
              Hs Hf Hd) as (out & H & _).
  exists out. exact H.
Defined.

(** X16. An attribute that is loaded is never set back to the marker by a
    read, whether that read returns or raises part-way through a
    resolution. *)
Theorem loaded_stays_loaded (net : log -> request -> exn + response) (fuel : nat)
    (self : pydict) (attr : string) (l : log) r self' l' (k : string) :
  getattribute net fuel self attr l = (r, self', l') ->
  loaded k self = true -> loaded k self' = true.
Proof. apply loaded_preserved. Qed.

(** A rank that the listing supplied survives the failed resolution of the
    other two members. *)
Lemma loaded_stays_loaded_witness :
  loaded "leaderboard_rank"
    (snd (fst (getattribute net_down 2
                 (Dict.set "leaderboard_rank" (VInt 3) listed_workout)
                 "achievements" []))) = true.
Proof.
  apply (loaded_stays_loaded net_down 2
           (Dict.set "leaderboard_rank" (VInt 3) listed_workout) "achievements" []
           (fst (fst (getattribute net_down 2
                        (Dict.set "leaderboard_rank" (VInt 3) listed_workout)
                        "achievements" [])))
           _ (snd (getattribute net_down 2
                     (Dict.set "leaderboard_rank" (VInt 3) listed_workout)
                     "achievements" []))
           "leaderboard_rank").
  - rewrite <- !surjective_pairing. reflexivity.
  - reflexivity.
Defined.

(** * The HTTP session and the workout listing

    The object layer above takes the session as given.  This part models what
    is beneath it: the class attributes of [PelotonAPI] and of the two
    factories that inherit from it, [_create_api_session], [_api_request] with
    its session check, and [PelotonWorkoutFactory.list]. *)

(** ** Class attributes and the wire *)

Inductive api_class : Type :=
| PelotonAPI
| PelotonWorkoutFactory
| PelotonWorkoutMetricsFactory.

(** The entries of one class's own [__dict__] among the attributes that the
    body of [PelotonAPI] declares and the code assigns; [None] is a class
    without an entry of its own.  A session is the number of the
    [requests.Session()] call that created it, [None] for Python's [None]. *)
Record class_attrs : Type := mkAttrs {
  peloton_username : option pyval;
  peloton_password : option pyval;
  peloton_session : option (option nat);
  user_id : option pyval
}.

(** What a GET asks for: one of the two lazy-loading endpoints, or a page of
    [/api/user/{user}/workouts] with its [page] and [limit] parameters
    ([joins] is always [ride]). *)
Inductive target : Type :=
| Lazy (req : request)
| Workouts (user : pyval) (page : Z) (limit : pyval).

(** A call made through a session: the login POST with its payload, or a GET. *)
Inductive call : Type :=
| Login (session : nat) (username password : pyval)
| Get (session : nat) (t : target).

(** The state shared by all calls: the own attributes of the three classes,
    the number of sessions created and the calls sent, oldest first. *)
Record world : Type := mkWorld {
  api_attrs : class_attrs;
  workout_factory_attrs : class_attrs;
  metrics_factory_attrs : class_attrs;
  sessions : nat;
  wire : list call
}.

(** The classes as the module body leaves them. *)
Definition imported : world :=
  mkWorld (mkAttrs (Some VNone) (Some VNone) (Some None) (Some VNone))
          (mkAttrs None None None None)
          (mkAttrs None None None None)
          0 [].

(** What this layer can raise: [NameError] for a module global that the
    import left unbound, the three exception classes of the module with the
    response they carry, any exception of the object layer, and that layer's
    recursion bound. *)
Inductive failure : Type :=
| NameError (name : string)
| PelotonRedirectError (resp : response)
| PelotonClientError (resp : response)
| PelotonServerError (resp : response)
| Python (e : exn)
| Unfinished.

(** Code that reads and writes the world and may raise. *)
Definition action (A : Type) : Type := world -> (failure + A) * world.

Definition pure {A : Type} (a : A) : action A := fun w => (inr a, w).

Definition throw {A : Type} (e : failure) : action A := fun w => (inl e, w).

Definition and_then {A B : Type} (m : action A) (k : A -> action B) : action B :=
  fun w =>
    match m w with
    | (inr a, w') => k a w'
    | (inl e, w') => (inl e, w')
    end.

Notation "x <~ m ;; k" := (and_then m (fun x => k))
  (at level 61, m at next level, right associativity).

Definition lift {A : Type} (m : outcome A) : action A :=
  match m with
  | Ok a => pure a
  | Raise e => throw (Python e)
  | OutOfFuel => throw Unfinished
  end.

Definition own (cls : api_class) (w : world) : class_attrs :=
  match cls with
  | PelotonAPI => api_attrs w
  | PelotonWorkoutFactory => workout_factory_attrs w
  | PelotonWorkoutMetricsFactory => metrics_factory_attrs w
  end.

Definition set_own (cls : api_class) (a : class_attrs) (w : world) : world :=
  match cls with
  | PelotonAPI =>
      mkWorld a (workout_factory_attrs w) (metrics_factory_attrs w) (sessions w) (wire w)
  | PelotonWorkoutFactory =>
      mkWorld (api_attrs w) a (metrics_factory_attrs w) (sessions w) (wire w)
  | PelotonWorkoutMetricsFactory =>
      mkWorld (api_attrs w) (workout_factory_attrs w) a (sessions w) (wire w)
  end.

(** Attribute lookup on a class: its own entry, else the entry of the base
    class [PelotonAPI]. *)
Definition class_lookup {A : Type} (field : class_attrs -> option A)
    (cls : api_class) (w : world) : option A :=
  match field (own cls w) with
  | Some v => Some v
  | None => field (api_attrs w)
  end.

(** [cls.name]. *)
Definition class_get {A : Type} (name : string) (field : class_attrs -> option A)
    (cls : api_class) : action A :=
  fun w =>
    match class_lookup field cls w with
    | Some v => (inr v, w)
    | None => (inl (Python (AttributeError name)), w)
    end.

(** [cls.name = v]: always an entry of [cls] itself. *)
Definition class_set (cls : api_class) (f : class_attrs -> class_attrs) : action unit :=
  fun w => (inr tt, set_own cls (f (own cls w)) w).

Definition with_username (v : pyval) (a : class_attrs) : class_attrs :=
  mkAttrs (Some v) (peloton_password a) (peloton_session a) (user_id a).

Definition with_password (v : pyval) (a : class_attrs) : class_attrs :=
  mkAttrs (peloton_username a) (Some v) (peloton_session a) (user_id a).

Definition with_session (s : option nat) (a : class_attrs) : class_attrs :=
  mkAttrs (peloton_username a) (peloton_password a) (Some s) (user_id a).

Definition with_user_id (v : pyval) (a : class_attrs) : class_attrs :=
  mkAttrs (peloton_username a) (peloton_password a) (peloton_session a) (Some v).

(** A module global that the import may have left unbound. *)
Definition global (name : string) (v : option pyval) : action pyval :=
  match v with
  | Some x => pure x
  | None => throw (NameError name)
  end.

(** The world with one more session created, and with more calls sent. *)
Definition opened (w : world) : world :=
  mkWorld (api_attrs w) (workout_factory_attrs w) (metrics_factory_attrs w)
          (S (sessions w)) (wire w).

Definition sent (cs : list call) (w : world) : world :=
  mkWorld (api_attrs w) (workout_factory_attrs w) (metrics_factory_attrs w)
          (sessions w) (wire w ++ cs).

(** [requests.Session()]. *)
Definition new_session : action nat :=
  fun w => (inr (sessions w), opened w).

(** The chain of status tests that both [_create_api_session] and the error
    branch of [_api_request] end with. *)
Definition raise_for_status (resp : response) : action unit :=
  let s := status_code resp in
  if (300 <=? s) && (s <? 400) then throw (PelotonRedirectError resp)
  else if (400 <=? s) && (s <? 500) then throw (PelotonClientError resp)
  else if (500 <=? s) && (s <? 600) then throw (PelotonServerError resp)
  else pure tt.

(** [range(1, v)]: how many times the loop body runs. *)
Definition range_from_one (v : pyval) : outcome nat :=
  match v with
  | VInt z => Ok (Z.to_nat (z - 1))
  | VBool _ => Ok O
  | _ => Raise TypeError
  end.

(** The comprehension over [items]: each entry is unpacked into the keyword
    arguments of the [PelotonWorkout] constructor, in order. *)
Fixpoint build_workouts (items : list pyval) : outcome (list pyval) :=
  match items with
  | [] => Ok []
  | workout :: rest =>
      w <- (kw <- as_kwargs workout ;; PelotonWorkout_init kw) ;;
      ws <- build_workouts rest ;;
      Ok (w :: ws)
  end.

(** The workouts of one decoded page: [res['data']], each entry unpacked
    into the constructor. *)
Definition page_workouts (res : pyval) : outcome (list pyval) :=
  data <- subscript_str res "data" ;;
  items <- iterate data ;;
  build_workouts items.

Section Transport.

(** What the other end answers to a call, given the calls before it; [inl e]
    is an exception raised by [requests] itself. *)
Variable transport : list call -> call -> exn + response.

(** The module globals [PELOTON_USERNAME] and [PELOTON_PASSWORD], [None] when
    the import did not bind them (an environment variable was missing). *)
Variable PELOTON_USERNAME : option pyval.
Variable PELOTON_PASSWORD : option pyval.

(** A call through a session: it is on the wire whatever comes back. *)
Definition send (c : call) : action response :=
  fun w =>
    match transport (wire w) c with
    | inl e => (inl (Python e), sent [c] w)
    | inr resp => (inr resp, sent [c] w)
    end.

(** [PelotonAPI._create_api_session].  The exception of the credential check
    is constructed with one argument where the class takes two, which is a
    [TypeError]. *)
Definition _create_api_session (cls : api_class) : action unit :=
  u <~ class_get "peloton_username" peloton_username cls ;;
  _ <~ (if is_none u
        then g <~ global "PELOTON_USERNAME" PELOTON_USERNAME ;;
             class_set cls (with_username g)
        else pure tt) ;;
  p <~ class_get "peloton_password" peloton_password cls ;;
  _ <~ (if is_none p
        then g <~ global "PELOTON_PASSWORD" PELOTON_PASSWORD ;;
             class_set cls (with_password g)
        else pure tt) ;;
  u <~ class_get "peloton_username" peloton_username cls ;;
  _ <~ (if is_none u then throw (Python TypeError)
        else p <~ class_get "peloton_password" peloton_password cls ;;
             if is_none p then throw (Python TypeError) else pure tt) ;;
  u <~ class_get "peloton_username" peloton_username cls ;;
  p <~ class_get "peloton_password" peloton_password cls ;;
  sid <~ new_session ;;
  _ <~ class_set cls (with_session (Some sid)) ;;
  s <~ class_get "peloton_session" peloton_session cls ;;
  resp <~ (match s with
           | Some n => send (Login n u p)
           | None => throw (Python (AttributeError "post"))
           end) ;;
  _ <~ raise_for_status resp ;;
  body <~ lift (of_sum (json resp)) ;;
  uid <~ lift (subscript_str body "user_id") ;;
  class_set cls (with_user_id uid).

(** [PelotonAPI._api_request], called on [cls]. *)
Definition _api_request (cls : api_class) (t : target) : action response :=
  s <~ class_get "peloton_session" peloton_session cls ;;
  _ <~ (match s with
        | None => _create_api_session cls
        | Some _ => pure tt
        end) ;;
  s <~ class_get "peloton_session" peloton_session cls ;;
  resp <~ (match s with
           | Some n => send (Get n t)
           | None => throw (Python (AttributeError "get"))
           end) ;;
  if negb ((status_code resp <=? 200) && (status_code resp <? 300))
  then _ <~ throw (A:=unit) (Python (AttributeError "_contnet")) ;;
       _ <~ raise_for_status resp ;;
       pure resp
  else pure resp.

(** [PelotonWorkoutFactory.get]: the request goes through [PelotonAPI], not
    through the factory. *)
Definition PelotonWorkoutFactory_get_wire (workout_id : pyval) : action pyval :=
  resp <~ _api_request PelotonAPI (Lazy (WorkoutDetail workout_id)) ;;
  workout <~ lift (of_sum (json resp)) ;;
  lift (kw <- as_kwargs workout ;; PelotonWorkout_init kw).

(** [PelotonWorkoutMetricsFactory.get]. *)
Definition PelotonWorkoutMetricsFactory_get_wire (workout_id : pyval) : action pyval :=
  resp <~ _api_request PelotonWorkoutMetricsFactory (Lazy (PerformanceGraph workout_id)) ;;
  res <~ lift (of_sum (json resp)) ;;
  lift (kw <- as_kwargs res ;; PelotonWorkoutMetrics_init kw).

(** One round of [cls._api_request(uri, params).json()] in the listing. *)
Definition get_page (user : pyval) (page : Z) (limit : pyval) : action pyval :=
  resp <~ _api_request PelotonWorkoutFactory (Workouts user page limit) ;;
  lift (of_sum (json resp)).

(** The loop over [range(1, page_count)], [n] rounds to go: [page] is
    [params['page']] and [ret] the list built so far. *)
Fixpoint more_pages (n : nat) (user : pyval) (page : Z) (limit : pyval)
    (ret : list pyval) : action (list pyval) :=
  match n with
  | O => pure ret
  | S n' =>
      res <~ get_page user (page + 1) limit ;;
      ws <~ lift (page_workouts res) ;;
      more_pages n' user (page + 1) limit (ret ++ ws)
  end.

(** [PelotonWorkoutFactory.list(results_per_page)]. *)
Definition PelotonWorkoutFactory_list (results_per_page : pyval) : action (list pyval) :=
  uid <~ class_get "user_id" user_id PelotonWorkoutFactory ;;
  _ <~ (if is_none uid then _create_api_session PelotonWorkoutFactory else pure tt) ;;
  user <~ class_get "user_id" user_id PelotonWorkoutFactory ;;
  res <~ get_page user 0 results_per_page ;;
  ret <~ lift (page_workouts res) ;;
  page_count <~ lift (subscript_str res "page_count") ;;
  n <~ lift (range_from_one page_count) ;;
  more_pages n user 0 results_per_page ret.

End Transport.

(** ** Reasoning about actions *)

Lemma own_set_own (cls : api_class) (a : class_attrs) (w : world) :
  own cls (set_own cls a w) = a.
Proof. now destruct cls. Qed.

Lemma own_set_own_other (c cls : api_class) (a : class_attrs) (w : world) :
  c <> cls -> own c (set_own cls a w) = own c w.
Proof. destruct c, cls; simpl; congruence. Qed.

Lemma wire_set_own (cls : api_class) (a : class_attrs) (w : world) :
  wire (set_own cls a w) = wire w.
Proof. now destruct cls. Qed.

Lemma sessions_set_own (cls : api_class) (a : class_attrs) (w : world) :
  sessions (set_own cls a w) = sessions w.
Proof. now destruct cls. Qed.

Lemma own_opened (cls : api_class) (w : world) : own cls (opened w) = own cls w.
Proof. now destruct cls. Qed.

Lemma own_sent (cls : api_class) (cs : list call) (w : world) :
  own cls (sent cs w) = own cls w.
Proof. now destruct cls. Qed.

Lemma wire_opened (w : world) : wire (opened w) = wire w.
Proof. reflexivity. Qed.

Lemma sessions_opened (w : world) : sessions (opened w) = S (sessions w).
Proof. reflexivity. Qed.

Lemma wire_sent (cs : list call) (w : world) : wire (sent cs w) = (wire w ++ cs)%list.
Proof. reflexivity. Qed.

Lemma sessions_sent (cs : list call) (w : world) : sessions (sent cs w) = sessions w.
Proof. reflexivity. Qed.

Create Rewrite HintDb world.

#[local] Hint Rewrite own_set_own wire_set_own sessions_set_own own_opened own_sent
  wire_opened sessions_opened wire_sent sessions_sent : world.

Lemma class_lookup_sent {A : Type} (field : class_attrs -> option A) cls cs w :
  class_lookup field cls (sent cs w) = class_lookup field cls w.
Proof. now destruct cls. Qed.

Lemma sent_sent (a b : list call) (w : world) : sent b (sent a w) = sent (a ++ b) w.
Proof. unfold sent. simpl. now rewrite app_assoc. Qed.

Lemma sent_nil (w : world) : sent [] w = w.
Proof. destruct w. unfold sent. simpl. now rewrite app_nil_r. Qed.

Lemma and_then_inv {A B : Type} (m : action A) (k : A -> action B) w r w' :
  and_then m k w = (r, w') ->
  (exists a w1, m w = (inr a, w1) /\ k a w1 = (r, w'))
  \/ (exists e, m w = (inl e, w') /\ r = inl e).
Proof.
  unfold and_then. destruct (m w) as [[e|a] w1]; intros H.
  - right. exists e. now inversion H.
  - left. now exists a, w1.
Qed.

Lemma class_get_inv {A : Type} name (field : class_attrs -> option A) cls w v w' :
  class_get name field cls w = (inr v, w') ->
  w' = w /\ class_lookup field cls w = Some v.
Proof.
  unfold class_get. destruct (class_lookup field cls w); intros H; inversion H; subst.
  now split.
Qed.

Lemma lift_inv {A : Type} (m : outcome A) w a w' :
  lift m w = (inr a, w') -> w' = w /\ m = Ok a.
Proof.
  destruct m; unfold lift, pure, throw; intros H; inversion H; subst. now split.
Qed.

(** [ensures R P m]: every run of [m] relates the worlds before and after by
    [R], and what it raises satisfies [P]. *)
Definition ensures {A : Type} (R : world -> world -> Prop) (P : failure -> Prop)
    (m : action A) : Prop :=
  forall w r w', m w = (r, w') -> R w w' /\ forall e, r = inl e -> P e.

Lemma ensures_pure {A : Type} R P (a : A) :
  (forall w, R w w) -> ensures R P (pure a).
Proof.
  intros Rr w r w' H. inversion H; subst. split; [apply Rr | discriminate].
Qed.

Lemma ensures_throw {A : Type} R P (e : failure) :
  (forall w, R w w) -> P e -> ensures R P (@throw A e).
Proof.
  intros Rr Pe w r w' H. inversion H; subst. split; [apply Rr|].
  intros e0 E. inversion E; subst. exact Pe.
Qed.

Lemma ensures_lift {A : Type} R P (m : outcome A) :
  (forall w, R w w) -> (forall e, P (Python e)) -> P Unfinished -> ensures R P (lift m).
Proof.
  intros Rr H1 H2. destruct m; unfold lift.
  - now apply ensures_pure.
  - apply ensures_throw; auto.
  - apply ensures_throw; auto.
Qed.

Lemma ensures_class_get {A : Type} R P name (field : class_attrs -> option A) cls :
  (forall w, R w w) -> P (Python (AttributeError name)) ->
  ensures R P (class_get name field cls).
Proof.
  intros Rr Pe w r w' H. unfold class_get in H.
  destruct (class_lookup field cls w); inversion H; subst; (split; [apply Rr|]);
    intros e0 E; inversion E; subst; exact Pe.
Qed.

Lemma ensures_global R P name v :
  (forall w, R w w) -> P (NameError name) -> ensures R P (global name v).
Proof.
  intros Rr Pe. destruct v; unfold global.
  - now apply ensures_pure.
  - now apply ensures_throw.
Qed.

Lemma ensures_and_then {A B : Type} R P (m : action A) (k : A -> action B) :
  (forall w1 w2 w3, R w1 w2 -> R w2 w3 -> R w1 w3) ->
  ensures R P m -> (forall a, ensures R P (k a)) -> ensures R P (and_then m k).
Proof.
  intros Rt Hm Hk w r w' H. apply and_then_inv in H.
  destruct H as [(a & w1 & H1 & H2)|(e & H1 & ->)].
  - destruct (Hm _ _ _ H1) as [R1 _]. destruct (Hk a _ _ _ H2) as [R2 P2].
    split; [eapply Rt; eauto | exact P2].
  - destruct (Hm _ _ _ H1) as [R1 P1]. split; [exact R1|].
    intros e0 E. inversion E; subst. now apply P1.
Qed.

Lemma ensures_class_set R P cls f :
  (forall w, R w (set_own cls (f (own cls w)) w)) -> ensures R P (class_set cls f).
Proof.
  intros Rs w r w' H. inversion H; subst. split; [apply Rs | discriminate].
Qed.

Lemma ensures_new_session R P :
  (forall w, R w (opened w)) -> ensures R P new_session.
Proof.
  intros Rs w r w' H. inversion H; subst. split; [apply Rs | discriminate].
Qed.

Lemma ensures_send R P transport c :
  (forall w, R w (sent [c] w)) -> (forall e, P (Python e)) ->
  ensures R P (send transport c).
Proof.
  intros Rs Pe w r w' H. unfold send in H.
  destruct (transport (wire w) c); inversion H; subst; (split; [apply Rs|]);
    intros e0 E; inversion E; subst; apply Pe.
Qed.

Lemma ensures_raise_for_status R P resp :
  (forall w, R w w) -> (forall e, P e) -> ensures R P (raise_for_status resp).
Proof.
  intros Rr Pe. unfold raise_for_status. cbv zeta.
  repeat match goal with |- ensures _ _ (if ?b then _ else _) => destruct b end;
    first [ now apply ensures_pure | now apply ensures_throw ].
Qed.

Lemma and_then_ensures {A B : Type} R P (m : action A) (k : A -> action B) w r w' :
  and_then m k w = (r, w') -> ensures R P m ->
  (exists a w1, R w w1 /\ m w = (inr a, w1) /\ k a w1 = (r, w'))
  \/ (R w w' /\ exists e, r = inl e /\ P e).
Proof.
  intros H Hm. apply and_then_inv in H.
  destruct H as [(a & w1 & H1 & H2)|(e & H1 & ->)].
  - left. exists a, w1. destruct (Hm _ _ _ H1) as [R1 _]. auto.
  - right. destruct (Hm _ _ _ H1) as [R1 P1]. split; [exact R1|]. exists e. auto.
Qed.

(** A step that touches nothing but the credentials and the user id of
    [cls]: nothing is sent, no session is created or stored, and the other
    classes keep their attributes. *)
Definition quiet (cls : api_class) (w w' : world) : Prop :=
  wire w' = wire w
  /\ sessions w' = sessions w
  /\ peloton_session (own cls w') = peloton_session (own cls w)
  /\ forall c, c <> cls -> own c w' = own c w.

(** The other classes keep their own attributes. *)
Definition frame (cls : api_class) (w w' : world) : Prop :=
  forall c, c <> cls -> own c w' = own c w.

(** Failures other than the three exception classes of the module. *)
Definition plain (e : failure) : Prop :=
  match e with
  | PelotonRedirectError _ | PelotonClientError _ | PelotonServerError _ => False
  | _ => True
  end.

Definition anything (e : failure) : Prop := True.

Lemma quiet_refl cls w : quiet cls w w.
Proof. unfold quiet. auto. Qed.

Lemma quiet_trans cls w1 w2 w3 : quiet cls w1 w2 -> quiet cls w2 w3 -> quiet cls w1 w3.
Proof.
  intros (a1 & b1 & c1 & d1) (a2 & b2 & c2 & d2). unfold quiet.
  repeat split; try congruence. intros c Hc. rewrite d2, d1; auto.
Qed.

Lemma quiet_set_own cls f w :
  (forall a, peloton_session (f a) = peloton_session a) ->
  quiet cls w (set_own cls (f (own cls w)) w).
Proof.
  intros Hf. unfold quiet.
  rewrite wire_set_own, sessions_set_own, own_set_own, Hf.
  repeat split. intros c Hc. now apply own_set_own_other.
Qed.

Lemma frame_refl cls w : frame cls w w.
Proof. now intros c Hc. Qed.

Lemma frame_trans cls w1 w2 w3 : frame cls w1 w2 -> frame cls w2 w3 -> frame cls w1 w3.
Proof. intros F1 F2 c Hc. rewrite F2, F1; auto. Qed.

Lemma frame_set_own cls a w : frame cls w (set_own cls a w).
Proof. intros c Hc. now apply own_set_own_other. Qed.

Lemma frame_opened cls w : frame cls w (opened w).
Proof. intros c Hc. apply own_opened. Qed.

Lemma frame_sent cls cs w : frame cls w (sent cs w).
Proof. intros c Hc. apply own_sent. Qed.

Lemma quiet_frame cls w w' : quiet cls w w' -> frame cls w w'.
Proof. now intros (_ & _ & _ & F). Qed.

(** Nothing changes. *)
Definition same (w w' : world) : Prop := w' = w.

Lemma same_refl w : same w w.
Proof. reflexivity. Qed.

Lemma same_trans w1 w2 w3 : same w1 w2 -> same w2 w3 -> same w1 w3.
Proof. unfold same. congruence. Qed.

Ltac preorder :=
  first [ exact (quiet_refl _) | exact (quiet_trans _)
        | exact (frame_refl _) | exact (frame_trans _)
        | exact same_refl | exact same_trans ].

Ltac side := intros; exact I.

Ltac effect :=
  intros;
  first [ apply quiet_set_own; intros; reflexivity
        | apply frame_set_own | apply frame_opened | apply frame_sent ].

Ltac ensure_by known :=
  repeat first
    [ known
    | apply ensures_and_then; [ preorder | | intros ? ]
    | apply ensures_pure; preorder
    | apply ensures_throw; [ preorder | side ]
    | apply ensures_lift; [ preorder | side | side ]
    | apply ensures_class_get; [ preorder | side ]
    | apply ensures_global; [ preorder | side ]
    | apply ensures_class_set; effect
    | apply ensures_new_session; effect
    | apply ensures_send; [ effect | side ]
    | apply ensures_raise_for_status; [ preorder | side ]
    | match goal with
      | |- ensures _ _ (if ?b then _ else _) => destruct b
      | |- ensures _ _ (match ?x with _ => _ end) => destruct x
      end ].

Ltac ensure := ensure_by fail.

Ltac chain :=
  repeat match goal with
  | Q1 : quiet ?c ?a ?b, Q2 : quiet ?c ?b ?d |- _ =>
      pose proof (quiet_trans c a b d Q1 Q2); clear Q1 Q2
  end.

(** What the login POST leads to: the exception of [requests], one of the
    module's exceptions for a status from 300 to 599, or the [user_id] of
    the decoded body. *)
Definition login_answer (x : exn + response) : failure + pyval :=
  match x with
  | inl e => inl (Python e)
  | inr resp =>
      let s := status_code resp in
      if (300 <=? s) && (s <? 400) then inl (PelotonRedirectError resp)
      else if (400 <=? s) && (s <? 500) then inl (PelotonClientError resp)
      else if (500 <=? s) && (s <? 600) then inl (PelotonServerError resp)
      else match json resp with
           | inl e => inl (Python e)
           | inr body =>
               match subscript_str body "user_id" with
               | Ok uid => inr uid
               | Raise e => inl (Python e)
               | OutOfFuel => inl Unfinished
               end
           end
  end.

(** What [_api_request] makes of the answer to its GET. *)
Definition checked (x : exn + response) : failure + response :=
  match x with
  | inl e => inl (Python e)
  | inr resp =>
      if status_code resp <=? 200 then inr resp
      else inl (Python (AttributeError "_contnet"))
  end.

(** The GET for page [i] of the listing, and [n] of them from page [from]
    onwards. *)
Definition page_request (sid : nat) (user limit : pyval) (i : nat) : call :=
  Get sid (Workouts user (Z.of_nat i) limit).

Definition page_requests (sid : nat) (user limit : pyval) (from n : nat) : list call :=
  map (page_request sid user limit) (seq from n).

(** A workout as the listing leaves it: the twelve attributes, [metrics]
    deferred, so that the first read of [metrics] is a call of
    [PelotonWorkoutMetricsFactory.get] with the workout's id: what that call
    returns is stored and returned, what it raises propagates and leaves the
    workout as it was. *)
Definition deferred_workout (v : pyval) : Prop :=
  exists d id,
    v = VObj PelotonWorkout d
    /\ Dict.keys d = workout_attribute_names
    /\ Dict.get "id" d = Some id
    /\ Dict.get "metrics" d = Some VNotLoaded
    /\ forall net fuel l,
         getattribute net (S (S fuel)) d "metrics" l
         = match PelotonWorkoutMetricsFactory_get net id l with
           | (Ok metrics, l') => (Ok metrics, Dict.set "metrics" metrics d, l')
           | (Raise e, l') => (Raise e, d, l')
           | (OutOfFuel, l') => (OutOfFuel, d, l')
           end.

Lemma built_workout_deferred (kw d : pydict) :
  PelotonWorkout_dict kw = Ok d -> deferred_workout (VObj PelotonWorkout d).
Proof.
  intros H.
  destruct (PelotonWorkout_dict_inv _ _ H)
    as (ride & ach & t1 & t2 & t3 & t4 & _ & _ & _ & _ & _ & _ & ->).
  eexists. exists (kwargs_get "id" kw).
  split; [reflexivity|]. split; [reflexivity|]. split; [reflexivity|].
  split; [reflexivity|].
  intros net fuel l. rewrite getattribute_metrics by reflexivity.
  cbn [read_id]. reflexivity.
Qed.

Lemma build_workouts_deferred (items : list pyval) : forall ws,
  build_workouts items = Ok ws -> Forall deferred_workout ws.
Proof.
  induction items as [|x items IH]; intros ws H; cbn [build_workouts] in H.
  - inversion H. constructor.
  - destruct (as_kwargs x) as [kw|e| ]; try discriminate. cbn [bind] in H.
    unfold PelotonWorkout_init in H.
    destruct (PelotonWorkout_dict kw) as [d|e| ] eqn:D; try discriminate.
    cbn [bind] in H.
    destruct (build_workouts items) as [ws'|e| ]; try discriminate.
    cbn [bind] in H. inversion H; subst. constructor; [|now apply IH].
    now apply built_workout_deferred with (kw := kw).
Qed.

Lemma page_workouts_deferred (res : pyval) (page : list pyval) :
  page_workouts res = Ok page -> Forall deferred_workout page.
Proof.
  unfold page_workouts. intros H.
  destruct (subscript_str res "data") as [data|e| ]; try discriminate. cbn [bind] in H.
  destruct (iterate data) as [items|e| ]; try discriminate. cbn [bind] in H.
  now apply build_workouts_deferred in H.
Qed.

Section Sessions.

Variable transport : list call -> call -> exn + response.
Variable PELOTON_USERNAME : option pyval.
Variable PELOTON_PASSWORD : option pyval.

Local Notation "'create'" := (_create_api_session transport PELOTON_USERNAME PELOTON_PASSWORD).
Local Notation "'request'" := (_api_request transport PELOTON_USERNAME PELOTON_PASSWORD).

Lemma create_framed cls : ensures (frame cls) anything (create cls).
Proof. unfold _create_api_session. ensure. Qed.

Lemma request_framed cls t : ensures (frame cls) anything (request cls t).
Proof. unfold _api_request. ensure_by ltac:(apply create_framed). Qed.

Lemma login_tail cls resp w r w' :
  (_ <~ raise_for_status resp ;;
   body <~ lift (of_sum (json resp)) ;;
   uid <~ lift (subscript_str body "user_id") ;;
   class_set cls (with_user_id uid)) w = (r, w') ->
  quiet cls w w'
  /\ match login_answer (inr resp) with
     | inl e => r = inl e
     | inr uid => r = inr tt /\ user_id (own cls w') = Some uid
     end.
Proof.
  unfold login_answer, and_then, raise_for_status, lift, of_sum, class_set, pure, throw.
  cbv zeta.
  destruct ((300 <=? status_code resp) && (status_code resp <? 400));
    [intros H; inversion H; subst; split; [apply quiet_refl | reflexivity] |].
  destruct ((400 <=? status_code resp) && (status_code resp <? 500));
    [intros H; inversion H; subst; split; [apply quiet_refl | reflexivity] |].
  destruct ((500 <=? status_code resp) && (status_code resp <? 600));
    [intros H; inversion H; subst; split; [apply quiet_refl | reflexivity] |].
  destruct (json resp) as [e|body];
    [intros H; inversion H; subst; split; [apply quiet_refl | reflexivity] |].
  destruct (subscript_str body "user_id") as [uid|e|];
    intros H; inversion H; subst; (split; [| try reflexivity]); try apply quiet_refl.
  - apply quiet_set_own. reflexivity.
  - split; [reflexivity|]. now rewrite own_set_own.
Qed.

Lemma class_lookup_own {A : Type} (field : class_attrs -> option A) cls w v :
  field (own cls w) = Some v -> class_lookup field cls w = Some v.
Proof. unfold class_lookup. now intros ->. Qed.

Lemma quiet_lookup_session cls w w' :
  quiet cls w w' ->
  class_lookup peloton_session cls w' = class_lookup peloton_session cls w.
Proof.
  intros (_ & _ & Hs & F). unfold class_lookup. rewrite Hs.
  destruct (peloton_session (own cls w)) eqn:E; [reflexivity|].
  destruct cls.
  - simpl in *. congruence.
  - assert (G : own PelotonAPI w' = own PelotonAPI w) by (apply F; discriminate).
    simpl in G. now rewrite G.
  - assert (G : own PelotonAPI w' = own PelotonAPI w) by (apply F; discriminate).
    simpl in G. now rewrite G.
Qed.

(** The two ways [_create_api_session] can go: it stops before anything is
    sent, or it creates a session, stores it on the class and posts the
    login, and the answer decides the rest. *)
Lemma create_view cls w r w' :
  create cls w = (r, w') ->
  (quiet cls w w' /\ exists e, r = inl e /\ plain e)
  \/ exists u p,
       wire w' = (wire w ++ [Login (sessions w) u p])%list
       /\ sessions w' = S (sessions w)
       /\ peloton_session (own cls w') = Some (Some (sessions w))
       /\ match login_answer (transport (wire w) (Login (sessions w) u p)) with
          | inl e => r = inl e
          | inr uid => r = inr tt /\ user_id (own cls w') = Some uid
          end.
Proof.
  intros H. unfold _create_api_session in H.
  do 8 (eapply and_then_ensures with (R := quiet cls) (P := plain) in H;
        [ destruct H as [(? & ? & ? & _ & H) | (? & ? & -> & ?)];
          [ | left; split; [chain; assumption | eauto] ]
        | solve [ensure] ]).
  chain. right. exists x11, x13.
  destruct H1 as (Hw & Hs & _ & _).
  unfold and_then at 1 in H. unfold new_session at 1 in H. cbv beta iota in H.
  unfold and_then at 1 in H. unfold class_set at 1 in H. cbv beta iota in H.
  unfold and_then at 1 in H. unfold class_get at 1 in H.
  rewrite (class_lookup_own peloton_session cls _ (Some (sessions x14))) in H
    by (now rewrite own_set_own).
  cbv beta iota in H.
  apply and_then_inv in H. destruct H as [(resp & w11 & E & H) | (e & E & ->)].
  - unfold send in E. rewrite wire_set_own in E. simpl wire in E.
    rewrite Hw, Hs in E.
    destruct (transport (wire w) (Login (sessions w) x11 x13)) as [e|resp'] eqn:T;
      inversion E; subst resp' w11; clear E.
    apply login_tail in H. destruct H as [(Qw & Qs & Qf & _) A].
    autorewrite with world in Qw, Qs, Qf. rewrite Hw in Qw. rewrite Hs in Qs.
    repeat split; assumption.
  - unfold send in E. rewrite wire_set_own in E. simpl wire in E.
    rewrite Hw, Hs in E.
    destruct (transport (wire w) (Login (sessions w) x11 x13)) as [e'|resp'] eqn:T;
      inversion E; subst; clear E.
    autorewrite with world. rewrite Hw, Hs. repeat split.
Qed.

(** With a session in place [_api_request] does one thing: it sends the GET
    through that session. *)
Lemma api_request_with_session cls t w sid :
  class_lookup peloton_session cls w = Some (Some sid) ->
  request cls t w = (checked (transport (wire w) (Get sid t)), sent [Get sid t] w).
Proof.
  intros L. unfold _api_request, and_then, class_get, pure, throw, send.
  rewrite L. cbv beta iota. rewrite L. cbv beta iota.
  unfold checked. destruct (transport (wire w) (Get sid t)) as [e|resp]; [reflexivity|].
  destruct (status_code resp <=? 200) eqn:S200.
  - assert ((status_code resp <? 300) = true) as -> by lia. reflexivity.
  - reflexivity.
Qed.

(** Without one it logs in first, and goes on only if that returns. *)
Lemma api_request_without_session cls t w :
  class_lookup peloton_session cls w = Some None ->
  request cls t w =
  match create cls w with
  | (inl e, w1) => (inl e, w1)
  | (inr _, w1) => request cls t w1
  end.
Proof.
  intros L. unfold _api_request at 1. unfold and_then at 1, class_get at 1.
  rewrite L. cbv beta iota. unfold and_then at 1.
  destruct (create cls w) as [[e|[]] w1] eqn:C; [reflexivity|].
  apply create_view in C. destruct C as [(_ & e & E & _) | (u & p & _ & _ & Hs & _)];
    [discriminate|].
  apply class_lookup_own in Hs.
  rewrite (api_request_with_session _ _ _ _ Hs).
  unfold and_then, class_get, pure, throw, send. rewrite Hs. cbv beta iota.
  unfold checked.
  destruct (transport (wire w1) (Get (sessions w) t)) as [e|resp]; [reflexivity|].
  destruct (status_code resp <=? 200) eqn:S200.
  - assert ((status_code resp <? 300) = true) as -> by lia. reflexivity.
  - reflexivity.
Qed.

(** A request that returns: at most one login, then the GET, through the
    session that the class has afterwards. *)
Lemma api_request_ok cls t w resp w' :
  request cls t w = (inr resp, w') ->
  exists sid login w1,
    ((login = [] /\ w1 = w)
     \/ (class_lookup peloton_session cls w = Some None
         /\ exists u p, login = [Login sid u p]
                        /\ create cls w = (inr tt, w1)))
    /\ class_lookup peloton_session cls w1 = Some (Some sid)
    /\ wire w1 = (wire w ++ login)%list
    /\ w' = sent [Get sid t] w1
    /\ transport (wire w1) (Get sid t) = inr resp
    /\ status_code resp <= 200.
Proof.
  assert (K : forall x, checked x = inr resp ->
                        x = inr resp /\ status_code resp <= 200).
  { intros [e|resp0]; unfold checked; [discriminate|].
    destruct (status_code resp0 <=? 200) eqn:S200; [|discriminate].
    intros E. inversion E; subst. split; [reflexivity | lia]. }
  intros H.
  destruct (class_lookup peloton_session cls w) as [[sid|]|] eqn:L.
  - rewrite (api_request_with_session _ _ _ _ L) in H. inversion H as [[E W]].
    apply K in E. destruct E as [E S200].
    exists sid, [], w. rewrite app_nil_r. repeat split; auto.
  - rewrite (api_request_without_session _ _ _ L) in H.
    destruct (create cls w) as [[e|[]] w1] eqn:C; [discriminate|].
    pose proof C as V. apply create_view in V.
    destruct V as [(_ & e & E & _) | (u & p & Hw & _ & Hs & _)]; [discriminate|].
    apply class_lookup_own in Hs.
    rewrite (api_request_with_session _ _ _ _ Hs) in H. inversion H as [[E W]].
    apply K in E. destruct E as [E S200].
    exists (sessions w), [Login (sessions w) u p], w1.
    repeat split; auto. right. split; [reflexivity|]. now exists u, p.
  - unfold _api_request, and_then, class_get in H. rewrite L in H. discriminate.
Qed.

Lemma get_page_framed user page limit :
  ensures (frame PelotonWorkoutFactory) anything
          (get_page transport PELOTON_USERNAME PELOTON_PASSWORD user page limit).
Proof. unfold get_page. ensure_by ltac:(apply request_framed). Qed.

Lemma more_pages_framed n : forall user page limit ret,
  ensures (frame PelotonWorkoutFactory) anything
          (more_pages transport PELOTON_USERNAME PELOTON_PASSWORD n user page limit ret).
Proof.
  induction n as [|n IH]; intros user page limit ret; cbn [more_pages].
  - ensure.
  - ensure_by ltac:(first [apply get_page_framed | apply IH]).
Qed.

Lemma list_framed limit :
  ensures (frame PelotonWorkoutFactory) anything
          (PelotonWorkoutFactory_list transport PELOTON_USERNAME PELOTON_PASSWORD limit).
Proof.
  unfold PelotonWorkoutFactory_list.
  ensure_by ltac:(first [apply get_page_framed | apply more_pages_framed
                        | apply create_framed]).
Qed.

Lemma get_wire_framed workout_id :
  ensures (frame PelotonAPI) anything
          (PelotonWorkoutFactory_get_wire transport PELOTON_USERNAME PELOTON_PASSWORD
             workout_id).
Proof. unfold PelotonWorkoutFactory_get_wire. ensure_by ltac:(apply request_framed). Qed.

Lemma metrics_get_wire_framed workout_id :
  ensures (frame PelotonWorkoutMetricsFactory) anything
          (PelotonWorkoutMetricsFactory_get_wire transport PELOTON_USERNAME
             PELOTON_PASSWORD workout_id).
Proof.
  unfold PelotonWorkoutMetricsFactory_get_wire. ensure_by ltac:(apply request_framed).
Qed.

(** [page] is what the listing builds from the answer to [c], sent after the
    calls [before]; [res] is the decoded body. *)
Definition page_answer (before : list call) (c : call) (page : list pyval)
    (res : pyval) : Prop :=
  exists resp,
    transport before c = inr resp /\ status_code resp <= 200
    /\ json resp = inr res /\ page_workouts res = Ok page.

Lemma get_page_ok user page limit w res w' :
  get_page transport PELOTON_USERNAME PELOTON_PASSWORD user page limit w = (inr res, w') ->
  exists sid login w1 resp,
    ((login = [] /\ w1 = w)
     \/ (class_lookup peloton_session PelotonWorkoutFactory w = Some None
         /\ exists u p, login = [Login sid u p]))
    /\ class_lookup peloton_session PelotonWorkoutFactory w1 = Some (Some sid)
    /\ wire w1 = (wire w ++ login)%list
    /\ w' = sent [Get sid (Workouts user page limit)] w1
    /\ transport (wire w1) (Get sid (Workouts user page limit)) = inr resp
    /\ status_code resp <= 200
    /\ json resp = inr res.
Proof.
  intros H. unfold get_page in H. apply and_then_inv in H.
  destruct H as [(resp & w2 & H1 & H2) | (e & _ & E)]; [|discriminate].
  apply lift_inv in H2. destruct H2 as [-> J].
  apply api_request_ok in H1.
  destruct H1 as (sid & login & w1 & D & L & W & -> & T & S200).
  exists sid, login, w1, resp. repeat split; auto.
  - destruct D as [D | (L0 & u & p & D & _)]; [now left | right].
    split; [exact L0|]. now exists u, p.
  - destruct (json resp); [discriminate|]. now inversion J.
Qed.

Lemma more_pages_trace sid user limit : forall n k ret w ws w',
  class_lookup peloton_session PelotonWorkoutFactory w = Some (Some sid) ->
  more_pages transport PELOTON_USERNAME PELOTON_PASSWORD n user (Z.of_nat k) limit ret w
  = (inr ws, w') ->
  w' = sent (page_requests sid user limit (S k) n) w
  /\ exists pages,
       List.length pages = n
       /\ ws = (ret ++ List.concat pages)%list
       /\ forall j page, nth_error pages j = Some page ->
            exists res,
              page_answer (wire w ++ page_requests sid user limit (S k) j)%list
                          (page_request sid user limit (S k + j)) page res.
Proof.
  induction n as [|n IH]; intros k ret w ws w' L H.
  - cbn [more_pages] in H. inversion H; subst.
    split; [now rewrite sent_nil|]. exists []. simpl. rewrite app_nil_r.
    repeat split. intros [|j] page E; discriminate.
  - cbn [more_pages] in H.
    replace (Z.of_nat k + 1) with (Z.of_nat (S k)) in H by lia.
    apply and_then_inv in H. destruct H as [(res & w1 & H1 & H) | (e & _ & E)];
      [|discriminate].
    apply get_page_ok in H1.
    destruct H1 as (sid1 & login & w0 & resp & D & L1 & W & -> & T & S200 & J).
    destruct D as [[-> ->] | (L0 & _)]; [|congruence].
    assert (sid1 = sid) as -> by congruence.
    apply and_then_inv in H. destruct H as [(page & w2 & H2 & H) | (e & _ & E)];
      [|discriminate].
    apply lift_inv in H2. destruct H2 as [-> B].
    apply IH in H; [|now rewrite class_lookup_sent].
    destruct H as (-> & pages & Hl & -> & Hp).
    split.
    + rewrite sent_sent. reflexivity.
    + exists (page :: pages). cbn [List.concat List.length].
      rewrite Hl, <- app_assoc. repeat split.
      intros [|j] pg E.
      * inversion E; subst pg. exists res. exists resp.
        unfold page_requests. cbn [seq map]. rewrite app_nil_r, Nat.add_0_r.
        repeat split; assumption.
      * cbn [nth_error] in E. destruct (Hp j pg E) as (res' & A). exists res'.
        rewrite wire_sent, <- app_assoc in A.
        replace (S k + S j)%nat with (S (S k) + j)%nat by lia. exact A.
Qed.

(** The whole listing, when it returns: at most one login, then the pages
    from 0 up to the [page_count] of page 0, each through the same session;
    the result is the pages' workouts, joined in page order. *)
Lemma list_trace limit w ws w' :
  PelotonWorkoutFactory_list transport PELOTON_USERNAME PELOTON_PASSWORD limit w
  = (inr ws, w') ->
  exists sid user login n pages,
    (login = [] \/ exists u p, login = [Login sid u p])
    /\ (class_lookup user_id PelotonWorkoutFactory w = Some user
        \/ exists u p, login = [Login sid u p]
                       /\ login_answer (transport (wire w) (Login sid u p)) = inr user)
    /\ wire w' = (wire w ++ login ++ page_requests sid user limit 0 (S n))%list
    /\ List.length pages = S n
    /\ ws = List.concat pages
    /\ forall j page, nth_error pages j = Some page ->
         exists res,
           page_answer (wire w ++ login ++ page_requests sid user limit 0 j)%list
                       (page_request sid user limit j) page res
           /\ (j = 0%nat ->
               exists pc, subscript_str res "page_count" = Ok pc
                          /\ range_from_one pc = Ok n).
Proof.
  intros H. unfold PelotonWorkoutFactory_list in H.
  apply and_then_inv in H. destruct H as [(uid & w1 & H1 & H) | (e & _ & E)];
    [|discriminate].
  apply class_get_inv in H1. destruct H1 as [-> Lu].
  apply and_then_inv in H. destruct H as [([] & w2 & H2 & H) | (e & _ & E)];
    [|discriminate].
  apply and_then_inv in H. destruct H as [(user & w3 & H3 & H) | (e & _ & E)];
    [|discriminate].
  apply class_get_inv in H3. destruct H3 as [-> Lu2].
  apply and_then_inv in H. destruct H as [(res & w4 & H4 & H) | (e & _ & E)];
    [|discriminate].
  apply get_page_ok in H4.
  destruct H4 as (sid & login2 & w0 & resp & D & L & W & -> & T & S200 & J).
  apply and_then_inv in H. destruct H as [(page0 & w5 & H5 & H) | (e & _ & E)];
    [|discriminate].
  apply lift_inv in H5. destruct H5 as [-> B0].
  apply and_then_inv in H. destruct H as [(pc & w6 & H6 & H) | (e & _ & E)];
    [|discriminate].
  apply lift_inv in H6. destruct H6 as [-> Hpc].
  apply and_then_inv in H. destruct H as [(n & w7 & H7 & H) | (e & _ & E)];
    [|discriminate].
  apply lift_inv in H7. destruct H7 as [-> Hn].
  apply (more_pages_trace sid user limit n 0) in H;
    [| rewrite class_lookup_sent; exact L].
  destruct H as (-> & pages & Hl & -> & Hp).
  assert (K : exists login,
             (login = [] \/ exists u p, login = [Login sid u p])
             /\ (class_lookup user_id PelotonWorkoutFactory w = Some user
                 \/ exists u p, login = [Login sid u p]
                     /\ login_answer (transport (wire w) (Login sid u p)) = inr user)
             /\ wire w0 = (wire w ++ login)%list).
  { destruct (is_none uid) eqn:N.
    - apply create_view in H2.
      destruct H2 as [(_ & e & E & _) | (u & p & Hw & _ & Hs & A)]; [discriminate|].
      pose proof (class_lookup_own _ _ _ _ Hs) as Ls.
      destruct D as [[-> ->] | (L0 & _)]; [|congruence].
      assert (sid = sessions w) as -> by congruence.
      destruct (login_answer (transport (wire w) (Login (sessions w) u p)))
        as [e|uid'] eqn:A'; [discriminate|].
      destruct A as [_ A]. apply class_lookup_own in A.
      assert (uid' = user) as -> by congruence.
      exists [Login (sessions w) u p]. split; [right; now exists u, p|].
      split; [right; now exists u, p|]. now rewrite W, app_nil_r.
    - unfold pure in H2. inversion H2; subst w2.
      exists login2. split; [|split; [now left | exact W]].
      destruct D as [[-> _] | (_ & u & p & ->)]; [now left | right; now exists u, p]. }
  destruct K as (login & Dl & Du & Ww).
  exists sid, user, login, n, (page0 :: pages).
  split; [exact Dl|]. split; [exact Du|]. split; [|split; [|split]].
  - rewrite !wire_sent, Ww, <- !app_assoc. reflexivity.
  - cbn [List.length]. now rewrite Hl.
  - reflexivity.
  - intros [|j] pg E.
    + inversion E; subst pg. exists res. split.
      * exists resp. unfold page_requests. cbn [seq map].
        rewrite app_nil_r, <- Ww. repeat split; assumption.
      * intros _. now exists pc.
    + cbn [nth_error] in E. destruct (Hp j pg E) as (res' & A). exists res'.
      split; [|discriminate].
      rewrite wire_sent, Ww, <- !app_assoc in A. exact A.
Qed.

Lemma api_request_logs_in cls t w r w' :
  class_lookup peloton_session cls w = Some None ->
  request cls t w = (r, w') ->
  (wire w' = wire w /\ exists e, r = inl e)
  \/ (exists u p, wire w' = (wire w ++ [Login (sessions w) u p])%list
                  /\ exists e, r = inl e)
  \/ (exists u p, wire w' = (wire w ++ [Login (sessions w) u p; Get (sessions w) t])%list).
Proof.
  intros L H. rewrite (api_request_without_session _ _ _ L) in H.
  destruct (create cls w) as [[e|[]] w1] eqn:C.
  - inversion H; subst. apply create_view in C.
    destruct C as [((Hw & _) & _) | (u & p & Hw & _)].
    + left. split; [exact Hw | now exists e].
    + right; left. exists u, p. split; [exact Hw | now exists e].
  - apply create_view in C.
    destruct C as [(_ & e & E & _) | (u & p & Hw & _ & Hs & _)]; [discriminate|].
    apply class_lookup_own in Hs.
    rewrite (api_request_with_session _ _ _ _ Hs) in H. inversion H; subst.
    right; right. exists u, p. rewrite wire_sent, Hw, <- app_assoc. reflexivity.
Qed.

(** X17. A listing that returns has sent at most one login and then one GET
    per page, for the pages 0, 1, ... in order up to the [page_count] that
    page 0 announced (one GET when that is 1 or less), all through one
    session, for one user and with the same limit.  The user is the class's
    [user_id], or the one the login answered when the class had none.  The
    result is the concatenation, in page order, of what each page's [data]
    gives. *)
Theorem listing_walks_the_pages limit w ws w' :
  PelotonWorkoutFactory_list transport PELOTON_USERNAME PELOTON_PASSWORD limit w
  = (inr ws, w') ->
  exists sid user login n pages,
    (login = [] \/ exists u p, login = [Login sid u p])
    /\ (class_lookup user_id PelotonWorkoutFactory w = Some user
        \/ exists u p, login = [Login sid u p]
                       /\ login_answer (transport (wire w) (Login sid u p)) = inr user)
    /\ wire w' = (wire w ++ login ++ page_requests sid user limit 0 (S n))%list
    /\ List.length pages = S n
    /\ ws = List.concat pages
    /\ forall j page, nth_error pages j = Some page ->
         exists res,
           page_answer (wire w ++ login ++ page_requests sid user limit 0 j)%list
                       (page_request sid user limit j) page res
           /\ (j = 0%nat ->
               exists pc, subscript_str res "page_count" = Ok pc
                          /\ range_from_one pc = Ok n).
Proof. apply list_trace. Qed.

(** X18. The listing loads no metrics: every workout it returns is a
    [PelotonWorkout] with the twelve attributes and [metrics] deferred, so
    the first read of [metrics] on each of them is a call of
    [PelotonWorkoutMetricsFactory.get] with that workout's id, whose result
    is stored and returned and whose exception propagates. *)
Theorem listed_workouts_defer_metrics limit w ws w' :
  PelotonWorkoutFactory_list transport PELOTON_USERNAME PELOTON_PASSWORD limit w
  = (inr ws, w') ->
  Forall deferred_workout ws.
Proof.
  intros H. apply list_trace in H.
  destruct H as (sid & user & login & n & pages & _ & _ & _ & _ & -> & Hp).
  apply Forall_concat. apply Forall_forall. intros page Hin.
  apply In_nth_error in Hin. destruct Hin as (j & Hj).
  destruct (Hp j page Hj) as (res & (resp & _ & _ & _ & B) & _).
  now apply page_workouts_deferred in B.
Qed.

(** X19. Each entry point writes the class attributes of one class only:
    [_api_request] those of the class it is called on, the listing those of
    [PelotonWorkoutFactory], [PelotonWorkoutFactory.get] those of
    [PelotonAPI], and [PelotonWorkoutMetricsFactory.get] those of
    [PelotonWorkoutMetricsFactory]; the own attributes of the other two
    classes are as before, whether the call returns or raises. *)
Theorem class_attributes_are_written_per_class limit workout_id cls t w :
  frame cls w (snd (request cls t w))
  /\ frame PelotonWorkoutFactory w
       (snd (PelotonWorkoutFactory_list transport PELOTON_USERNAME PELOTON_PASSWORD
               limit w))
  /\ frame PelotonAPI w
       (snd (PelotonWorkoutFactory_get_wire transport PELOTON_USERNAME PELOTON_PASSWORD
               workout_id w))
  /\ frame PelotonWorkoutMetricsFactory w
       (snd (PelotonWorkoutMetricsFactory_get_wire transport PELOTON_USERNAME
               PELOTON_PASSWORD workout_id w)).
Proof.
  repeat split.
  - destruct (request cls t w) as [r w'] eqn:E. apply (request_framed _ _ _ _ _ E).
  - destruct (PelotonWorkoutFactory_list _ _ _ limit w) as [r w'] eqn:E.
    apply (list_framed _ _ _ _ E).
  - destruct (PelotonWorkoutFactory_get_wire _ _ _ workout_id w) as [r w'] eqn:E.
    apply (get_wire_framed _ _ _ _ E).
  - destruct (PelotonWorkoutMetricsFactory_get_wire _ _ _ workout_id w) as [r w'] eqn:E.
    apply (metrics_get_wire_framed _ _ _ _ E).
Qed.

(** X20. The session of a listing is not the session of the detail calls.
    When [PelotonAPI] itself has no session, it still has none after a
    listing, so a [PelotonWorkoutFactory.get] that follows never reuses the
    listing's session: it stops before sending anything, or it creates a new
    session and logs in, and sends its GET through that one. *)
Theorem detail_call_after_listing_logs_in_again limit workout_id w r1 w1 r2 w2 :
  class_lookup peloton_session PelotonAPI w = Some None ->
  PelotonWorkoutFactory_list transport PELOTON_USERNAME PELOTON_PASSWORD limit w
  = (r1, w1) ->
  PelotonWorkoutFactory_get_wire transport PELOTON_USERNAME PELOTON_PASSWORD
    workout_id w1 = (r2, w2) ->
  (wire w2 = wire w1 /\ exists e, r2 = inl e)
  \/ (exists u p, wire w2 = (wire w1 ++ [Login (sessions w1) u p])%list
                  /\ exists e, r2 = inl e)
  \/ (exists u p,
        wire w2 = (wire w1 ++ [Login (sessions w1) u p;
                               Get (sessions w1) (Lazy (WorkoutDetail workout_id))])%list).
Proof.
  intros L H1 H2.
  assert (L1 : class_lookup peloton_session PelotonAPI w1 = Some None).
  { destruct (list_framed _ _ _ _ H1) as [F _].
    unfold class_lookup in *. change (api_attrs w1) with (own PelotonAPI w1).
    change (api_attrs w) with (own PelotonAPI w) in L.
    rewrite (F PelotonAPI) by discriminate. exact L. }
  unfold PelotonWorkoutFactory_get_wire in H2.
  apply and_then_inv in H2. destruct H2 as [(resp & wa & Ha & Hb) | (e & Ha & ->)].
  - assert (S : same wa w2).
    { assert (E : ensures same anything
                    (workout <~ lift (of_sum (json resp)) ;;
                     lift (kw <- as_kwargs workout ;; PelotonWorkout_init kw)))
        by ensure.
      apply (E _ _ _ Hb). }
    unfold same in S. subst w2.
    destruct (api_request_logs_in _ _ _ _ _ L1 Ha)
      as [(_ & e & E) | [(u & p & _ & e & E) | (u & p & Hw)]]; try discriminate.
    right; right. exists u, p. exact Hw.
  - destruct (api_request_logs_in _ _ _ _ _ L1 Ha)
      as [(Hw & _) | [(u & p & Hw & _) | (u & p & Hw)]].
    + left. split; [exact Hw | now exists e].
    + right; left. exists u, p. split; [exact Hw | now exists e].
    + right; right. exists u, p. exact Hw.
Qed.

(** X21. A rejected login is not retried by [_api_request].  When a request
    raises one of the module's three exceptions, a login was sent and
    answered with a status from 300 to 599; the session of that login stays
    on the class, so every later [_api_request] on the class sends its GET
    through it, without logging in. *)
Theorem rejected_login_is_not_retried cls t w e w' resp :
  request cls t w = (inl e, w') ->
  e = PelotonRedirectError resp \/ e = PelotonClientError resp
  \/ e = PelotonServerError resp ->
  exists u p,
    wire w' = (wire w ++ [Login (sessions w) u p])%list
    /\ transport (wire w) (Login (sessions w) u p) = inr resp
    /\ 300 <= status_code resp < 600
    /\ class_lookup peloton_session cls w' = Some (Some (sessions w))
    /\ forall t2,
         request cls t2 w'
         = (checked (transport (wire w') (Get (sessions w) t2)),
            sent [Get (sessions w) t2] w').
Proof.
  intros H He.
  assert (Np : ~ plain e) by (destruct He as [-> | [-> | ->]]; exact (fun x => x)).
  assert (Kc : forall x, checked x = inl e -> False).
  { intros [e0|resp0]; unfold checked.
    - intros E. inversion E; subst. apply Np. exact I.
    - destruct (status_code resp0 <=? 200); intros E; inversion E; subst.
      apply Np. exact I. }
  destruct (class_lookup peloton_session cls w) as [[sid|]|] eqn:L.
  - rewrite (api_request_with_session _ _ _ _ L) in H. inversion H as [[E W]].
    now apply Kc in E.
  - rewrite (api_request_without_session _ _ _ L) in H.
    destruct (create cls w) as [[e'|[]] w1] eqn:C.
    + inversion H; subst e' w1. apply create_view in C.
      destruct C as [(_ & e0 & E & Pe) | (u & p & Hw & _ & Hs & A)].
      * inversion E; subst. contradiction.
      * exists u, p. apply class_lookup_own in Hs.
        split; [exact Hw|].
        assert (T : transport (wire w) (Login (sessions w) u p) = inr resp
                    /\ 300 <= status_code resp < 600).
        { destruct (transport (wire w) (Login (sessions w) u p)) as [e0|resp0];
            unfold login_answer in A.
          - inversion A; subst. exfalso. apply Np. exact I.
          - cbv zeta in A.
            destruct ((300 <=? status_code resp0) && (status_code resp0 <? 400)) eqn:S3;
              [inversion A; subst;
               destruct He as [E | [E | E]]; inversion E; subst; split; [reflexivity | lia] |].
            destruct ((400 <=? status_code resp0) && (status_code resp0 <? 500)) eqn:S4;
              [inversion A; subst;
               destruct He as [E | [E | E]]; inversion E; subst; split; [reflexivity | lia] |].
            destruct ((500 <=? status_code resp0) && (status_code resp0 <? 600)) eqn:S5;
              [inversion A; subst;
               destruct He as [E | [E | E]]; inversion E; subst; split; [reflexivity | lia] |].
            exfalso. apply Np.
            destruct (json resp0) as [e0|body]; [inversion A; exact I|].
            destruct (subscript_str body "user_id");
              [destruct A as [A _]; discriminate | inversion A; exact I
              | inversion A; exact I]. }
        destruct T as [T S]. split; [exact T|]. split; [exact S|]. split; [exact Hs|].
        intros t2. now apply api_request_with_session.
    + apply create_view in C.
      destruct C as [(_ & e0 & E & _) | (u & p & _ & _ & Hs & _)]; [discriminate|].
      apply class_lookup_own in Hs.
      rewrite (api_request_with_session _ _ _ _ Hs) in H. inversion H as [[E W]].
      now apply Kc in E.
  - unfold _api_request, and_then, class_get in H. rewrite L in H.
    inversion H; subst. exfalso. apply Np. exact I.
Qed.

(** X22. Missing credentials never raise the [PelotonClientError] that the
    credential check was written for.  [_create_api_session] raises
    [PelotonClientError] only after a login was sent and answered with a
    status from 400 to 499; and when the class has no username and the
    import left [PELOTON_USERNAME] unbound, it raises [NameError] before
    anything is stored, created or sent. *)
Theorem client_error_is_a_rejected_login cls w r w' :
  create cls w = (r, w') ->
  (forall resp, r = inl (PelotonClientError resp) ->
     exists u p,
       transport (wire w) (Login (sessions w) u p) = inr resp
       /\ 400 <= status_code resp < 500
       /\ wire w' = (wire w ++ [Login (sessions w) u p])%list)
  /\ (class_lookup peloton_username cls w = Some VNone ->
      PELOTON_USERNAME = None ->
      r = inl (NameError "PELOTON_USERNAME") /\ w' = w).
Proof.
  intros H. split.
  - intros resp ->. apply create_view in H.
    destruct H as [(_ & e0 & E & Pe) | (u & p & Hw & _ & _ & A)].
    + inversion E; subst. contradiction.
    + exists u, p.
      destruct (transport (wire w) (Login (sessions w) u p)) as [e0|resp0];
        unfold login_answer in A; [discriminate|]. cbv zeta in A.
      destruct ((300 <=? status_code resp0) && (status_code resp0 <? 400)) eqn:S3;
        [discriminate|].
      destruct ((400 <=? status_code resp0) && (status_code resp0 <? 500)) eqn:S4.
      * inversion A; subst. repeat split; try assumption; lia.
      * destruct ((500 <=? status_code resp0) && (status_code resp0 <? 600));
          [discriminate|].
        destruct (json resp0) as [e0|body]; [discriminate|].
        destruct (subscript_str body "user_id"); [destruct A as [A _] | |];
          discriminate.
  - intros L G. unfold _create_api_session, and_then, class_get in H.
    rewrite L, G in H. cbn in H. inversion H. now split.
Qed.

End Sessions.


(** ** Concrete transports *)

(** A page of the listing: the workouts with the given ids and the number of
    pages. *)
Definition page_of (ids : list string) (page_count : Z) : pyval :=
  VDict [ ("data", VList (map (fun i => VDict [("id", VStr i)]) ids));
          ("page_count", VInt page_count) ].

(** A service with three workouts on two pages. *)
Definition two_pages : list call -> call -> exn + response :=
  fun _ c =>
    match c with
    | Login _ _ _ => inr (mkResponse 200 (inr (VDict [("user_id", VStr "u1")])))
    | Get _ (Workouts _ 0 _) => inr (mkResponse 200 (inr (page_of ["w1"; "w2"] 2)))
    | Get _ (Workouts _ _ _) => inr (mkResponse 200 (inr (page_of ["w3"] 2)))
    | Get _ (Lazy r) => answer detail_full r
    end.

(** A service that rejects every login. *)
Definition rejecting : list call -> call -> exn + response :=
  fun _ c =>
    match c with
    | Login _ _ _ => inr (mkResponse 401 (inl ValueError))
    | Get _ _ => inr (mkResponse 200 (inr (VDict [])))
    end.

Definition me : option pyval := Some (VStr "me").
Definition secret : option pyval := Some (VStr "secret").

(** The first listing after the import: its result and the world it
    leaves. *)
Definition listed (x : (failure + list pyval) * world) : list pyval :=
  match fst x with inr ws => ws | inl _ => [] end.

Definition listed_workouts : list pyval := Eval vm_compute in
  listed (PelotonWorkoutFactory_list two_pages me secret (VInt 10) imported).

Definition after_listing : world := Eval vm_compute in
  snd (PelotonWorkoutFactory_list two_pages me secret (VInt 10) imported).

(** The detail call that follows the listing. *)
Definition detail_result : failure + pyval := Eval vm_compute in
  fst (PelotonWorkoutFactory_get_wire two_pages me secret (VStr "w1") after_listing).

Definition after_detail : world := Eval vm_compute in
  snd (PelotonWorkoutFactory_get_wire two_pages me secret (VStr "w1") after_listing).

(** The world after a request, and after a session attempt, against the
    rejecting service. *)
Definition after_rejected_request : world := Eval vm_compute in
  snd (_api_request rejecting me secret PelotonAPI
           (Lazy (WorkoutDetail (VStr "w1"))) imported).

Definition after_rejected_session : world := Eval vm_compute in
  snd (_create_api_session rejecting me secret PelotonWorkoutFactory imported).

Lemma listing_walks_the_pages_witness :
  exists sid user login n,
    wire after_listing = (login ++ page_requests sid user (VInt 10) 0 (S n))%list.
Proof.
  assert (H : PelotonWorkoutFactory_list two_pages me secret (VInt 10) imported
              = (inr listed_workouts, after_listing))
    by (vm_compute; reflexivity).
  destruct (listing_walks_the_pages two_pages me secret (VInt 10) imported
              listed_workouts after_listing H)
    as (sid & user & login & n & pages & _ & _ & Hw & _).
  exists sid, user, login, n. exact Hw.
Defined.

Lemma listed_workouts_defer_metrics_witness :
  Forall deferred_workout listed_workouts.
Proof.
  assert (H : PelotonWorkoutFactory_list two_pages me secret (VInt 10) imported
              = (inr listed_workouts, after_listing))
    by (vm_compute; reflexivity).
  exact (listed_workouts_defer_metrics two_pages me secret (VInt 10) imported
           listed_workouts after_listing H).
Defined.

Lemma detail_call_after_listing_logs_in_again_witness :
  (wire after_detail = wire after_listing /\ exists e, detail_result = inl e)
  \/ (exists u p,
        wire after_detail = (wire after_listing ++ [Login (sessions after_listing) u p])%list
        /\ exists e, detail_result = inl e)
  \/ (exists u p,
        wire after_detail
        = (wire after_listing
           ++ [Login (sessions after_listing) u p;
               Get (sessions after_listing) (Lazy (WorkoutDetail (VStr "w1")))])%list).
Proof.
  assert (L : class_lookup peloton_session PelotonAPI imported = Some None)
    by reflexivity.
  assert (H1 : PelotonWorkoutFactory_list two_pages me secret (VInt 10) imported
               = (inr listed_workouts, after_listing))
    by (vm_compute; reflexivity).
  assert (H2 : PelotonWorkoutFactory_get_wire two_pages me secret (VStr "w1")
                 after_listing
               = (detail_result, after_detail))
    by (vm_compute; reflexivity).
  exact (detail_call_after_listing_logs_in_again two_pages me secret (VInt 10)
           (VStr "w1") imported (inr listed_workouts) after_listing
           detail_result after_detail L H1 H2).
Defined.

Lemma rejected_login_is_not_retried_witness :
  class_lookup peloton_session PelotonAPI after_rejected_request = Some (Some 0%nat).
Proof.
  assert (H : _api_request rejecting me secret PelotonAPI
                (Lazy (WorkoutDetail (VStr "w1"))) imported
              = (inl (PelotonClientError (mkResponse 401 (inl ValueError))),
                 after_rejected_request))
    by (vm_compute; reflexivity).
  assert (He : PelotonClientError (mkResponse 401 (inl ValueError))
               = PelotonRedirectError (mkResponse 401 (inl ValueError))
               \/ PelotonClientError (mkResponse 401 (inl ValueError))
                  = PelotonClientError (mkResponse 401 (inl ValueError))
               \/ PelotonClientError (mkResponse 401 (inl ValueError))
                  = PelotonServerError (mkResponse 401 (inl ValueError)))
    by (right; left; reflexivity).
  destruct (rejected_login_is_not_retried rejecting me secret PelotonAPI
              (Lazy (WorkoutDetail (VStr "w1"))) imported
              (PelotonClientError (mkResponse 401 (inl ValueError)))
              after_rejected_request (mkResponse 401 (inl ValueError)) H He)
    as (u & p & _ & _ & _ & Hs & _).
  exact Hs.
Defined.

Lemma client_error_is_a_rejected_login_witness :
  exists u p, rejecting [] (Login 0 u p) = inr (mkResponse 401 (inl ValueError)).
Proof.
  assert (H : _create_api_session rejecting me secret PelotonWorkoutFactory imported
              = (inl (PelotonClientError (mkResponse 401 (inl ValueError))),
                 after_rejected_session))
    by (vm_compute; reflexivity).
  destruct (proj1 (client_error_is_a_rejected_login rejecting me secret
                     PelotonWorkoutFactory imported
                     (inl (PelotonClientError (mkResponse 401 (inl ValueError))))
                     after_rejected_session H)
                  (mkResponse 401 (inl ValueError)) eq_refl)
    as (u & p & T & _).
  exists u, p. exact T.
Defined.
